(** * AzurKnowledge: the data parser, its exports, the progress tracker and
    the collection scripts

    A shallow embedding of [azur_lane_data_parser.py] (class
    [AzurLaneDataParser]) and of the scripts of [azur-lane-equipment-db]
    ([scripts/utils.py], [scripts/scraper.py], [scripts/run_collection.py]),
    followed by the properties of the written specification that were
    checked against them and by further properties read off the code.

    Python runs on dynamically typed values, and the parser stores whatever
    the JSON tables hold: the embedding therefore works on a type [pyval] of
    JSON-shaped Python values, with Python's own rules for [==], [<], [str],
    [len], indexing, truthiness and hashing written out.  JSON numbers with a
    fraction or an exponent (Python floats) are not part of [pyval], and a
    string is a sequence of characters with code points below 256.

    The methods of the parser run in a state and exception monad [M] over
    the collections of the parser object, the files written and standard
    output; what the run finds on disk is an [env].  The scripts work on a
    store of JSON documents and leave a list of events (printed lines and
    calls of git). *)

From Stdlib Require Import ZArith Ascii String.
From stdpp Require Import base list strings gmap pretty.

Set Warnings "-register-all".

Local Open Scope Z_scope.
Local Open Scope string_scope.

(** ** Python values and exceptions *)

Module Py.

Inductive pyval : Type :=
  | VNone
  | VBool (b : bool)
  | VInt (z : Z)
  | VStr (s : string)
  | VList (l : list pyval)
  | VDict (d : list (string * pyval)).

(** The exception classes the modelled code can meet.  All of them derive
    from [Exception], so an [except Exception] clause catches each one. *)
Inductive exn : Type :=
  | TypeError
  | ValueError
  | AttributeError
  | KeyError
  | IndexError
  | JSONDecodeError
  | OSError (msg : string).

Inductive result (A : Type) : Type :=
  | Ok (a : A)
  | Raise (e : exn).
Global Arguments Ok {A} a.
Global Arguments Raise {A} e.

Global Instance result_ret : MRet result := @Ok.
Global Instance result_bind : MBind result := λ A B f m,
  match m with Ok a => f a | Raise e => Raise e end.
Global Instance result_fmap : FMap result := λ A B f m,
  match m with Ok a => Ok (f a) | Raise e => Raise e end.

Definition is_ok {A} (r : result A) : bool :=
  match r with Ok _ => true | Raise _ => false end.

(** A dict is an association list in insertion order; [lookup_key] returns the
    first binding of a key. *)
Fixpoint lookup_key {V} (k : string) (d : list (string * V)) : option V :=
  match d with
  | [] => None
  | (k', v) :: d' => if String.eqb k k' then Some v else lookup_key k d'
  end.

(** [d[k] = v]: an existing key keeps its position, a new key goes last. *)
Fixpoint set_key {V} (k : string) (v : V) (d : list (string * V))
  : list (string * V) :=
  match d with
  | [] => [(k, v)]
  | (k', v') :: d' =>
      if String.eqb k k' then (k, v) :: d' else (k', v') :: set_key k v d'
  end.

(** Booleans are integers in Python: [True == 1] and [hash(True) == hash(1)]. *)
Definition py_num (v : pyval) : option Z :=
  match v with
  | VInt z => Some z
  | VBool b => Some (Z.b2z b)
  | _ => None
  end.

(** [a == b]. *)
Fixpoint py_eq (a b : pyval) {struct a} : bool :=
  match a, b with
  | VNone, VNone => true
  | VBool x, VBool y => Z.eqb (Z.b2z x) (Z.b2z y)
  | VBool x, VInt y => Z.eqb (Z.b2z x) y
  | VInt x, VBool y => Z.eqb x (Z.b2z y)
  | VInt x, VInt y => Z.eqb x y
  | VStr s, VStr t => String.eqb s t
  | VList l, VList m =>
      (fix go (l m : list pyval) {struct l} : bool :=
         match l, m with
         | [], [] => true
         | x :: l', y :: m' => py_eq x y && go l' m'
         | _, _ => false
         end) l m
  | VDict d, VDict e =>
      Nat.eqb (length d) (length e) &&
      (fix go (d : list (string * pyval)) : bool :=
         match d with
         | [] => true
         | (k, v) :: d' =>
             match lookup_key k e with
             | Some w => py_eq v w
             | None => false
             end && go d'
         end) d
  | _, _ => false
  end.

(** [a < b]: numbers with numbers, strings with strings (by code point),
    lists with lists (lexicographic); anything else is a [TypeError]. *)
Fixpoint py_lt (a b : pyval) {struct a} : result bool :=
  match a, b with
  | VBool x, VBool y => Ok (Z.ltb (Z.b2z x) (Z.b2z y))
  | VBool x, VInt y => Ok (Z.ltb (Z.b2z x) y)
  | VInt x, VBool y => Ok (Z.ltb x (Z.b2z y))
  | VInt x, VInt y => Ok (Z.ltb x y)
  | VStr s, VStr t => Ok (String.ltb s t)
  | VList l, VList m =>
      (fix go (l m : list pyval) {struct l} : result bool :=
         match l, m with
         | [], [] => Ok false
         | [], _ :: _ => Ok true
         | _ :: _, [] => Ok false
         | x :: l', y :: m' => if py_eq x y then go l' m' else py_lt x y
         end) l m
  | _, _ => Raise TypeError
  end.

(** Tuples compare like lists: the first pair of unequal components decides. *)
Fixpoint tuple_lt (l m : list pyval) : result bool :=
  match l, m with
  | [], [] => Ok false
  | [], _ :: _ => Ok true
  | _ :: _, [] => Ok false
  | x :: l', y :: m' => if py_eq x y then tuple_lt l' m' else py_lt x y
  end.

(** *** [repr] and [str] *)

Definition dquote : ascii := "034"%char.
Definition squote : ascii := "'"%char.
Definition backslash : ascii := "\"%char.
Definition tab : ascii := "009"%char.
Definition newline : ascii := "010"%char.
Definition carriage_return : ascii := "013"%char.

Definition hex_digit (n : N) : ascii :=
  match String.get (N.to_nat n) "0123456789abcdef" with
  | Some c => c
  | None => "0"%char
  end.

Definition hex2 (n : N) : string :=
  String (hex_digit (n / 16)) (String (hex_digit (n mod 16)) EmptyString).

Fixpoint has_char (c : ascii) (s : string) : bool :=
  match s with
  | EmptyString => false
  | String c' s' => Ascii.eqb c c' || has_char c s'
  end.

(** A character that [repr] writes as an escape: the C0 and C1 controls,
    DEL, the no-break space and the soft hyphen. *)
Definition unprintable (c : ascii) : bool :=
  let n := N_of_ascii c in
  ((n <? 32) || ((127 <=? n) && (n <=? 160)) || (n =? 173))%N.

Definition repr_char (q c : ascii) : string :=
  if Ascii.eqb c q || Ascii.eqb c backslash then String backslash (String c EmptyString)
  else if Ascii.eqb c tab then "\t"
  else if Ascii.eqb c newline then "\n"
  else if Ascii.eqb c carriage_return then "\r"
  else if unprintable c then "\x" +:+ hex2 (N_of_ascii c)
  else String c EmptyString.

Fixpoint repr_chars (q : ascii) (s : string) : string :=
  match s with
  | EmptyString => EmptyString
  | String c s' => repr_char q c +:+ repr_chars q s'
  end.

Definition repr_str (s : string) : string :=
  let q := if has_char squote s && negb (has_char dquote s) then dquote else squote in
  String q (repr_chars q s +:+ String q EmptyString).

Fixpoint py_repr (v : pyval) : string :=
  match v with
  | VNone => "None"
  | VBool true => "True"
  | VBool false => "False"
  | VInt z => pretty z
  | VStr s => repr_str s
  | VList l =>
      "[" +:+
      (fix go (l : list pyval) : string :=
         match l with
         | [] => EmptyString
         | x :: l' =>
             match l' with
             | [] => py_repr x
             | _ :: _ => py_repr x +:+ ", " +:+ go l'
             end
         end) l +:+ "]"
  | VDict d =>
      "{" +:+
      (fix go (d : list (string * pyval)) : string :=
         match d with
         | [] => EmptyString
         | (k, x) :: d' =>
             match d' with
             | [] => repr_str k +:+ ": " +:+ py_repr x
             | _ :: _ => repr_str k +:+ ": " +:+ py_repr x +:+ ", " +:+ go d'
             end
         end) d +:+ "}"
  end.

(** [str(v)]. *)
Definition py_str (v : pyval) : string :=
  match v with
  | VStr s => s
  | _ => py_repr v
  end.

(** *** Truthiness, length, indexing, iteration, membership *)

Definition py_truthy (v : pyval) : bool :=
  match v with
  | VNone => false
  | VBool b => b
  | VInt z => negb (Z.eqb z 0)
  | VStr s => negb (String.eqb s EmptyString)
  | VList l => negb (Nat.eqb (length l) 0)
  | VDict d => negb (Nat.eqb (length d) 0)
  end.

Definition py_len (v : pyval) : result nat :=
  match v with
  | VStr s => Ok (String.length s)
  | VList l => Ok (length l)
  | VDict d => Ok (length d)
  | _ => Raise TypeError
  end.

(** [v[i]] for a literal index [i >= 0].  The keys of a decoded JSON object
    are strings, so an integer never is one of them. *)
Definition py_getitem (v : pyval) (i : nat) : result pyval :=
  match v with
  | VList l =>
      match nth_error l i with Some x => Ok x | None => Raise IndexError end
  | VStr s =>
      match String.get i s with
      | Some c => Ok (VStr (String c EmptyString))
      | None => Raise IndexError
      end
  | VDict _ => Raise KeyError
  | _ => Raise TypeError
  end.

(** [v[k]] for a string [k]. *)
Definition py_getitem_str (v : pyval) (k : string) : result pyval :=
  match v with
  | VDict d =>
      match lookup_key k d with Some x => Ok x | None => Raise KeyError end
  | _ => Raise TypeError
  end.

(** [v.get(k, dflt)]: only a dict has the method. *)
Definition py_get (v : pyval) (k : string) (dflt : pyval) : result pyval :=
  match v with
  | VDict d => Ok (default dflt (lookup_key k d))
  | _ => Raise AttributeError
  end.

(** [v.items()]. *)
Definition py_items (v : pyval) : result (list (string * pyval)) :=
  match v with
  | VDict d => Ok d
  | _ => Raise AttributeError
  end.

(** The elements [for x in v] visits: a string yields its characters, a dict
    its keys. *)
Fixpoint chars (s : string) : list pyval :=
  match s with
  | EmptyString => []
  | String c s' => VStr (String c EmptyString) :: chars s'
  end.

Definition py_iter (v : pyval) : result (list pyval) :=
  match v with
  | VList l => Ok l
  | VStr s => Ok (chars s)
  | VDict d => Ok (map (λ kv, VStr (fst kv)) d)
  | _ => Raise TypeError
  end.

Fixpoint is_substring (k s : string) : bool :=
  String.prefix k s ||
  match s with
  | EmptyString => false
  | String _ s' => is_substring k s'
  end.

(** [k in v] for a string [k]: key of a dict, element of a list, substring of
    a string. *)
Definition py_contains_str (k : string) (v : pyval) : result bool :=
  match v with
  | VDict d => Ok (bool_decide (is_Some (lookup_key k d)))
  | VList l => Ok (existsb (py_eq (VStr k)) l)
  | VStr s => Ok (is_substring k s)
  | _ => Raise TypeError
  end.

(** Lists and dicts are unhashable: using one as a dict key is a [TypeError]. *)
Definition py_hashable (v : pyval) : bool :=
  match v with
  | VList _ | VDict _ => false
  | _ => true
  end.

(** [table.get(key, dflt)] on a dict whose keys are integers. *)
Definition int_key_get {V} (table : list (Z * V)) (key : pyval) (dflt : V)
  : result V :=
  if py_hashable key then
    Ok (match py_num key with
        | Some z => default dflt (snd <$> find (λ kv, Z.eqb (fst kv) z) table)
        | None => dflt
        end)
  else Raise TypeError.

(** *** [int(s)] and [s.isdigit()] on a string *)

Definition is_space (c : ascii) : bool :=
  let n := N_of_ascii c in
  (((9 <=? n) && (n <=? 13)) || ((28 <=? n) && (n <=? 32)) || (n =? 133) || (n =? 160))%N.

Definition digit_value (c : ascii) : option Z :=
  let n := N_of_ascii c in
  if ((48 <=? n) && (n <=? 57))%N then Some (Z.of_N n - 48) else None.

Fixpoint lstrip (s : string) : string :=
  match s with
  | String c s' => if is_space c then lstrip s' else s
  | EmptyString => EmptyString
  end.

Definition strip (s : string) : string :=
  String.rev (lstrip (String.rev (lstrip s))).

(** Decimal digits, a single underscore allowed between two digits.
    [after_digit] tells whether the previous character was a digit. *)
Fixpoint digits (acc : Z) (after_digit : bool) (s : string) : option Z :=
  match s with
  | EmptyString => if after_digit then Some acc else None
  | String c s' =>
      match digit_value c with
      | Some d => digits (10 * acc + d) true s'
      | None =>
          if Ascii.eqb c "_" && after_digit then
            match s' with
            | EmptyString => None
            | String c' _ =>
                match digit_value c' with
                | Some _ => digits acc false s'
                | None => None
                end
            end
          else None
      end
  end.

(** [int(s)] in base 10: surrounding white space, an optional sign, digits.
    (The interpreter's limit on the number of digits is not modelled.) *)
Definition py_int (s : string) : result Z :=
  let t := strip s in
  let '(negative, body) :=
    match t with
    | String "-" r => (true, r)
    | String "+" r => (false, r)
    | _ => (false, t)
    end in
  match digits 0 false body with
  | Some n => Ok (if negative : bool then - n else n)
  | None => Raise ValueError
  end.

(** [s.isdigit()]: non-empty and only digit characters; besides [0]-[9] the
    superscripts two, three and one count as digits. *)
Definition is_digit_char (c : ascii) : bool :=
  let n := N_of_ascii c in
  (((48 <=? n) && (n <=? 57)) || (n =? 178) || (n =? 179) || (n =? 185))%N.

Fixpoint all_digit_chars (s : string) : bool :=
  match s with
  | EmptyString => true
  | String c s' => is_digit_char c && all_digit_chars s'
  end.

Definition isdigit (s : string) : bool :=
  negb (String.eqb s EmptyString) && all_digit_chars s.

(** *** [sorted]

    A stable sort by a key, written as an insertion sort over [<] on keys.
    Whenever every two keys can be compared this is the one stable ordering,
    which is what [sorted] returns.  When some keys cannot be compared with
    each other, [sorted] raises [TypeError] as soon as it compares such a
    pair; which pairs it compares is a matter of its merge strategy, and the
    function below then raises on the pairs an insertion sort meets. *)
Section Sorted.
Context {A K : Type} (key : A → K) (lt : K → K → result bool).

Fixpoint insert_by (x : A) (l : list A) : result (list A) :=
  match l with
  | [] => Ok [x]
  | y :: l' =>
      b ← lt (key y) (key x);
      if b : bool then (r ← insert_by x l'; Ok (y :: r)) else Ok (x :: y :: l')
  end.

Fixpoint sorted_by (l : list A) : result (list A) :=
  match l with
  | [] => Ok []
  | x :: l' => r ← sorted_by l'; insert_by x r
  end.
End Sorted.

End Py.

Export Py.

(** ** Entity models (the three dataclasses)

    A field holds what the parser stored in it, which is the JSON value of
    the source record: the annotations of the dataclasses are not enforced.
    [id] is always the result of [int], and [type_name] always comes out of a
    lookup table. *)

Module Equipment.
Record t : Type := mk {
  id : Z;
  name : pyval;
  type : pyval;
  type_name : string;
  rarity : pyval;
  nationality : pyval;
  tech : pyval;
  damage : pyval;
  reload : pyval;
  armor_modifiers : pyval;
  ammo_type : pyval;
  weapon_ids : pyval;
  equip_parameters : pyval;
  property_rate : pyval;
  value_2 : pyval;
  value_3 : pyval;
  description : pyval;
  speciality : pyval;
  part_main : pyval;
  part_sub : pyval
}.

(** [dataclasses.asdict]: the fields in declaration order. *)
Definition asdict (e : t) : list (string * pyval) :=
  [ ("id", VInt (id e)); ("name", name e); ("type", type e);
    ("type_name", VStr (type_name e)); ("rarity", rarity e);
    ("nationality", nationality e); ("tech", tech e); ("damage", damage e);
    ("reload", reload e); ("armor_modifiers", armor_modifiers e);
    ("ammo_type", ammo_type e); ("weapon_ids", weapon_ids e);
    ("equip_parameters", equip_parameters e);
    ("property_rate", property_rate e); ("value_2", value_2 e);
    ("value_3", value_3 e); ("description", description e);
    ("speciality", speciality e); ("part_main", part_main e);
    ("part_sub", part_sub e) ].
End Equipment.

Module Ship.
Record t : Type := mk {
  id : Z;
  name : pyval;
  english_name : pyval;
  type : pyval;
  type_name : string;
  nationality : pyval;
  rarity : pyval;
  star : pyval;
  armor_type : pyval;
  (* Base stats (index mapping from attrs array) *)
  hp : pyval;
  firepower : pyval;
  torpedo : pyval;
  antiair : pyval;
  aviation : pyval;
  reload : pyval;
  armor : pyval;
  hit : pyval;
  evasion : pyval;
  speed : pyval;
  luck : pyval;
  antisub : pyval;
  (* Growth rates *)
  hp_growth : pyval;
  firepower_growth : pyval;
  torpedo_growth : pyval;
  antiair_growth : pyval;
  aviation_growth : pyval;
  reload_growth : pyval;
  armor_growth : pyval;
  hit_growth : pyval;
  evasion_growth : pyval;
  antisub_growth : pyval;
  (* Equipment slots *)
  equipment_proficiency : pyval;
  base_list : pyval;
  preload_count : pyval
}.

Definition asdict (s : t) : list (string * pyval) :=
  [ ("id", VInt (id s)); ("name", name s); ("english_name", english_name s);
    ("type", type s); ("type_name", VStr (type_name s));
    ("nationality", nationality s); ("rarity", rarity s); ("star", star s);
    ("armor_type", armor_type s);
    ("hp", hp s); ("firepower", firepower s); ("torpedo", torpedo s);
    ("antiair", antiair s); ("aviation", aviation s); ("reload", reload s);
    ("armor", armor s); ("hit", hit s); ("evasion", evasion s);
    ("speed", speed s); ("luck", luck s); ("antisub", antisub s);
    ("hp_growth", hp_growth s); ("firepower_growth", firepower_growth s);
    ("torpedo_growth", torpedo_growth s); ("antiair_growth", antiair_growth s);
    ("aviation_growth", aviation_growth s); ("reload_growth", reload_growth s);
    ("armor_growth", armor_growth s); ("hit_growth", hit_growth s);
    ("evasion_growth", evasion_growth s); ("antisub_growth", antisub_growth s);
    ("equipment_proficiency", equipment_proficiency s);
    ("base_list", base_list s); ("preload_count", preload_count s) ].
End Ship.

Module Weapon.
Record t : Type := mk {
  id : Z;
  name : pyval;
  damage : pyval;
  reload_max : pyval;
  bullet_id : pyval;
  barrage_id : pyval;
  spawn_bound : pyval;
  fire_fx : pyval;
  type : pyval;
  range : pyval;
  angle : pyval;
  min_range : pyval;
  aim_type : pyval
}.
End Weapon.

(** ** Lookup tables (class attributes of [AzurLaneDataParser]) *)

Definition EQUIP_TYPES : list (Z * string) :=
  [ (1, "DD Gun"); (2, "CL Gun"); (3, "CA Gun"); (4, "BB Gun"); (5, "Torpedo");
    (6, "AA Gun"); (7, "Fighter"); (8, "Torpedo Bomber"); (9, "Dive Bomber");
    (10, "Auxiliary"); (11, "CB Gun"); (12, "Seaplane");
    (13, "Submarine Torpedo"); (14, "Depth Charge");
    (15, "Anti-Submarine Aircraft"); (17, "Helicopter"); (18, "Goods") ].

Definition SHIP_TYPES : list (Z * string) :=
  [ (1, "Destroyer"); (2, "Light Cruiser"); (3, "Heavy Cruiser");
    (4, "Battlecruiser"); (5, "Battleship"); (6, "Light Carrier");
    (7, "Aircraft Carrier"); (8, "Submarine"); (9, "Aviation Cruiser");
    (10, "Aviation Battleship"); (11, "Torpedo Cruiser"); (12, "Repair Ship");
    (13, "Monitor"); (17, "Submarine Carrier"); (18, "Large Cruiser");
    (19, "Munition Ship"); (20, "Missile Destroyer"); (21, "Missile Cruiser");
    (22, "Frigate") ].

Definition NATIONS : list (Z * string) :=
  [ (0, "Universal"); (1, "Eagle Union"); (2, "Royal Navy");
    (3, "Sakura Empire"); (4, "Iron Blood"); (5, "Dragon Empery");
    (6, "Sardegna Empire"); (7, "Northern Parliament"); (8, "Iris Libre");
    (9, "Vichya Dominion"); (10, "Iris Orthodoxy"); (11, "Tempesta");
    (12, "META"); (13, "Unknown") ].

Definition RARITIES : list (Z * string) :=
  [ (1, "Common"); (2, "Rare"); (3, "Elite"); (4, "Super Rare");
    (5, "Ultra Rare"); (6, "Decisive") ].

(** ** The parser object, its surroundings, and the monad of its methods *)

(** What [load_json] finds under a file name of the data directory. *)
Inductive file_result : Type :=
  | NotFound
  | Loaded (document : pyval)
  | Invalid
  | Failed (e : exn).

(** The surroundings of a run: the data directory, and whether creating a
    directory or opening a file for writing raises. *)
Record env : Type := {
  tables : string → file_result;
  makedirs : string → option exn;
  open_w : string → option exn
}.

(** A line of standard output; [PrintExn text e] is [text] followed by the
    text of the exception [e]. *)
Inductive line : Type :=
  | Print (text : string)
  | PrintExn (text : string) (e : exn).

(** The collections of the parser object (dicts from [int] to entity, in
    insertion order), the files written so far, and standard output.  The
    attributes [bullets], [barrages], [ship_templates] and [equip_templates]
    are never assigned after [__init__] and are left out. *)
Record state : Type := {
  equipment : list (Z * Equipment.t);
  ships : list (Z * Ship.t);
  weapons : list (Z * Weapon.t);
  weapon_names : list (Z * pyval);
  files : gmap string string;
  stdout : list line
}.

(** [AzurLaneDataParser.__init__], in a file store [fs]. *)
Definition init (fs : gmap string string) : state :=
  {| equipment := []; ships := []; weapons := []; weapon_names := [];
     files := fs; stdout := [] |}.

Definition M (A : Type) : Type := state → state * result A.

Global Instance M_ret : MRet M := λ A a s, (s, Ok a).
Global Instance M_bind : MBind M := λ A B f m s,
  match m s with
  | (s', Ok a) => f a s'
  | (s', Raise e) => (s', Raise e)
  end.

Definition lift {A} (r : result A) : M A := λ s, (s, r).
Definition gets {A} (f : state → A) : M A := λ s, (s, Ok (f s)).
Definition modify (f : state → state) : M unit := λ s, (f s, Ok ()).

(** [try: body except Exception as e: handler(e)]. *)
Definition try_except {A} (body : M A) (handler : exn → M A) : M A := λ s,
  match body s with
  | (s', Ok a) => (s', Ok a)
  | (s', Raise e) => handler e s'
  end.

Fixpoint for_each {A} (l : list A) (body : A → M unit) : M unit :=
  match l with
  | [] => mret ()
  | x :: l' => body x ;; for_each l' body
  end.

Definition emit (l : line) : M unit := modify (λ s,
  {| equipment := equipment s; ships := ships s; weapons := weapons s;
     weapon_names := weapon_names s; files := files s;
     stdout := (stdout s ++ [l])%list |}).
Definition print (text : string) : M unit := emit (Print text).
Definition print_exn (text : string) (e : exn) : M unit := emit (PrintExn text e).

(** [d[k] = v] on a dict keyed by integers. *)
Fixpoint set_int_key {V} (k : Z) (v : V) (d : list (Z * V)) : list (Z * V) :=
  match d with
  | [] => [(k, v)]
  | (k', v') :: d' =>
      if Z.eqb k k' then (k, v) :: d' else (k', v') :: set_int_key k v d'
  end.

Definition lookup_int_key {V} (k : Z) (d : list (Z * V)) : option V :=
  snd <$> find (λ kv, Z.eqb (fst kv) k) d.

Definition values {K V} (d : list (K * V)) : list V := map snd d.

Definition set_equipment (k : Z) (e : Equipment.t) : M unit := modify (λ s,
  {| equipment := set_int_key k e (equipment s); ships := ships s;
     weapons := weapons s; weapon_names := weapon_names s; files := files s;
     stdout := stdout s |}).
Definition set_ship (k : Z) (x : Ship.t) : M unit := modify (λ s,
  {| equipment := equipment s; ships := set_int_key k x (ships s);
     weapons := weapons s; weapon_names := weapon_names s; files := files s;
     stdout := stdout s |}).
Definition set_weapon (k : Z) (w : Weapon.t) : M unit := modify (λ s,
  {| equipment := equipment s; ships := ships s;
     weapons := set_int_key k w (weapons s); weapon_names := weapon_names s;
     files := files s; stdout := stdout s |}).
Definition set_weapon_names (d : list (Z * pyval)) : M unit := modify (λ s,
  {| equipment := equipment s; ships := ships s; weapons := weapons s;
     weapon_names := d; files := files s; stdout := stdout s |}).
Definition set_files (f : gmap string string → gmap string string) : M unit :=
  modify (λ s,
  {| equipment := equipment s; ships := ships s; weapons := weapons s;
     weapon_names := weapon_names s; files := f (files s); stdout := stdout s |}).

(** ** Loading and parsing *)

(** [load_json] (lines 186-199): every failure becomes an empty dict and a
    diagnostic. *)
Definition load_json (E : env) (filename : string) : M pyval :=
  match tables E filename with
  | Loaded document => mret document
  | NotFound =>
      print ("Warning: " +:+ filename +:+ " not found") ;; mret (VDict [])
  | Invalid =>
      print_exn ("Error: Invalid JSON in " +:+ filename +:+ ": ") JSONDecodeError ;;
      mret (VDict [])
  | Failed e =>
      print_exn ("Error loading " +:+ filename +:+ ": ") e ;; mret (VDict [])
  end.

(** The call [Equipment(...)] of lines 212-230; the three fields it does not
    pass take the dataclass default, an empty list. *)
Definition new_equipment (equip_id : string) (data : pyval) : result Equipment.t :=
  id ← py_int equip_id;
  name ← py_get data "name" (VStr "Unknown");
  type ← py_get data "type" (VInt 0);
  type_code ← py_get data "type" (VInt 0);
  type_name ← int_key_get EQUIP_TYPES type_code "Unknown";
  rarity ← py_get data "rarity" (VInt 1);
  nationality ← py_get data "nationality" (VInt 0);
  tech ← py_get data "tech" (VInt 0);
  weapon_ids ← py_get data "weapon_id" (VList []);
  ammo_type ← py_get data "ammo" (VInt 0);
  value_2 ← py_get data "value_2" (VInt 0);
  value_3 ← py_get data "value_3" (VInt 0);
  description ← py_get data "descrip" (VStr EmptyString);
  speciality ← py_get data "speciality" (VStr EmptyString);
  part_main ← py_get data "part_main" (VList []);
  part_sub ← py_get data "part_sub" (VList []);
  property_rate ← py_get data "property_rate" (VList []);
  equip_parameters ← py_get data "equip_parameters" (VDict []);
  Ok {| Equipment.id := id; Equipment.name := name; Equipment.type := type;
        Equipment.type_name := type_name; Equipment.rarity := rarity;
        Equipment.nationality := nationality; Equipment.tech := tech;
        Equipment.damage := VList []; Equipment.reload := VList [];
        Equipment.armor_modifiers := VList [];
        Equipment.ammo_type := ammo_type; Equipment.weapon_ids := weapon_ids;
        Equipment.equip_parameters := equip_parameters;
        Equipment.property_rate := property_rate;
        Equipment.value_2 := value_2; Equipment.value_3 := value_3;
        Equipment.description := description;
        Equipment.speciality := speciality;
        Equipment.part_main := part_main; Equipment.part_sub := part_sub |}.

Definition with_template (equip : Equipment.t) (damage reload armor_modifiers : pyval)
  : Equipment.t :=
  {| Equipment.id := Equipment.id equip; Equipment.name := Equipment.name equip;
     Equipment.type := Equipment.type equip;
     Equipment.type_name := Equipment.type_name equip;
     Equipment.rarity := Equipment.rarity equip;
     Equipment.nationality := Equipment.nationality equip;
     Equipment.tech := Equipment.tech equip;
     Equipment.damage := damage; Equipment.reload := reload;
     Equipment.armor_modifiers := armor_modifiers;
     Equipment.ammo_type := Equipment.ammo_type equip;
     Equipment.weapon_ids := Equipment.weapon_ids equip;
     Equipment.equip_parameters := Equipment.equip_parameters equip;
     Equipment.property_rate := Equipment.property_rate equip;
     Equipment.value_2 := Equipment.value_2 equip;
     Equipment.value_3 := Equipment.value_3 equip;
     Equipment.description := Equipment.description equip;
     Equipment.speciality := Equipment.speciality equip;
     Equipment.part_main := Equipment.part_main equip;
     Equipment.part_sub := Equipment.part_sub equip |}.

(** Lines 232-237: the template of the same key supplies three fields. *)
Definition overlay_template (equip_id : string) (equip_templates : pyval)
    (equip : Equipment.t) : result Equipment.t :=
  present ← py_contains_str equip_id equip_templates;
  if present : bool then
    template ← py_getitem_str equip_templates equip_id;
    damage ← py_get template "damage" (VList []);
    reload ← py_get template "reload" (VList []);
    armor_modifiers ← py_get template "armor_modifiers" (VList []);
    Ok (with_template equip damage reload armor_modifiers)
  else Ok equip.

(** The body of the [try] of [parse_equipment] for one record. *)
Definition equipment_record (equip_templates : pyval) (equip_id : string)
    (data : pyval) : result (Z * Equipment.t) :=
  equip ← new_equipment equip_id data;
  equip ← overlay_template equip_id equip_templates equip;
  key ← py_int equip_id;
  Ok (key, equip).

(** [parse_equipment] (lines 201-244). *)
Definition parse_equipment (E : env) : M unit :=
  print "Parsing equipment data..." ;;
  equip_stats ← load_json E "equip_data_statistics.json";
  equip_templates ← load_json E "equip_data_template.json";
  items ← lift (py_items equip_stats);
  for_each items (λ '(equip_id, data),
    try_except
      ('(key, equip) ← lift (equipment_record equip_templates equip_id data);
       set_equipment key equip)
      (λ e, print_exn ("Error parsing equipment " +:+ equip_id +:+ ": ") e)) ;;
  n ← gets (λ s, length (equipment s));
  print ("Parsed " +:+ pretty n +:+ " equipment items").

(** [attrs[i] if len(attrs) > i else 0]. *)
Definition stat_at (attrs : pyval) (i : nat) : result pyval :=
  n ← py_len attrs;
  if (i <? n)%nat then py_getitem attrs i else Ok (VInt 0).

(** The body of the [try] of [parse_ships] up to the call [Ship(...)]
    (lines 255-300). *)
Definition new_ship (ship_id : string) (data : pyval) : result Ship.t :=
  attrs ← py_get data "attrs" (VList (replicate 12 (VInt 0)));
  attrs_growth ← py_get data "attrs_growth" (VList (replicate 12 (VInt 0)));
  id ← py_int ship_id;
  name ← py_get data "name" (VStr "Unknown");
  english_name ← py_get data "english_name" (VStr EmptyString);
  type ← py_get data "type" (VInt 0);
  type_code ← py_get data "type" (VInt 0);
  type_name ← int_key_get SHIP_TYPES type_code "Unknown";
  nationality ← py_get data "nationality" (VInt 0);
  rarity ← py_get data "rarity" (VInt 1);
  star ← py_get data "star" (VInt 1);
  armor_type ← py_get data "armor_type" (VInt 1);
  hp ← stat_at attrs 0;
  firepower ← stat_at attrs 1;
  torpedo ← stat_at attrs 2;
  antiair ← stat_at attrs 3;
  aviation ← stat_at attrs 4;
  reload ← stat_at attrs 5;
  armor ← stat_at attrs 6;
  hit ← stat_at attrs 7;
  evasion ← stat_at attrs 8;
  speed ← stat_at attrs 9;
  luck ← stat_at attrs 10;
  antisub ← stat_at attrs 11;
  hp_growth ← stat_at attrs_growth 0;
  firepower_growth ← stat_at attrs_growth 1;
  torpedo_growth ← stat_at attrs_growth 2;
  antiair_growth ← stat_at attrs_growth 3;
  aviation_growth ← stat_at attrs_growth 4;
  reload_growth ← stat_at attrs_growth 5;
  armor_growth ← stat_at attrs_growth 6;
  hit_growth ← stat_at attrs_growth 7;
  evasion_growth ← stat_at attrs_growth 8;
  antisub_growth ← stat_at attrs_growth 11;
  equipment_proficiency ← py_get data "equipment_proficiency" (VList []);
  base_list ← py_get data "base_list" (VList []);
  preload_count ← py_get data "preload_count" (VList []);
  Ok {| Ship.id := id; Ship.name := name; Ship.english_name := english_name;
        Ship.type := type; Ship.type_name := type_name;
        Ship.nationality := nationality; Ship.rarity := rarity;
        Ship.star := star; Ship.armor_type := armor_type;
        Ship.hp := hp; Ship.firepower := firepower; Ship.torpedo := torpedo;
        Ship.antiair := antiair; Ship.aviation := aviation;
        Ship.reload := reload; Ship.armor := armor; Ship.hit := hit;
        Ship.evasion := evasion; Ship.speed := speed; Ship.luck := luck;
        Ship.antisub := antisub;
        Ship.hp_growth := hp_growth;
        Ship.firepower_growth := firepower_growth;
        Ship.torpedo_growth := torpedo_growth;
        Ship.antiair_growth := antiair_growth;
        Ship.aviation_growth := aviation_growth;
        Ship.reload_growth := reload_growth;
        Ship.armor_growth := armor_growth; Ship.hit_growth := hit_growth;
        Ship.evasion_growth := evasion_growth;
        Ship.antisub_growth := antisub_growth;
        Ship.equipment_proficiency := equipment_proficiency;
        Ship.base_list := base_list; Ship.preload_count := preload_count |}.

(** The body of the [try] of [parse_ships] for one record. *)
Definition ship_record (ship_id : string) (data : pyval) : result (Z * Ship.t) :=
  ship ← new_ship ship_id data;
  key ← py_int ship_id;
  Ok (key, ship).

(** [parse_ships] (lines 246-307).  The template table is loaded and not
    used. *)
Definition parse_ships (E : env) : M unit :=
  print "Parsing ship data..." ;;
  ship_stats ← load_json E "ship_data_statistics.json";
  ship_templates ← load_json E "ship_data_template.json";
  items ← lift (py_items ship_stats);
  for_each items (λ '(ship_id, data),
    try_except
      ('(key, ship) ← lift (ship_record ship_id data);
       set_ship key ship)
      (λ e, print_exn ("Error parsing ship " +:+ ship_id +:+ ": ") e)) ;;
  n ← gets (λ s, length (ships s));
  print ("Parsed " +:+ pretty n +:+ " ships").

(** The dict comprehension of line 315:
    [{int(k): v for k, v in weapon_names.items() if k.isdigit()}]. *)
Fixpoint int_keyed (items : list (string * pyval)) (acc : list (Z * pyval))
  : result (list (Z * pyval)) :=
  match items with
  | [] => Ok acc
  | (k, v) :: items' =>
      if isdigit k then (key ← py_int k; int_keyed items' (set_int_key key v acc))
      else int_keyed items' acc
  end.

(** The call [Weapon(...)] of lines 325-339. *)
Definition new_weapon (names : list (Z * pyval)) (weapon_id : string)
    (data : pyval) : result Weapon.t :=
  id ← py_int weapon_id;
  name_key ← py_int weapon_id;
  let name := default (VStr EmptyString) (lookup_int_key name_key names) in
  damage ← py_get data "damage" (VInt 0);
  reload_max ← py_get data "reload_max" (VInt 0);
  bullet_id ← py_get data "bullet_ID" (VInt 0);
  barrage_id ← py_get data "barrage_ID" (VInt 0);
  spawn_bound ← py_get data "spawn_bound" (VStr EmptyString);
  fire_fx ← py_get data "fire_fx" (VStr EmptyString);
  type ← py_get data "type" (VInt 0);
  range ← py_get data "range" (VInt 0);
  angle ← py_get data "angle" (VInt 0);
  min_range ← py_get data "min_range" (VInt 0);
  aim_type ← py_get data "aim_type" (VInt 0);
  Ok {| Weapon.id := id; Weapon.name := name; Weapon.damage := damage;
        Weapon.reload_max := reload_max; Weapon.bullet_id := bullet_id;
        Weapon.barrage_id := barrage_id; Weapon.spawn_bound := spawn_bound;
        Weapon.fire_fx := fire_fx; Weapon.type := type; Weapon.range := range;
        Weapon.angle := angle; Weapon.min_range := min_range;
        Weapon.aim_type := aim_type |}.

(** The body of the [try] of [parse_weapons] for one record. *)
Definition weapon_record (names : list (Z * pyval)) (weapon_id : string)
    (data : pyval) : result (Z * Weapon.t) :=
  weapon ← new_weapon names weapon_id data;
  key ← py_int weapon_id;
  Ok (key, weapon).

(** [parse_weapons] (lines 309-345). *)
Definition parse_weapons (E : env) : M unit :=
  print "Parsing weapon data..." ;;
  name_table ← load_json E "weapon_name.json";
  name_items ← lift (py_items name_table);
  names ← lift (int_keyed name_items []);
  set_weapon_names names ;;
  weapon_data ← load_json E "weapon_property.json";
  weapon_data ←
    (if py_truthy weapon_data then mret weapon_data
     else
       print "  weapon_property.json not found, using bullet_template.json" ;;
       load_json E "bullet_template.json");
  items ← lift (py_items weapon_data);
  for_each items (λ '(weapon_id, data),
    try_except
      (names ← gets weapon_names;
       '(key, weapon) ← lift (weapon_record names weapon_id data);
       set_weapon key weapon)
      (λ e, print_exn ("Error parsing weapon " +:+ weapon_id +:+ ": ") e)) ;;
  n ← gets (λ s, length (weapons s));
  print ("Parsed " +:+ pretty n +:+ " weapons").

(** ** Export *)

Definition formula_triggers : list ascii :=
  [ "="%char; "+"%char; "-"%char; "@"%char; tab; carriage_return ].

(** [sanitize_csv_field] (lines 415-420). *)
Definition sanitize_csv_field (value : pyval) : string :=
  match value with
  | VStr (String c rest) =>
      if existsb (Ascii.eqb c) formula_triggers
      then String squote (String c rest)
      else py_str value
  | _ => py_str value
  end.

(** [os.path.join(a, b)] for a relative [b], with [/] as the separator. *)
Definition path_join (a b : string) : string :=
  match String.rev a with
  | EmptyString => b
  | String c _ => if Ascii.eqb c "/" then a +:+ b else a +:+ "/" +:+ b
  end.

(** *** The [csv] writer (dialect [excel], minimal quoting) *)

Fixpoint double_quotes (s : string) : string :=
  match s with
  | EmptyString => EmptyString
  | String c s' =>
      if Ascii.eqb c dquote then String dquote (String dquote (double_quotes s'))
      else String c (double_quotes s')
  end.

Definition needs_quotes (s : string) : bool :=
  has_char ","%char s || has_char dquote s ||
  has_char carriage_return s || has_char newline s.

(** The text of one cell: [None] is written as nothing, a string as it is,
    any other value through [str]. *)
Definition csv_text (v : pyval) : string :=
  match v with
  | VNone => EmptyString
  | _ => py_str v
  end.

Definition csv_field (v : pyval) : string :=
  let s := csv_text v in
  if needs_quotes s then String dquote (double_quotes s +:+ String dquote EmptyString)
  else s.

Definition crlf : string := String carriage_return (String newline EmptyString).

(** One record of two or more cells, as [writer.writerow] writes it. *)
Definition csv_record (cells : list pyval) : string :=
  String.concat "," (map csv_field cells) +:+ crlf.

(** [DictWriter._dict_to_list]: the cells of a row dict in column order. *)
Definition dict_to_list (fieldnames : list string) (row : list (string * pyval))
  : list pyval :=
  map (λ k, default (VStr EmptyString) (lookup_key k row)) fieldnames.

Definition header_record (fieldnames : list string) : string :=
  csv_record (map VStr fieldnames).

Definition row_record (fieldnames : list string) (row : list (string * pyval))
  : string :=
  csv_record (dict_to_list fieldnames row).

(** *** Files *)

(** [open(path, 'w')]: raises, or leaves the file empty. *)
Definition open_for_writing (E : env) (path : string) : M unit :=
  match open_w E path with
  | Some e => lift (Raise e)
  | None => set_files (λ fs, <[path := EmptyString]> fs)
  end.

Definition write (path text : string) : M unit :=
  set_files (λ fs, <[path := default EmptyString (fs !! path) +:+ text]> fs).

(** *** [export_to_csv] (lines 422-508) *)

Definition equipment_fieldnames : list string :=
  [ "id"; "name"; "type_name"; "rarity"; "nationality"; "tech";
    "weapon_ids"; "description"; "speciality" ].

Definition ship_fieldnames : list string :=
  [ "id"; "name"; "english_name"; "type_name"; "rarity"; "nationality";
    "hp"; "firepower"; "torpedo"; "antiair"; "aviation"; "reload";
    "armor"; "hit"; "evasion"; "speed"; "luck"; "antisub" ].

Definition weapon_fieldnames : list string :=
  [ "id"; "name"; "damage"; "reload_max"; "range"; "angle"; "type" ].

(** The row dict of lines 441-451. *)
Definition equipment_row (equip : Equipment.t) : result (list (string * pyval)) :=
  rarity ← int_key_get RARITIES (Equipment.rarity equip) "Unknown";
  nationality ← int_key_get NATIONS (Equipment.nationality equip) "Unknown";
  ids ← py_iter (Equipment.weapon_ids equip);
  Ok [ ("id", VInt (Equipment.id equip));
       ("name", VStr (sanitize_csv_field (Equipment.name equip)));
       ("type_name", VStr (Equipment.type_name equip));
       ("rarity", VStr rarity);
       ("nationality", VStr nationality);
       ("tech", Equipment.tech equip);
       ("weapon_ids", VStr (String.concat "," (map py_str ids)));
       ("description", VStr (sanitize_csv_field (Equipment.description equip)));
       ("speciality", VStr (sanitize_csv_field (Equipment.speciality equip))) ].

(** The row dict of lines 466-485. *)
Definition ship_row (ship : Ship.t) : result (list (string * pyval)) :=
  rarity ← int_key_get RARITIES (Ship.rarity ship) "Unknown";
  nationality ← int_key_get NATIONS (Ship.nationality ship) "Unknown";
  Ok [ ("id", VInt (Ship.id ship));
       ("name", VStr (sanitize_csv_field (Ship.name ship)));
       ("english_name", VStr (sanitize_csv_field (Ship.english_name ship)));
       ("type_name", VStr (Ship.type_name ship));
       ("rarity", VStr rarity);
       ("nationality", VStr nationality);
       ("hp", Ship.hp ship); ("firepower", Ship.firepower ship);
       ("torpedo", Ship.torpedo ship); ("antiair", Ship.antiair ship);
       ("aviation", Ship.aviation ship); ("reload", Ship.reload ship);
       ("armor", Ship.armor ship); ("hit", Ship.hit ship);
       ("evasion", Ship.evasion ship); ("speed", Ship.speed ship);
       ("luck", Ship.luck ship); ("antisub", Ship.antisub ship) ].

(** [weapon.name or f"Weapon_{weapon.id}"]. *)
Definition weapon_display_name (weapon : Weapon.t) : pyval :=
  if py_truthy (Weapon.name weapon) then Weapon.name weapon
  else VStr ("Weapon_" +:+ pretty (Weapon.id weapon)).

(** The row dict of lines 498-506. *)
Definition weapon_row (weapon : Weapon.t) : list (string * pyval) :=
  [ ("id", VInt (Weapon.id weapon));
    ("name", VStr (sanitize_csv_field (weapon_display_name weapon)));
    ("damage", Weapon.damage weapon);
    ("reload_max", Weapon.reload_max weapon);
    ("range", Weapon.range weapon);
    ("angle", Weapon.angle weapon);
    ("type", Weapon.type weapon) ].

Definition equipment_sort_key (x : Equipment.t) : list pyval :=
  [ Equipment.type x; Equipment.rarity x; Equipment.tech x ].

Definition ship_sort_key (x : Ship.t) : list pyval :=
  [ Ship.type x; Ship.rarity x; VInt (Ship.id x) ].

Definition int_lt (a b : Z) : result bool := Ok (Z.ltb a b).

Definition is_empty {A} (l : list A) : bool :=
  match l with [] => true | _ :: _ => false end.

(** Lines 432-453: [equipment.csv]. *)
Definition export_equipment_csv (E : env) (output_dir : string) : M unit :=
  let equip_file := path_join output_dir "equipment.csv" in
  open_for_writing E equip_file ;;
  equipment ← gets equipment;
  (if is_empty equipment then mret ()
   else
     write equip_file (header_record equipment_fieldnames) ;;
     ordered ← lift (sorted_by equipment_sort_key tuple_lt (values equipment));
     for_each ordered (λ equip,
       row ← lift (equipment_row equip);
       write equip_file (row_record equipment_fieldnames row))) ;;
  print ("  Exported " +:+ pretty (length equipment) +:+
         " equipment items to equipment.csv").

(** Lines 455-487: [ships.csv]. *)
Definition export_ships_csv (E : env) (output_dir : string) : M unit :=
  let ship_file := path_join output_dir "ships.csv" in
  open_for_writing E ship_file ;;
  ships ← gets ships;
  (if is_empty ships then mret ()
   else
     write ship_file (header_record ship_fieldnames) ;;
     ordered ← lift (sorted_by ship_sort_key tuple_lt (values ships));
     for_each ordered (λ ship,
       row ← lift (ship_row ship);
       write ship_file (row_record ship_fieldnames row))) ;;
  print ("  Exported " +:+ pretty (length ships) +:+ " ships to ships.csv").

(** Lines 489-508: [weapons.csv]. *)
Definition export_weapons_csv (E : env) (output_dir : string) : M unit :=
  let weapon_file := path_join output_dir "weapons.csv" in
  open_for_writing E weapon_file ;;
  weapons ← gets weapons;
  (if is_empty weapons then mret ()
   else
     write weapon_file (header_record weapon_fieldnames) ;;
     ordered ← lift (sorted_by Weapon.id int_lt (values weapons));
     for_each ordered (λ weapon,
       write weapon_file (row_record weapon_fieldnames (weapon_row weapon)))) ;;
  print ("  Exported " +:+ pretty (length weapons) +:+ " weapons to weapons.csv").

Definition export_to_csv (E : env) (output_dir : string) : M unit :=
  print (String newline ("Exporting data to " +:+ output_dir +:+ "/...")) ;;
  match makedirs E output_dir with
  | Some e => print_exn "Error creating output directory: " e
  | None =>
      export_equipment_csv E output_dir ;;
      export_ships_csv E output_dir ;;
      export_weapons_csv E output_dir
  end.

(** *** [json.dump(obj, f, indent=2, ensure_ascii=False)] *)

Definition json_escape_char (c : ascii) : string :=
  if Ascii.eqb c dquote then String backslash (String dquote EmptyString)
  else if Ascii.eqb c backslash then "\\"
  else if Ascii.eqb c newline then "\n"
  else if Ascii.eqb c carriage_return then "\r"
  else if Ascii.eqb c tab then "\t"
  else if Ascii.eqb c "008"%char then "\b"
  else if Ascii.eqb c "012"%char then "\f"
  else if (N_of_ascii c <? 32)%N then "\u00" +:+ hex2 (N_of_ascii c)
  else String c EmptyString.

Fixpoint json_escape (s : string) : string :=
  match s with
  | EmptyString => EmptyString
  | String c s' => json_escape_char c +:+ json_escape s'
  end.

Definition json_string (s : string) : string :=
  String dquote (json_escape s +:+ String dquote EmptyString).

Fixpoint spaces (n : nat) : string :=
  match n with
  | O => EmptyString
  | S n' => String " "%char (spaces n')
  end.

Definition newline_indent (level : nat) : string :=
  String newline (spaces (2 * level)).

Fixpoint json_dumps (level : nat) (v : pyval) : string :=
  match v with
  | VNone => "null"
  | VBool true => "true"
  | VBool false => "false"
  | VInt z => pretty z
  | VStr s => json_string s
  | VList l =>
      match l with
      | [] => "[]"
      | _ :: _ =>
          "[" +:+ newline_indent (S level) +:+
          (fix go (l : list pyval) : string :=
             match l with
             | [] => EmptyString
             | x :: l' =>
                 match l' with
                 | [] => json_dumps (S level) x
                 | _ :: _ =>
                     json_dumps (S level) x +:+ "," +:+
                     newline_indent (S level) +:+ go l'
                 end
             end) l +:+
          newline_indent level +:+ "]"
      end
  | VDict d =>
      match d with
      | [] => "{}"
      | _ :: _ =>
          "{" +:+ newline_indent (S level) +:+
          (fix go (d : list (string * pyval)) : string :=
             match d with
             | [] => EmptyString
             | (k, x) :: d' =>
                 match d' with
                 | [] => json_string k +:+ ": " +:+ json_dumps (S level) x
                 | _ :: _ =>
                     json_string k +:+ ": " +:+ json_dumps (S level) x +:+ "," +:+
                     newline_indent (S level) +:+ go d'
                 end
             end) d +:+
          newline_indent level +:+ "}"
      end
  end.

(** *** [export_to_json] (lines 510-554) *)

(** [groups[k].append(x)] on a [defaultdict(list)]. *)
Fixpoint group_append (k : string) (x : pyval) (groups : list (string * list pyval))
  : list (string * list pyval) :=
  match groups with
  | [] => [(k, [x])]
  | (k', xs) :: groups' =>
      if String.eqb k k' then (k', (xs ++ [x])%list) :: groups'
      else (k', xs) :: group_append k x groups'
  end.

(** Lines 517-519: the record of one equipment item. *)
Definition equipment_json (equip : Equipment.t) : result pyval :=
  rarity_name ← int_key_get RARITIES (Equipment.rarity equip) "Unknown";
  nation_name ← int_key_get NATIONS (Equipment.nationality equip) "Unknown";
  Ok (VDict (Equipment.asdict equip ++
             [ ("rarity_name", VStr rarity_name); ("nation_name", VStr nation_name) ])%list).

(** Lines 530-532: the record of one ship. *)
Definition ship_json (ship : Ship.t) : result pyval :=
  rarity_name ← int_key_get RARITIES (Ship.rarity ship) "Unknown";
  nation_name ← int_key_get NATIONS (Ship.nationality ship) "Unknown";
  Ok (VDict (Ship.asdict ship ++
             [ ("rarity_name", VStr rarity_name); ("nation_name", VStr nation_name) ])%list).

Fixpoint group_by_type {A} (type_name : A → string) (record : A → result pyval)
    (l : list A) (groups : list (string * list pyval))
  : result (list (string * list pyval)) :=
  match l with
  | [] => Ok groups
  | x :: l' =>
      r ← record x;
      group_by_type type_name record l' (group_append (type_name x) r groups)
  end.

Definition groups_document (groups : list (string * list pyval)) : pyval :=
  VDict (map (λ g, (fst g, VList (snd g))) groups).

Definition summary_document (s : state) (equip_by_type ships_by_type : list (string * list pyval))
  : pyval :=
  VDict [ ("total_equipment", VInt (Z.of_nat (length (equipment s))));
          ("total_ships", VInt (Z.of_nat (length (ships s))));
          ("total_weapons", VInt (Z.of_nat (length (weapons s))));
          ("equipment_types", VList (map (λ g, VStr (fst g)) equip_by_type));
          ("ship_types", VList (map (λ g, VStr (fst g)) ships_by_type));
          ("nationalities", VList (map (λ kv, VStr (snd kv)) NATIONS));
          ("rarities", VList (map (λ kv, VStr (snd kv)) RARITIES)) ].

Definition dump (E : env) (path : string) (document : pyval) : M unit :=
  open_for_writing E path ;;
  write path (json_dumps 0 document).

Definition export_to_json (E : env) (output_dir : string) : M unit :=
  match makedirs E output_dir with
  | Some e => lift (Raise e)
  | None =>
      equipment ← gets equipment;
      equip_by_type ←
        lift (group_by_type Equipment.type_name equipment_json (values equipment) []);
      dump E (path_join output_dir "equipment_by_type.json")
           (groups_document equip_by_type) ;;
      print "  Exported equipment to equipment_by_type.json" ;;
      ships ← gets ships;
      ships_by_type ← lift (group_by_type Ship.type_name ship_json (values ships) []);
      dump E (path_join output_dir "ships_by_type.json")
           (groups_document ships_by_type) ;;
      print "  Exported ships to ships_by_type.json" ;;
      summary ← gets (λ s, summary_document s equip_by_type ships_by_type);
      dump E (path_join output_dir "summary.json") summary ;;
      print "  Exported summary to summary.json"
  end.

(** *** [run] (lines 556-580) *)

(** What the two reporting methods, [analyze_equipment_stats] and
    [analyze_ship_stats] (lines 347-413), are to a run: they read the three
    collections, print, and return or raise; they assign nothing.  The lines
    they print hold averages formatted from floating-point numbers. *)
Definition report : Type :=
  list (Z * Equipment.t) → list (Z * Ship.t) → list (Z * Weapon.t) →
  list line * result unit.

Definition reporting (r : report) : M unit := λ s,
  let '(out, res) := r (equipment s) (ships s) (weapons s) in
  ({| equipment := equipment s; ships := ships s; weapons := weapons s;
      weapon_names := weapon_names s; files := files s;
      stdout := (stdout s ++ out)%list |}, res).

Definition rule : string := "============================================================".

Section Run.
Variables analyze_equipment_stats analyze_ship_stats : report.

Definition run (E : env) : M unit :=
  print "Starting Azur Lane Data Parser..." ;;
  print rule ;;
  parse_weapons E ;;
  parse_equipment E ;;
  parse_ships E ;;
  reporting analyze_equipment_stats ;;
  reporting analyze_ship_stats ;;
  export_to_csv E "azur_lane_parsed_data" ;;
  export_to_json E "azur_lane_parsed_data" ;;
  print (String newline rule) ;;
  print "Parsing complete!" ;;
  print "Total items parsed:" ;;
  n_equipment ← gets (λ s, length (equipment s));
  print ("  - Equipment: " +:+ pretty n_equipment) ;;
  n_ships ← gets (λ s, length (ships s));
  print ("  - Ships: " +:+ pretty n_ships) ;;
  n_weapons ← gets (λ s, length (weapons s));
  print ("  - Weapons: " +:+ pretty n_weapons) ;;
  print rule.
End Run.

(** ** The progress tracker ([scripts/utils.py]) *)

Module Progress.

(** [utils.load_json] (lines 7-12): a missing file reads as an empty list,
    any other failure propagates. *)
Definition load_json (file : file_result) : result pyval :=
  match file with
  | NotFound => Ok (VList [])
  | Loaded document => Ok document
  | Invalid => Raise JSONDecodeError
  | Failed e => Raise e
  end.

Definition bucket_names : list string :=
  [ "basic"; "completed"; "partial"; "failed" ].

Definition required_keys : list (string * pyval) :=
  [ ("basic", VList []); ("completed", VList []); ("partial", VList []);
    ("failed", VList []); ("retry_queue", VList []);
    ("last_updated", VStr EmptyString) ].

(** Lines 28-31: anything but a non-empty dict is replaced by [{}]. *)
Definition as_progress (raw : pyval) : list (string * pyval) :=
  match raw with
  | VDict d => if py_truthy raw then d else []
  | _ => []
  end.

(** Lines 34-43. *)
Definition ensure_keys (progress : list (string * pyval)) : list (string * pyval) :=
  fold_left
    (λ progress kd,
       match lookup_key (fst kd) progress with
       | Some _ => progress
       | None => set_key (fst kd) (snd kd) progress
       end)
    required_keys progress.

(** [l.remove(x)]: the first element equal to [x] goes. *)
Fixpoint remove_first (x : pyval) (l : list pyval) : list pyval :=
  match l with
  | [] => []
  | y :: l' => if py_eq x y then l' else y :: remove_first x l'
  end.

(** Lines 46-50. *)
Definition remove_from_buckets (item_name : string)
    (progress : list (string * pyval)) : list (string * pyval) :=
  fold_left
    (λ progress list_name,
       let current_list := default (VList []) (lookup_key list_name progress) in
       let current_list :=
         match current_list with
         | VList l =>
             if existsb (py_eq (VStr item_name)) l
             then VList (remove_first (VStr item_name) l)
             else current_list
         | _ => current_list
         end in
       set_key list_name current_list progress)
    bucket_names progress.

(** Lines 53-58. *)
Definition add_to_bucket (item_name status : string)
    (progress : list (string * pyval)) : list (string * pyval) :=
  if existsb (String.eqb status) bucket_names then
    let target_list := default (VList []) (lookup_key status progress) in
    let target_list :=
      match target_list with
      | VList l => l
      | _ => []
      end in
    set_key status (VList (target_list ++ [VStr item_name])%list) progress
  else progress.

(** The dict [update_progress] hands to [save_json], from what [load_json]
    returned; [now] stands for [datetime.now().isoformat()]. *)
Definition updated (now item_name status : string) (raw : pyval)
  : list (string * pyval) :=
  set_key "last_updated" (VStr now)
    (add_to_bucket item_name status
       (remove_from_buckets item_name (ensure_keys (as_progress raw)))).

(** [update_progress] (lines 22-61), as the new content of
    [progress.json]. *)
Definition update_progress (now item_name status : string)
    (progress_file : file_result) : result pyval :=
  raw ← load_json progress_file;
  Ok (VDict (updated now item_name status raw)).

(** The bucket [name] of a progress document lists [item_name]. *)
Definition in_bucket (item_name : string) (progress : list (string * pyval))
    (name : string) : bool :=
  match lookup_key name progress with
  | Some (VList l) => existsb (py_eq (VStr item_name)) l
  | _ => false
  end.

Definition buckets_of (item_name : string) (progress : list (string * pyval))
  : list string :=
  filter (λ name, in_bucket item_name progress name = true) bucket_names.

(** How often a bucket value lists [item_name]. *)
Definition occurrences (item_name : string) (bucket : option pyval) : nat :=
  match bucket with
  | Some (VList l) => length (filter (λ x, py_eq (VStr item_name) x = true) l)
  | _ => 0
  end.

End Progress.

(** ** The stat vector of a ship (lines 53-76 and 271-294) *)

Inductive stat : Type :=
  | Hp | Firepower | Torpedo | Antiair | Aviation | Reload
  | Armor | Hit | Evasion | Speed | Luck | Antisub.

(** The position of a stat in [attrs] and in [attrs_growth]. *)
Definition stat_index (st : stat) : nat :=
  match st with
  | Hp => 0 | Firepower => 1 | Torpedo => 2 | Antiair => 3
  | Aviation => 4 | Reload => 5 | Armor => 6 | Hit => 7
  | Evasion => 8 | Speed => 9 | Luck => 10 | Antisub => 11
  end%nat.

Definition base_stat (st : stat) : Ship.t → pyval :=
  match st with
  | Hp => Ship.hp | Firepower => Ship.firepower | Torpedo => Ship.torpedo
  | Antiair => Ship.antiair | Aviation => Ship.aviation
  | Reload => Ship.reload | Armor => Ship.armor | Hit => Ship.hit
  | Evasion => Ship.evasion | Speed => Ship.speed | Luck => Ship.luck
  | Antisub => Ship.antisub
  end.

(** The growth field of a stat; the dataclass has none for speed and luck. *)
Definition growth_rate (st : stat) : option (Ship.t → pyval) :=
  match st with
  | Hp => Some Ship.hp_growth
  | Firepower => Some Ship.firepower_growth
  | Torpedo => Some Ship.torpedo_growth
  | Antiair => Some Ship.antiair_growth
  | Aviation => Some Ship.aviation_growth
  | Reload => Some Ship.reload_growth
  | Armor => Some Ship.armor_growth
  | Hit => Some Ship.hit_growth
  | Evasion => Some Ship.evasion_growth
  | Speed => None
  | Luck => None
  | Antisub => Some Ship.antisub_growth
  end.

Definition twelve_zeros : pyval := VList (replicate 12 (VInt 0)).

(** The two vectors [parse_ships] reads off a record. *)
Definition attrs_of (d : list (string * pyval)) : pyval :=
  default twelve_zeros (lookup_key "attrs" d).
Definition attrs_growth_of (d : list (string * pyval)) : pyval :=
  default twelve_zeros (lookup_key "attrs_growth" d).

Definition type_code_of (d : list (string * pyval)) : pyval :=
  default (VInt 0) (lookup_key "type" d).

(** ** What the parsing loops compute

    One step of each [for] loop, as a function on the collection: a record
    that raises is skipped. *)

Definition collect_equipment (equip_templates : pyval)
    (acc : list (Z * Equipment.t)) (item : string * pyval)
  : list (Z * Equipment.t) :=
  match equipment_record equip_templates (fst item) (snd item) with
  | Ok (key, equip) => set_int_key key equip acc
  | Raise _ => acc
  end.

Definition collect_ship (acc : list (Z * Ship.t)) (item : string * pyval)
  : list (Z * Ship.t) :=
  match ship_record (fst item) (snd item) with
  | Ok (key, ship) => set_int_key key ship acc
  | Raise _ => acc
  end.

Definition collect_weapon (names : list (Z * pyval))
    (acc : list (Z * Weapon.t)) (item : string * pyval)
  : list (Z * Weapon.t) :=
  match weapon_record names (fst item) (snd item) with
  | Ok (key, weapon) => set_int_key key weapon acc
  | Raise _ => acc
  end.

(** ** The fields a record supplies

    For each entity, the fields its constructor call reads off the source
    record with [data.get]: the key read, the field filled, and the default
    passed to [get]. *)

Definition equipment_fields : list (string * (Equipment.t → pyval) * pyval) :=
  [ ("name", Equipment.name, VStr "Unknown");
    ("type", Equipment.type, VInt 0);
    ("rarity", Equipment.rarity, VInt 1);
    ("nationality", Equipment.nationality, VInt 0);
    ("tech", Equipment.tech, VInt 0);
    ("weapon_id", Equipment.weapon_ids, VList []);
    ("ammo", Equipment.ammo_type, VInt 0);
    ("value_2", Equipment.value_2, VInt 0);
    ("value_3", Equipment.value_3, VInt 0);
    ("descrip", Equipment.description, VStr EmptyString);
    ("speciality", Equipment.speciality, VStr EmptyString);
    ("part_main", Equipment.part_main, VList []);
    ("part_sub", Equipment.part_sub, VList []);
    ("property_rate", Equipment.property_rate, VList []);
    ("equip_parameters", Equipment.equip_parameters, VDict []) ].

Definition ship_fields : list (string * (Ship.t → pyval) * pyval) :=
  [ ("name", Ship.name, VStr "Unknown");
    ("english_name", Ship.english_name, VStr EmptyString);
    ("type", Ship.type, VInt 0);
    ("nationality", Ship.nationality, VInt 0);
    ("rarity", Ship.rarity, VInt 1);
    ("star", Ship.star, VInt 1);
    ("armor_type", Ship.armor_type, VInt 1);
    ("equipment_proficiency", Ship.equipment_proficiency, VList []);
    ("base_list", Ship.base_list, VList []);
    ("preload_count", Ship.preload_count, VList []) ].

(** ** Sample inputs *)

(** Two growth vectors that differ at position 9 (speed) only. *)
Definition growth_a : pyval :=
  VList (map VInt [10; 20; 30; 40; 50; 60; 70; 80; 90; 100; 110; 120]).
Definition growth_b : pyval :=
  VList (map VInt [10; 20; 30; 40; 50; 60; 70; 80; 90; 7; 110; 120]).

(** Scenario 1 of the specification: one statistics record, no template. *)
Definition example_record : list (string * pyval) :=
  [ ("name", VStr "Example"); ("type", VInt 1); ("rarity", VInt 3) ].

(** A statistics record and a template record of the same key that both
    carry a name. *)
Definition named_stats : pyval := VDict [ ("name", VStr "A") ].
Definition named_templates : pyval :=
  VDict [ ("1", VDict [ ("name", VStr "B"); ("damage", VList [VInt 9]) ]) ].

(** ** The text of a CSV file

    What a [with open(...)] block of [export_to_csv] leaves in its file when
    [rows] are the row dicts it wrote: nothing at all for an empty
    collection, else the header record and one record per row. *)

Fixpoint records (fieldnames : list string) (rows : list (list (string * pyval)))
  : string :=
  match rows with
  | [] => EmptyString
  | row :: rows' => row_record fieldnames row +:+ records fieldnames rows'
  end.

Definition csv_document {A} (fieldnames : list string) (collection : list A)
    (rows : list (list (string * pyval))) : string :=
  if is_empty collection then EmptyString
  else header_record fieldnames +:+ records fieldnames rows.

(** The common shape of the three [with open(...)] blocks of
    [export_to_csv]; each of them is an instance. *)
Definition csv_block {A K} (E : env) (path : string) (fieldnames : list string)
    (collection : state → list (Z * A))
    (key : A → K) (lt : K → K → result bool)
    (row_of : A → result (list (string * pyval)))
    (message : nat → string) : M unit :=
  open_for_writing E path ;;
  entities ← gets collection;
  (if is_empty entities then mret ()
   else
     write path (header_record fieldnames) ;;
     ordered ← lift (sorted_by key lt (values entities));
     for_each ordered (λ x,
       row ← lift (row_of x);
       write path (row_record fieldnames row))) ;;
  print (message (length entities)).

(** What such a block leaves behind, for a file it could open: the file holds
    the document of the rows written, every row written is the row of an
    entity of the collection, a normal return means one row per entity in
    sorted order, an exception comes from the sort or from building a row,
    and no other file and no collection is touched.  [ordering] is the
    outcome of the call of [sorted]. *)
Definition csv_block_result {A} (path : string) (fieldnames : list string)
    (collection : list (Z * A)) (ordering : result (list A))
    (row_of : A → result (list (string * pyval)))
    (s : state) (r : state * result ()) : Prop :=
  ∃ rows,
    files (fst r) !! path = Some (csv_document fieldnames collection rows) ∧
    Forall (λ row, ∃ x, x ∈ values collection ∧ row_of x = Ok row) rows ∧
    (snd r = Ok () →
     ∃ ordered, ordered ≡ₚ values collection ∧
                (collection ≠ [] → ordering = Ok ordered) ∧
                Forall2 (λ x row, row_of x = Ok row) ordered rows) ∧
    (∀ e, snd r = Raise e →
       collection ≠ [] ∧
       (ordering = Raise e ∨ ∃ x, x ∈ values collection ∧ row_of x = Raise e)) ∧
    (∀ p, p ≠ path → files (fst r) !! p = files s !! p) ∧
    equipment (fst r) = equipment s ∧ ships (fst r) = ships s ∧
    weapons (fst r) = weapons s ∧ weapon_names (fst r) = weapon_names s.

(** A weapon without a name in the name table. *)
Definition unnamed_weapon : Weapon.t :=
  {| Weapon.id := 7; Weapon.name := VStr EmptyString; Weapon.damage := VInt 3;
     Weapon.reload_max := VInt 0; Weapon.bullet_id := VInt 0;
     Weapon.barrage_id := VInt 0; Weapon.spawn_bound := VStr EmptyString;
     Weapon.fire_fx := VStr EmptyString; Weapon.type := VInt 0;
     Weapon.range := VInt 0; Weapon.angle := VInt 0; Weapon.min_range := VInt 0;
     Weapon.aim_type := VInt 0 |}.

(** A data directory without any table, in which every directory can be
    created and every file opened. *)
Definition empty_env : env :=
  {| tables := λ _, NotFound; makedirs := λ _, None; open_w := λ _, None |}.

(** The same, except that the output directory cannot be created. *)
Definition no_directory_env : env :=
  {| tables := λ _, NotFound;
     makedirs := λ _, Some (OSError "Permission denied");
     open_w := λ _, None |}.

(** Reporting methods that print nothing. *)
Definition silent : report := λ _ _ _, ([], Ok ()).

(** An equipment item whose name starts with [=], of rarity 3, with a
    negative first weapon ID. *)
Definition formula_equipment : Equipment.t :=
  {| Equipment.id := 1; Equipment.name := VStr "=cmd"; Equipment.type := VInt 1;
     Equipment.type_name := "DD Gun"; Equipment.rarity := VInt 3;
     Equipment.nationality := VInt 0; Equipment.tech := VInt 2;
     Equipment.damage := VList []; Equipment.reload := VList [];
     Equipment.armor_modifiers := VList []; Equipment.ammo_type := VInt 0;
     Equipment.weapon_ids := VList [VInt (-1); VInt 7];
     Equipment.equip_parameters := VDict []; Equipment.property_rate := VList [];
     Equipment.value_2 := VInt 0; Equipment.value_3 := VInt 0;
     Equipment.description := VStr "plain"; Equipment.speciality := VStr "@x";
     Equipment.part_main := VList []; Equipment.part_sub := VList [] |}.

(** ** Texts that need no guard *)

(** A text that starts with none of the characters [sanitize_csv_field]
    guards against. *)
Definition starts_safely (text : string) : bool :=
  match text with
  | EmptyString => true
  | String c _ => negb (existsb (Ascii.eqb c) formula_triggers)
  end.

(** A value that needs no guard: any value but a string that starts with
    one of the guarded characters. *)
Definition needs_no_guard (value : pyval) : bool :=
  match value with
  | VStr text => starts_safely text
  | _ => true
  end.

(** ** The cells of a row

    What the row dicts of [export_to_csv] hold.  The cell of a column that
    the export passes through [sanitize_csv_field] is the sanitized field,
    and the [rarity] and [nationality] cells are display names.  The other
    columns are written without the call; [passed_on] says what their cell
    is for a value that needs no guard, and nothing for a string that
    starts with a guarded character. *)

Definition passed_on (column : string) (value : pyval)
    (row : list (string * pyval)) : Prop :=
  needs_no_guard value = true → lookup_key column row = Some value.

Definition display_name_cell (table : list (Z * string)) (code : pyval)
    (column : string) (row : list (string * pyval)) : Prop :=
  ∃ name, int_key_get table code "Unknown" = Ok name ∧
          lookup_key column row = Some (VStr name) ∧
          sanitize_csv_field (VStr name) = name.

Definition equipment_cells (equip : Equipment.t) (row : list (string * pyval)) : Prop :=
  lookup_key "name" row = Some (VStr (sanitize_csv_field (Equipment.name equip))) ∧
  lookup_key "description" row =
    Some (VStr (sanitize_csv_field (Equipment.description equip))) ∧
  lookup_key "speciality" row =
    Some (VStr (sanitize_csv_field (Equipment.speciality equip))) ∧
  lookup_key "id" row = Some (VInt (Equipment.id equip)) ∧
  display_name_cell RARITIES (Equipment.rarity equip) "rarity" row ∧
  display_name_cell NATIONS (Equipment.nationality equip) "nationality" row ∧
  passed_on "type_name" (VStr (Equipment.type_name equip)) row ∧
  passed_on "tech" (Equipment.tech equip) row ∧
  (∃ ids, py_iter (Equipment.weapon_ids equip) = Ok ids ∧
          passed_on "weapon_ids" (VStr (String.concat "," (map py_str ids))) row).

Definition ship_cells (ship : Ship.t) (row : list (string * pyval)) : Prop :=
  lookup_key "name" row = Some (VStr (sanitize_csv_field (Ship.name ship))) ∧
  lookup_key "english_name" row =
    Some (VStr (sanitize_csv_field (Ship.english_name ship))) ∧
  lookup_key "id" row = Some (VInt (Ship.id ship)) ∧
  display_name_cell RARITIES (Ship.rarity ship) "rarity" row ∧
  display_name_cell NATIONS (Ship.nationality ship) "nationality" row ∧
  passed_on "type_name" (VStr (Ship.type_name ship)) row ∧
  passed_on "hp" (Ship.hp ship) row ∧
  passed_on "firepower" (Ship.firepower ship) row ∧
  passed_on "torpedo" (Ship.torpedo ship) row ∧
  passed_on "antiair" (Ship.antiair ship) row ∧
  passed_on "aviation" (Ship.aviation ship) row ∧
  passed_on "reload" (Ship.reload ship) row ∧
  passed_on "armor" (Ship.armor ship) row ∧
  passed_on "hit" (Ship.hit ship) row ∧
  passed_on "evasion" (Ship.evasion ship) row ∧
  passed_on "speed" (Ship.speed ship) row ∧
  passed_on "luck" (Ship.luck ship) row ∧
  passed_on "antisub" (Ship.antisub ship) row.

Definition weapon_cells (weapon : Weapon.t) (row : list (string * pyval)) : Prop :=
  lookup_key "name" row =
    Some (VStr (sanitize_csv_field (weapon_display_name weapon))) ∧
  lookup_key "id" row = Some (VInt (Weapon.id weapon)) ∧
  passed_on "damage" (Weapon.damage weapon) row ∧
  passed_on "reload_max" (Weapon.reload_max weapon) row ∧
  passed_on "range" (Weapon.range weapon) row ∧
  passed_on "angle" (Weapon.angle weapon) row ∧
  passed_on "type" (Weapon.type weapon) row.

(** The rows of a written file, each the row of an entity with its cells. *)
Definition rows_written {A} (E : env) (path : string) (fieldnames : list string)
    (collection : list (Z * A)) (cells : A → list (string * pyval) → Prop)
    (after : state) : Prop :=
  open_w E path = None →
  ∃ rows,
    files after !! path = Some (csv_document fieldnames collection rows) ∧
    Forall (λ row, ∃ x, x ∈ values collection ∧ cells x row) rows.

(** What lines 46-50 of [update_progress] make of one bucket value. *)
Definition cleaned (item_name : string) (bucket : pyval) : pyval :=
  match bucket with
  | VList l =>
      if existsb (py_eq (VStr item_name)) l
      then VList (Progress.remove_first (VStr item_name) l)
      else bucket
  | _ => bucket
  end.

(** A progress file that lists an item twice in one bucket. *)
Definition doubled_progress : pyval :=
  VDict [ ("basic", VList [VStr "x"; VStr "x"]) ].

(** ** Two runs side by side

    Two states agree on everything but the files, and their files are the
    same written part [W] laid over two arbitrary file stores. *)

Definition same_data (s1 s2 : state) : Prop :=
  equipment s1 = equipment s2 ∧ ships s1 = ships s2 ∧ weapons s1 = weapons s2 ∧
  weapon_names s1 = weapon_names s2 ∧ stdout s1 = stdout s2.

Definition coupled_at (W f1 f2 : gmap string string) (s1 s2 : state) : Prop :=
  same_data s1 s2 ∧ files s1 = W ∪ f1 ∧ files s2 = W ∪ f2.

(** A computation is reproducible when, started in two such states with the
    files of [opened] among the written ones, it ends with the same outcome
    in two such states. *)
Definition reproducible {A} (opened : list string) (m : M A) : Prop :=
  ∀ W f1 f2 s1 s2,
    coupled_at W f1 f2 s1 s2 →
    (∀ p, In p opened → is_Some (W !! p)) →
    ∃ W',
      coupled_at W' f1 f2 (fst (m s1)) (fst (m s2)) ∧
      snd (m s1) = snd (m s2) ∧
      (∀ p, is_Some (W !! p) → is_Some (W' !! p)).

(** How often a list holds the item [j]. *)
Definition count_of (j : string) (l : list pyval) : nat :=
  length (filter (λ y, py_eq (VStr j) y = true) l).

(** The items of a bucket value; a value that is no list has none. *)
Definition items_of (bucket : pyval) : list pyval :=
  match bucket with
  | VList l => l
  | _ => []
  end.

(** A progress state in which no bucket lists any item twice. *)
Definition singly_listed (raw : pyval) : Prop :=
  ∀ item_name name, In name Progress.bucket_names →
    (Progress.occurrences item_name
       (lookup_key name (Progress.as_progress raw)) ≤ 1)%nat.

(** ** What the parsing methods print and store *)

(** The value [load_json] returns for a file name, and the line it prints. *)
Definition loaded (E : env) (filename : string) : pyval :=
  match tables E filename with
  | Loaded document => document
  | _ => VDict []
  end.

Definition load_diagnostic (E : env) (filename : string) : list line :=
  match tables E filename with
  | Loaded _ => []
  | NotFound => [Print ("Warning: " +:+ filename +:+ " not found")]
  | Invalid =>
      [PrintExn ("Error: Invalid JSON in " +:+ filename +:+ ": ") JSONDecodeError]
  | Failed e => [PrintExn ("Error loading " +:+ filename +:+ ": ") e]
  end.

(** The diagnostics of a parsing loop: one line for each record that raised,
    in the order of the table. *)
Definition record_errors {X} (prefix : string)
    (record : string → pyval → result X) (table : list (string * pyval))
  : list line :=
  flat_map (λ item,
    match record (fst item) (snd item) with
    | Ok _ => []
    | Raise e => [PrintExn (prefix +:+ fst item +:+ ": ") e]
    end) table.

(** Every entry of a collection is stored under the [id] of its entity, and
    no key occurs twice. *)
Definition keyed_by_id {X} (id : X → Z) (d : list (Z * X)) : Prop :=
  Forall (λ kv, id (snd kv) = fst kv) d ∧ NoDup (map fst d).

(** The table [parse_weapons] iterates over (lines 318-321): the preferred
    file when it holds something truthy, else the fallback. *)
Definition weapon_source (E : env) : pyval :=
  if py_truthy (loaded E "weapon_property.json")
  then loaded E "weapon_property.json"
  else loaded E "bullet_template.json".

(** What [parse_weapons] prints between its first line and the loop. *)
Definition weapon_load_diagnostics (E : env) : list line :=
  (load_diagnostic E "weapon_name.json" ++
   load_diagnostic E "weapon_property.json" ++
   (if py_truthy (loaded E "weapon_property.json") then []
    else Print "  weapon_property.json not found, using bullet_template.json" ::
         load_diagnostic E "bullet_template.json"))%list.

(** A data directory whose equipment statistics hold a record with a
    template, a record under a key that is no number, and a record under a
    second spelling of the key 1. *)
Definition sample_env : env :=
  {| tables := λ filename,
       if String.eqb filename "equip_data_statistics.json" then
         Loaded (VDict [ ("1", named_stats); ("x", VDict []);
                         ("01", VDict example_record) ])
       else if String.eqb filename "equip_data_template.json" then
         Loaded named_templates
       else if String.eqb filename "weapon_name.json" then
         Loaded (VDict [ ("7", VStr "Main gun"); ("note", VStr "n") ])
       else if String.eqb filename "weapon_property.json" then
         Loaded (VDict [ ("7", VDict [ ("damage", VInt 3) ]);
                         ("8", VList []) ])
       else if String.eqb filename "ship_data_statistics.json" then
         Loaded (VDict [ ("5", VDict [ ("name", VStr "S");
                                       ("attrs", VList [VInt 5000; VInt 100]) ]) ])
       else if String.eqb filename "ship_data_template.json" then Invalid
       else NotFound;
     makedirs := λ _, None;
     open_w := λ _, None |}.

(** The same directory with another fallback table for weapons. *)
Definition sample_env_other_bullets : env :=
  {| tables := λ filename,
       if String.eqb filename "bullet_template.json" then
         Loaded (VDict [ ("9", VDict []) ])
       else tables sample_env filename;
     makedirs := makedirs sample_env;
     open_w := open_w sample_env |}.

(** The same directory with another template table for ships. *)
Definition sample_env_other_ship_templates : env :=
  {| tables := λ filename,
       if String.eqb filename "ship_data_template.json" then
         Loaded (VDict [ ("5", VDict [ ("name", VStr "T") ]) ])
       else tables sample_env filename;
     makedirs := makedirs sample_env;
     open_w := open_w sample_env |}.

(** The character [²] (code point 178), a digit for [isdigit] and not for
    [int]. *)
Definition superscript_two : string := String "178"%char EmptyString.

(** A data directory whose name table has that key. *)
Definition superscript_env : env :=
  {| tables := λ filename,
       if String.eqb filename "weapon_name.json" then
         Loaded (VDict [ (superscript_two, VStr "Squared") ])
       else NotFound;
     makedirs := λ _, None;
     open_w := λ _, None |}.

(** A data directory whose ship statistics are a JSON array. *)
Definition array_env : env :=
  {| tables := λ filename,
       if String.eqb filename "ship_data_statistics.json" then
         Loaded (VList [ VDict [ ("name", VStr "S") ] ])
       else NotFound;
     makedirs := λ _, None;
     open_w := λ _, None |}.

(** ** What a method leaves alone *)

(** A method is stable for a relation between the state before and the state
    after when every call relates the two, whatever the outcome. *)
Definition stable {A} (R : state → state → Prop) (m : M A) : Prop :=
  ∀ s, R s (fst (m s)).

Definition same_collections (s s' : state) : Prop :=
  equipment s' = equipment s ∧ ships s' = ships s ∧ weapons s' = weapons s ∧
  weapon_names s' = weapon_names s.

Definition same_files_outside (paths : list string) (s s' : state) : Prop :=
  ∀ p, p ∉ paths → files s' !! p = files s !! p.

Definition well_keyed (s : state) : Prop :=
  keyed_by_id Equipment.id (equipment s) ∧ keyed_by_id Ship.id (ships s) ∧
  keyed_by_id Weapon.id (weapons s).

Definition keeps_well_keyed (s s' : state) : Prop :=
  well_keyed s → well_keyed s'.

(** The six files of a run, in its output directory. *)
Definition output_files (output_dir : string) : list string :=
  map (path_join output_dir)
    [ "equipment.csv"; "ships.csv"; "weapons.csv";
      "equipment_by_type.json"; "ships_by_type.json"; "summary.json" ].

(** The four tables a run iterates over with [.items()], in the order of the
    run. *)
Definition parsed_tables (E : env) : list pyval :=
  [ loaded E "weapon_name.json"; weapon_source E;
    loaded E "equip_data_statistics.json"; loaded E "ship_data_statistics.json" ].

(** A decoded JSON value other than an object. *)
Definition no_object (v : pyval) : Prop := ∀ d, v ≠ VDict d.

(** A statistics table in which the key 1 is spelled in two ways. *)
Definition respelled_table : list (string * pyval) :=
  [ ("1", named_stats); ("01", VDict example_record); ("2", VDict []) ].

(** One step of a parsing loop for any record function: [collect_equipment],
    [collect_ship] and [collect_weapon] are its instances. *)
Definition collect_record {X} (record : string → pyval → result (Z * X))
    (acc : list (Z * X)) (item : string * pyval) : list (Z * X) :=
  match record (fst item) (snd item) with
  | Ok (key, x) => set_int_key key x acc
  | Raise _ => acc
  end.
(** ** Order and grouping of the exported records *)

(** A list of integers in which no element is followed by a smaller one. *)
Fixpoint ascending (l : list Z) : Prop :=
  match l with
  | [] => True
  | x :: l' => Forall (Z.le x) l' ∧ ascending l'
  end.

(** The records of a group, [[]] for a type name without a group. *)
Definition group_of (k : string) (groups : list (string * list pyval)) : list pyval :=
  default [] (lookup_key k groups).

(** The entities of a list that have the type name [k], in the order of the
    list. *)
Definition of_type {A} (type_name : A → string) (k : string) (l : list A) : list A :=
  filter (λ x, type_name x = k) l.

Definition weapon_with_id (id : Z) : Weapon.t :=
  {| Weapon.id := id; Weapon.name := VStr EmptyString; Weapon.damage := VInt 3;
     Weapon.reload_max := VInt 0; Weapon.bullet_id := VInt 0;
     Weapon.barrage_id := VInt 0; Weapon.spawn_bound := VStr EmptyString;
     Weapon.fire_fx := VStr EmptyString; Weapon.type := VInt 0;
     Weapon.range := VInt 0; Weapon.angle := VInt 0; Weapon.min_range := VInt 0;
     Weapon.aim_type := VInt 0 |}.

(** A parser that holds three weapons, stored in the order 30, 10, 20. *)
Definition three_weapons : state :=
  {| equipment := []; ships := [];
     weapons := [ (30, weapon_with_id 30); (10, weapon_with_id 10);
                  (20, weapon_with_id 20) ];
     weapon_names := []; files := ∅; stdout := [] |}.
(** The three files of [export_to_json], in the order they are written. *)
Definition json_files : list string :=
  [ "equipment_by_type.json"; "ships_by_type.json"; "summary.json" ].

(** An output directory in which [equipment_by_type.json] can be written and
    [ships_by_type.json] cannot be opened. *)
Definition second_file_locked_env : env :=
  {| tables := λ _, NotFound;
     makedirs := λ _, None;
     open_w := λ path,
       if String.eqb path "out/ships_by_type.json"
       then Some (OSError "Permission denied") else None |}.
(** ** The progress document around an update *)

(** The entries of a bucket value other than the item [i], in order. *)
Definition others (i : string) (bucket : option pyval) : list pyval :=
  filter (λ y, py_eq (VStr i) y = false) (items_of (default (VList []) bucket)).

(** A progress file with an item in two buckets, a bucket that is no list
    and a key of its own. *)
Definition mixed_progress : pyval :=
  VDict [ ("basic", VList [VStr "a"; VStr "x"; VStr "b"]);
          ("failed", VList [VStr "x"; VStr "c"]);
          ("partial", VStr "none");
          ("owner", VStr "me") ].

(** ** The collection scripts ([scripts/scraper.py], [scripts/run_collection.py],
    [scripts/utils.py])

    The scripts keep JSON documents in files: the store maps a path to what
    [utils.load_json] finds there.  [datetime.now().isoformat()] is an
    argument [now]; the calls of [logging] write to the log only and are
    left out.  The name and the type of an item are strings, as in every
    call of the scripts. *)

Module Scripts.

Abbreviation disk := (gmap string file_result).

Definition read (d : disk) (path : string) : file_result :=
  default NotFound (d !! path).

(** What the scripts cannot decide themselves: whether a file can be written
    (the error of [os.makedirs] or [open] otherwise), and whether
    [git diff --cached --quiet] finds staged changes at the n-th call of
    [commit_changes]. *)
Record surroundings : Type := {
  write_error : string → option exn;
  staged_changes : nat → bool
}.

(** [utils.save_json] (lines 14-20). *)
Definition save_json (W : surroundings) (data : pyval) (filepath : string)
    (d : disk) : result disk :=
  match write_error W filepath with
  | Some e => Raise e
  | None => Ok (<[filepath := Loaded data]> d)
  end.

(** *** [utils.update_progress] for any item and status

    [Progress.updated] is the case of an item name and a status that are
    strings. *)

(** Lines 46-50. *)
Definition remove_from_buckets (item_name : pyval)
    (progress : list (string * pyval)) : list (string * pyval) :=
  fold_left
    (λ progress list_name,
       let current_list := default (VList []) (lookup_key list_name progress) in
       let current_list :=
         match current_list with
         | VList l =>
             if existsb (py_eq item_name) l
             then VList (Progress.remove_first item_name l)
             else current_list
         | _ => current_list
         end in
       set_key list_name current_list progress)
    Progress.bucket_names progress.

(** [status in ['basic', 'completed', 'partial', 'failed']]: the bucket the
    status is equal to, if any. *)
Definition bucket_named (status : pyval) : option string :=
  find (λ name, py_eq status (VStr name)) Progress.bucket_names.

(** Lines 53-58. *)
Definition add_to_bucket (item_name status : pyval)
    (progress : list (string * pyval)) : list (string * pyval) :=
  match bucket_named status with
  | Some name =>
      let target_list := default (VList []) (lookup_key name progress) in
      let target_list :=
        match target_list with
        | VList l => l
        | _ => []
        end in
      set_key name (VList (target_list ++ [item_name])%list) progress
  | None => progress
  end.

Definition updated (now : string) (item_name status : pyval) (raw : pyval)
  : list (string * pyval) :=
  set_key "last_updated" (VStr now)
    (add_to_bucket item_name status
       (remove_from_buckets item_name
          (Progress.ensure_keys (Progress.as_progress raw)))).

(** [utils.update_progress] (lines 22-61) on the store. *)
Definition update_progress (W : surroundings) (now : string)
    (item_name status : pyval) (d : disk) : result disk :=
  raw ← Progress.load_json (read d "progress.json");
  save_json W (VDict (updated now item_name status raw)) "progress.json" d.

(** *** [AzurLaneScraper.scrape_item] (lines 27-76) *)

(** A source of data: [self.scrape_wiki] or [self.scrape_community_guides],
    called with the item name; it returns a value or raises. *)
Definition source : Type := string → result pyval.

(** The two sources as the class has them (lines 78-88). *)
Definition scrape_wiki : source := λ _, Ok (VDict []).
Definition scrape_community_guides : source := λ _, Ok (VDict []).

(** Lines 31-43. *)
Definition new_item (now item_name equipment_type : string) : list (string * pyval) :=
  [ ("identity", VDict [ ("itemName", VStr item_name);
                         ("type", VStr equipment_type) ]);
    ("source", VDict []);
    ("stats_numerical", VDict []);
    ("stats_qualitative_visual", VDict []);
    ("derived_analysis", VDict []);
    ("metadata", VDict [ ("lastUpdated", VStr now);
                         ("dataCompleteness", VStr "basic");
                         ("sources", VList []) ]) ].

(** [target.update(other)]. *)
Definition dict_update (target other : list (string * pyval)) : list (string * pyval) :=
  fold_left (λ acc kv, set_key (fst kv) (snd kv) acc) other target.

(** Lines 56-58: a section of the data that is a dict is merged into the
    section of the same name of the item, when the item has one and it is a
    dict. *)
Definition merge_sections (item_data data : list (string * pyval))
  : list (string * pyval) :=
  fold_left
    (λ item kv,
       match lookup_key (fst kv) item, snd kv with
       | Some (VDict section), VDict value =>
           set_key (fst kv) (VDict (dict_update section value)) item
       | _, _ => item
       end)
    data item_data.

(** Lines 60-64: [item_data["metadata"]["sources"].append(...)] with the URL
    the data names, or else the name of the source. *)
Definition add_source (source_name : string) (data item_data : list (string * pyval))
  : result (list (string * pyval)) :=
  let src_url := default VNone (lookup_key "_source_url" data) in
  let entry := if py_truthy src_url then src_url else VStr source_name in
  metadata ← py_getitem_str (VDict item_data) "metadata";
  sources ← py_getitem_str metadata "sources";
  match metadata, sources with
  | VDict fields, VList l =>
      Ok (set_key "metadata"
            (VDict (set_key "sources" (VList (l ++ [entry])%list) fields)) item_data)
  | _, _ => Raise AttributeError
  end.

(** One turn of the loop of lines 51-68.  An exception ends the turn; what
    the turn had merged by then stays. *)
Definition scrape_from (source_name : string) (scrape_func : source)
    (item_name : string) (item_data : list (string * pyval))
  : list (string * pyval) :=
  match scrape_func item_name with
  | Raise _ => item_data
  | Ok data =>
      if py_truthy data then
        match py_items data with
        | Raise _ => item_data
        | Ok entries =>
            let merged := merge_sections item_data entries in
            match add_source source_name entries merged with
            | Ok item_data' => item_data'
            | Raise _ => merged
            end
        end
      else item_data
  end.

Definition section_truthy (name : string) (item_data : list (string * pyval)) : bool :=
  py_truthy (default VNone (lookup_key name item_data)).

Definition set_completeness (value : string) (item_data : list (string * pyval))
  : list (string * pyval) :=
  match lookup_key "metadata" item_data with
  | Some (VDict fields) =>
      set_key "metadata" (VDict (set_key "dataCompleteness" (VStr value) fields))
        item_data
  | _ => item_data
  end.

(** Lines 70-74. *)
Definition determine_completeness (item_data : list (string * pyval))
  : list (string * pyval) :=
  if section_truthy "stats_numerical" item_data &&
     section_truthy "derived_analysis" item_data
  then set_completeness "complete" item_data
  else if section_truthy "stats_numerical" item_data
  then set_completeness "partial" item_data
  else item_data.

Section Scraper.
Variables wiki community : source.

Definition scrape_item (now item_name equipment_type : string) : pyval :=
  VDict (determine_completeness
           (scrape_from "community" community item_name
              (scrape_from "wiki" wiki item_name
                 (new_item now item_name equipment_type)))).

End Scraper.

(** *** [AzurLaneScraper.save_item] (lines 90-115) *)

(** [item['identity']['itemName']]. *)
Definition item_name_of (item : pyval) : result pyval :=
  identity ← py_getitem_str item "identity";
  py_getitem_str identity "itemName".

(** Lines 98-103 on the elements the loop visits: the first one of the same
    name is replaced; [None] when there is none. *)
Fixpoint replace_first (item_data : pyval) (existing : list pyval)
  : result (option (list pyval)) :=
  match existing with
  | [] => Ok None
  | item :: rest =>
      name ← item_name_of item;
      name' ← item_name_of item_data;
      if py_eq name name' then Ok (Some (item_data :: rest))
      else
        found ← replace_first item_data rest;
        Ok (match found with
            | Some replaced => Some (item :: replaced)
            | None => None
            end)
  end.

(** Lines 98-106: the new content of the file.  A value that is no list is
    iterated over as Python does, and has no [append]. *)
Definition upsert (item_data existing_data : pyval) : result pyval :=
  elements ← py_iter existing_data;
  found ← replace_first item_data elements;
  match found, existing_data with
  | Some replaced, VList _ => Ok (VList replaced)
  | Some _, _ => Raise TypeError
  | None, VList l => Ok (VList (l ++ [item_data])%list)
  | None, _ => Raise AttributeError
  end.

Definition equipment_path (equipment_type : string) : string :=
  "data/equipment/" +:+ equipment_type +:+ ".json".

Definition save_item (W : surroundings) (now : string) (item_data : pyval)
    (equipment_type : string) (d : disk) : disk * result pyval :=
  let filepath := equipment_path equipment_type in
  match (existing_data ← Progress.load_json (read d filepath);
         upsert item_data existing_data) with
  | Raise e => (d, Raise e)
  | Ok existing_data =>
      match save_json W existing_data filepath d with
      | Raise e => (d, Raise e)
      | Ok d1 =>
          match (metadata ← py_getitem_str item_data "metadata";
                 status ← py_getitem_str metadata "dataCompleteness";
                 name ← item_name_of item_data;
                 Ok (name, status)) with
          | Raise e => (d1, Raise e)
          | Ok (name, status) =>
              match update_progress W now name status d1 with
              | Raise e => (d1, Raise e)
              | Ok d2 => (d2, Ok status)
              end
          end
      end
  end.

(** *** [utils.commit_changes] (lines 63-79) and [run_collection.main] *)

(** What the scripts do outside the store. *)
Inductive event : Type :=
  | Printed (text : string)
  | GitAdd
  | GitCommit (message : string).

(** Lines 69-72. *)
Definition commit_message (item_names : list string) (status : pyval) : string :=
  let items := String.concat ", " (take 3 item_names) in
  let items :=
    if (3 <? length item_names)%nat
    then items +:+ " (+" +:+ pretty (length item_names - 3)%nat +:+ " more)"
    else items in
  "Update: " +:+ items +:+ " - " +:+ py_str status.

(** [commit_changes], as the [calls]-th call of a run.  Git is taken to be
    installed: [subprocess.run] then returns whatever git answers, and only
    the answer of [git diff] is looked at. *)
Definition commit_changes (W : surroundings) (calls : nat)
    (item_names : list string) (status : pyval) : list event :=
  [ GitAdd;
    if staged_changes W calls
    then GitCommit (commit_message item_names status)
    else Printed "No staged changes to commit." ].

(** ["Mixed" if len(set(batch_status)) > 1 else batch_status[0]]: a status
    that cannot be hashed is a [TypeError]. *)
Definition commit_status (batch_status : list pyval) : result pyval :=
  if forallb py_hashable batch_status then
    match batch_status with
    | [] => Raise IndexError
    | first :: rest =>
        if forallb (py_eq first) rest then Ok first else Ok (VStr "Mixed")
    end
  else Raise TypeError.

(** The state of the loop of [main]. *)
Record progress_of_main : Type := {
  store : disk;
  batch : list string;
  batch_status : list pyval;
  commits : nat;
  events : list event
}.

Section Main.
Variables wiki community : source.
Variable W : surroundings.
(** The times of the run: [datetime.now()] is called twice for every item,
    by [scrape_item] and by [update_progress]. *)
Variable clock : nat → string.

(** Lines 154-167 for the [n]-th item. *)
Definition process_item (n : nat) (item : string * string) (st : progress_of_main)
  : progress_of_main * result () :=
  let '(item_name, equipment_type) := item in
  let printed := (events st ++ [Printed ("Processing: " +:+ item_name)])%list in
  let item_data :=
    scrape_item wiki community (clock (2 * n)) item_name equipment_type in
  match save_item W (clock (2 * n + 1)) item_data equipment_type (store st) with
  | (d, Raise e) =>
      ({| store := d; batch := batch st; batch_status := batch_status st;
          commits := commits st; events := printed |}, Raise e)
  | (d, Ok status) =>
      let batch' := (batch st ++ [item_name])%list in
      let batch_status' := (batch_status st ++ [status])%list in
      if (5 <=? length batch')%nat then
        match commit_status batch_status' with
        | Raise e =>
            ({| store := d; batch := batch'; batch_status := batch_status';
                commits := commits st; events := printed |}, Raise e)
        | Ok status' =>
            ({| store := d; batch := []; batch_status := [];
                commits := S (commits st);
                events :=
                  (printed ++ commit_changes W (commits st) batch' status')%list |},
             Ok ())
        end
      else
        ({| store := d; batch := batch'; batch_status := batch_status';
            commits := commits st; events := printed |}, Ok ())
  end.

Fixpoint process_items (n : nat) (items : list (string * string))
    (st : progress_of_main) : progress_of_main * result () :=
  match items with
  | [] => (st, Ok ())
  | item :: items' =>
      match process_item n item st with
      | (st', Ok _) => process_items (S n) items' st'
      | (st', Raise e) => (st', Raise e)
      end
  end.

(** Lines 169-172. *)
Definition commit_remaining (st : progress_of_main) : progress_of_main * result () :=
  match batch st with
  | [] => (st, Ok ())
  | _ :: _ =>
      match commit_status (batch_status st) with
      | Raise e => (st, Raise e)
      | Ok status' =>
          ({| store := store st; batch := batch st; batch_status := batch_status st;
              commits := S (commits st);
              events :=
                (events st ++ commit_changes W (commits st) (batch st) status')%list |},
           Ok ())
      end
  end.

(** [main] (lines 149-172) over a list of items, from a store [d]. *)
Definition main (items : list (string * string)) (d : disk)
  : progress_of_main * result () :=
  match process_items 0 items
          {| store := d; batch := []; batch_status := []; commits := 0;
             events := [] |} with
  | (st, Ok _) => commit_remaining st
  | (st, Raise e) => (st, Raise e)
  end.

End Main.

(** The list of [run_collection.py] (lines 5-21). *)
Definition items_to_process : list (string * string) :=
  [ ("Twin 127mm (5" +:+ String dquote "/38 Mk 38)", "destroyer_guns");
    ("Triple 152mm Main Gun", "light_cruiser_guns");
    ("203mm/53 Twin Gun Mount", "heavy_cruiser_guns");
    ("305mm/50 Twin Gun Mount", "large_cruiser_guns");
    ("410mm/45 Triple Gun Mount", "battleship_guns");
    ("Type 96 25mm AA Gun", "anti_air_guns");
    ("Type 93 Torpedo", "ship_torpedoes");
    ("Type 95 Torpedo", "submarine_torpedoes");
    ("A6M Zero Fighter", "fighters");
    ("D3A1 Val Dive Bomber", "dive_bombers");
    ("B5N2 Kate Torpedo Bomber", "torpedo_bombers");
    ("F1M Pete Seaplane", "seaplanes");
    ("Radar Type 0", "auxiliary_equipment");
    ("Fire Control System", "augment_modules");
    ("Depth Charge", "anti_submarine_equipment") ].

End Scripts.

(** ** Sample data of the collection scripts *)

(** The name of an item when it is a string. *)
Definition name_text (item : pyval) : option string :=
  match Scripts.item_name_of item with
  | Ok (VStr name) => Some name
  | _ => None
  end.

(** An item as a file of [data/equipment] holds it. *)
Definition stored_item (name note : string) : pyval :=
  VDict [ ("identity", VDict [ ("itemName", VStr name) ]);
          ("metadata", VDict [ ("dataCompleteness", VStr "basic") ]);
          ("note", VStr note) ].

(** A source that has numbers and an analysis for every item. *)
Definition rich_source : Scripts.source := λ _,
  Ok (VDict [ ("stats_numerical", VDict [ ("damage", VInt 10) ]);
              ("derived_analysis", VDict [ ("tier", VStr "S") ]);
              ("_source_url", VStr "https://example.org/wiki") ]).

(** Surroundings in which every file can be written and every commit finds
    staged changes. *)
Definition obliging : Scripts.surroundings :=
  {| Scripts.write_error := λ _, None; Scripts.staged_changes := λ _, true |}.

(** A store whose progress file cannot be decoded. *)
Definition corrupt_progress : Scripts.disk :=
  {[ "progress.json" := Invalid ]}.

(** An item that [save_item] can read: it has a name and a completeness. *)
Definition well_formed_item (item_data : list (string * pyval)) : Prop :=
  ∃ identity metadata,
    lookup_key "identity" item_data = Some (VDict identity) ∧
    is_Some (lookup_key "itemName" identity) ∧
    lookup_key "metadata" item_data = Some (VDict metadata) ∧
    is_Some (lookup_key "dataCompleteness" metadata).

(** [item_data['metadata']['dataCompleteness']]. *)
Definition completeness_of (item_data : pyval) : result pyval :=
  metadata ← py_getitem_str item_data "metadata";
  py_getitem_str metadata "dataCompleteness".

(** A source that gives nothing to merge: it raises, or returns a falsy
    value, or a value without [.items()]. *)
Definition gives_nothing (scrape_func : Scripts.source) : Prop :=
  ∀ item_name,
    match scrape_func item_name with
    | Raise _ => True
    | Ok data => py_truthy data = false ∨ no_object data
    end.

(** A source that times out. *)
Definition failing_source : Scripts.source := λ _, Raise (OSError "timed out").

(** ** A run of the collection *)






(** How often the events stage files for a commit: once per call of
    [commit_changes]. *)
Fixpoint git_adds (evs : list Scripts.event) : nat :=
  match evs with
  | [] => 0
  | Scripts.GitAdd :: evs' => S (git_adds evs')
  | _ :: evs' => git_adds evs'
  end.

(** The counts of the loop of [main] after [k] items. *)
Definition batching (k : nat) (st : Scripts.progress_of_main) : Prop :=
  (length (Scripts.batch st) < 5)%nat ∧
  (Scripts.commits st * 5 + length (Scripts.batch st) = k)%nat ∧
  git_adds (Scripts.events st) = Scripts.commits st.

(** An equipment record whose rarity is a JSON array: it is parsed like any
    other. *)
Definition odd_rarity_table : list (string * pyval) :=
  [ ("1", VDict [ ("name", VStr "A"); ("rarity", VList []) ]) ].

Definition odd_rarity_state : state :=
  {| equipment := fold_left (collect_equipment (VDict [])) odd_rarity_table [];
     ships := []; weapons := []; weapon_names := []; files := ∅; stdout := [] |}.

(** * Properties *)

(** ** Auxiliary facts on the monads and on dicts *)

Lemma bind_ok {A B} (m : result A) (f : A → result B) (b : B) :
  m ≫= f = Ok b → ∃ a, m = Ok a ∧ f a = Ok b.
Proof. destruct m as [a|e]; simpl; [eauto | discriminate]. Qed.

Ltac bind_inv H :=
  repeat (let a := fresh "a" in let Ha := fresh "Ha" in
          apply bind_ok in H as (a & Ha & H)).

Lemma lookup_set_key {V} (k k' : string) (v : V) (d : list (string * V)) :
  lookup_key k (set_key k' v d) =
  if String.eqb k k' then Some v else lookup_key k d.
Proof.
  induction d as [|[k0 v0] d IH]; simpl.
  - destruct (String.eqb_spec k k'); reflexivity.
  - destruct (String.eqb_spec k' k0) as [->|Hne]; simpl.
    + destruct (String.eqb_spec k k0); reflexivity.
    + rewrite IH. destruct (String.eqb_spec k k0) as [->|]; [|reflexivity].
      destruct (String.eqb_spec k0 k'); [congruence | reflexivity].
Qed.

Lemma py_eq_str (s : string) (v : pyval) :
  py_eq (VStr s) v = true ↔ v = VStr s.
Proof.
  destruct v; simpl; try (split; [discriminate | congruence]).
  rewrite String.eqb_eq. split; congruence.
Qed.

Lemma stat_at_list (l : list pyval) (i : nat) :
  stat_at (VList l) i = Ok (nth i l (VInt 0)).
Proof.
  unfold stat_at; simpl.
  destruct (Nat.ltb_spec i (length l)) as [Hlt|Hge]; simpl.
  - destruct (nth_error l i) as [x|] eqn:Hx.
    + f_equal. symmetry. apply nth_error_nth. exact Hx.
    + apply nth_error_None in Hx. lia.
  - rewrite nth_overflow by lia. reflexivity.
Qed.

(** Every stat of a constructed ship is the guarded read of its position. *)
Lemma new_ship_stats (key : string) (d : list (string * pyval)) (ship : Ship.t) :
  new_ship key (VDict d) = Ok ship →
  ∀ st,
    stat_at (attrs_of d) (stat_index st) = Ok (base_stat st ship) ∧
    ∀ get, growth_rate st = Some get →
           stat_at (attrs_growth_of d) (stat_index st) = Ok (get ship).
Proof.
  intros H. unfold new_ship in H. simpl in H. bind_inv H.
  injection H as <-.
  intros st; split; [|intros get Hget]; destruct st; simpl in *;
    try discriminate; try (injection Hget as <-); simpl; assumption.
Qed.

Lemma new_ship_dict (key : string) (id : Z) (d : list (string * pyval))
    (attrs growth : list pyval) :
  py_int key = Ok id →
  py_hashable (type_code_of d) = true →
  attrs_of d = VList attrs →
  attrs_growth_of d = VList growth →
  ∃ ship, new_ship key (VDict d) = Ok ship ∧ Ship.id ship = id.
Proof.
  unfold attrs_of, attrs_growth_of, type_code_of, twelve_zeros. simpl.
  intros Hk Hh Ha Hg. unfold new_ship. simpl.
  rewrite Hk, Ha, Hg. simpl.
  unfold int_key_get. rewrite Hh. simpl.
  rewrite !stat_at_list. simpl. eexists. split; reflexivity.
Qed.

(** ** The parsing loops *)

Lemma load_json_data (E : env) (filename : string) (s : state) :
  let r := load_json E filename s in
  equipment (fst r) = equipment s ∧ ships (fst r) = ships s ∧
  weapons (fst r) = weapons s ∧ weapon_names (fst r) = weapon_names s ∧
  files (fst r) = files s ∧ ∃ v, snd r = Ok v.
Proof.
  unfold load_json. destruct (tables E filename); simpl; eauto 10.
Qed.

Lemma ship_loop (items : list (string * pyval)) (s : state) :
  let r := for_each items (λ '(ship_id, data),
    try_except
      ('(key, ship) ← lift (ship_record ship_id data);
       set_ship key ship)
      (λ e, print_exn ("Error parsing ship " +:+ ship_id +:+ ": ") e)) s in
  snd r = Ok () ∧ ships (fst r) = fold_left collect_ship items (ships s).
Proof.
  revert s. induction items as [|[ship_id data] items IH]; intros s; simpl.
  - split; reflexivity.
  - unfold mbind, M_bind, try_except, lift, collect_ship at 2; simpl.
    destruct (ship_record ship_id data) as [[key ship]|e]; simpl;
      match goal with |- context [for_each items _ ?s'] => exact (IH s') end.
Qed.

Lemma bind_run {A B} (m : M A) (k : A → M B) (s : state) :
  (m ≫= k) s =
  match m s with
  | (s', Ok a) => k a s'
  | (s', Raise e) => (s', Raise e)
  end.
Proof. reflexivity. Qed.

Lemma parse_ships_result (E : env) (s : state) (table : list (string * pyval)) :
  tables E "ship_data_statistics.json" = Loaded (VDict table) →
  snd (parse_ships E s) = Ok () ∧
  ships (fst (parse_ships E s)) = fold_left collect_ship table (ships s).
Proof.
  intros Ht. destruct (parse_ships E s) as [s' r] eqn:Hrun. simpl.
  unfold parse_ships in Hrun.
  rewrite bind_run in Hrun. simpl in Hrun. rewrite bind_run in Hrun.
  unfold load_json at 1 in Hrun. rewrite Ht in Hrun. simpl in Hrun.
  rewrite bind_run in Hrun.
  match type of Hrun with context [load_json E ?f ?s1] =>
    pose proof (load_json_data E f s1) as Hl;
    destruct (load_json E f s1) as [s2 r2] end.
  simpl in Hl. destruct Hl as (_ & Hships & _ & _ & _ & v & ->).
  rewrite bind_run in Hrun. simpl in Hrun. rewrite bind_run in Hrun.
  match type of Hrun with context [for_each table ?body s2] =>
    pose proof (ship_loop table s2) as Hloop;
    destruct (for_each table body s2) as [s3 r3] end.
  simpl in Hloop. destruct Hloop as [-> Hs3]. simpl in Hrun.
  injection Hrun as <- <-. simpl.
  split; [reflexivity|]. rewrite Hs3, Hships. reflexivity.
Qed.

(** ** Ships: short stat vectors *)

(** C7.  A ship record whose [attrs] and [attrs_growth] are lists of any
    length (in particular shorter than 12) is parsed without an exception,
    under a numeric key and with a hashable type code: the record is stored,
    [parse_ships] returns normally (as it does on every table that is a JSON
    object), every stat reads its position of the list and every position at
    or beyond the length of the list reads as 0.  For [attrs = [5000, 100]]:
    [hp = 5000], [firepower = 100], every other stat 0. *)
Theorem short_stat_vectors_read_zero
    (key : string) (id : Z) (d : list (string * pyval)) (attrs growth : list pyval) :
  py_int key = Ok id →
  py_hashable (type_code_of d) = true →
  attrs_of d = VList attrs →
  attrs_growth_of d = VList growth →
  ∃ ship,
    ship_record key (VDict d) = Ok (id, ship) ∧
    (∀ E s, tables E "ship_data_statistics.json" = Loaded (VDict [(key, VDict d)]) →
       snd (parse_ships E s) = Ok () ∧
       ships (fst (parse_ships E s)) = set_int_key id ship (ships s)) ∧
    (∀ E s table, tables E "ship_data_statistics.json" = Loaded (VDict table) →
       snd (parse_ships E s) = Ok ()) ∧
    (∀ st, base_stat st ship = nth (stat_index st) attrs (VInt 0)) ∧
    (∀ st get, growth_rate st = Some get →
       get ship = nth (stat_index st) growth (VInt 0)) ∧
    (∀ st, (length attrs ≤ stat_index st)%nat → base_stat st ship = VInt 0) ∧
    (∀ st get, growth_rate st = Some get →
       (length growth ≤ stat_index st)%nat → get ship = VInt 0) ∧
    (attrs = [VInt 5000; VInt 100] →
       Ship.hp ship = VInt 5000 ∧ Ship.firepower ship = VInt 100 ∧
       ∀ st, st ≠ Hp → st ≠ Firepower → base_stat st ship = VInt 0).
Proof.
  intros Hk Hh Ha Hg.
  destruct (new_ship_dict key id d attrs growth Hk Hh Ha Hg) as (ship & Hship & Hid).
  pose proof (new_ship_stats key d ship Hship) as Hstats.
  assert (Hbase : ∀ st, base_stat st ship = nth (stat_index st) attrs (VInt 0)).
  { intros st. destruct (Hstats st) as [Hb _].
    rewrite Ha, stat_at_list in Hb. congruence. }
  assert (Hgrowth : ∀ st get, growth_rate st = Some get →
            get ship = nth (stat_index st) growth (VInt 0)).
  { intros st get Hget. destruct (Hstats st) as [_ Hr].
    specialize (Hr get Hget). rewrite Hg, stat_at_list in Hr. congruence. }
  assert (Hrec : ship_record key (VDict d) = Ok (id, ship)).
  { unfold ship_record. rewrite Hship. simpl. rewrite Hk. reflexivity. }
  exists ship. split; [exact Hrec|]. split.
  { intros E s Ht. destruct (parse_ships_result E s _ Ht) as [Hok Hs].
    split; [exact Hok|]. rewrite Hs. simpl.
    unfold collect_ship. simpl. rewrite Hrec. reflexivity. }
  split. { intros E s table Ht. apply (parse_ships_result E s table Ht). }
  split; [exact Hbase|]. split; [exact Hgrowth|]. split.
  { intros st Hlen. rewrite Hbase. apply nth_overflow. exact Hlen. }
  split.
  { intros st get Hget Hlen. rewrite (Hgrowth st get Hget).
    apply nth_overflow. exact Hlen. }
  intros ->. split; [exact (Hbase Hp)|]. split; [exact (Hbase Firepower)|].
  intros st Hne1 Hne2. rewrite Hbase.
  destruct st; try reflexivity; congruence.
Qed.

Lemma short_stat_vectors_read_zero_witness :
  ∃ ship,
    ship_record "100" (VDict [("attrs", VList [VInt 5000; VInt 100])]) = Ok (100, ship) ∧
    Ship.hp ship = VInt 5000 ∧ Ship.firepower ship = VInt 100 ∧
    Ship.torpedo ship = VInt 0 ∧ Ship.antisub ship = VInt 0 ∧
    Ship.hp_growth ship = VInt 0.
Proof.
  destruct (short_stat_vectors_read_zero "100" 100
              [("attrs", VList [VInt 5000; VInt 100])]
              [VInt 5000; VInt 100] (replicate 12 (VInt 0))
              eq_refl eq_refl eq_refl eq_refl)
    as (ship & Hrec & _ & _ & Hbase & Hgrowth & _ & _ & Hex).
  exists ship. destruct (Hex eq_refl) as (Hhp & Hfp & _).
  repeat split; try assumption.
  - exact (Hbase Torpedo).
  - exact (Hbase Antisub).
  - exact (Hgrowth Hp _ eq_refl).
Defined.

(** ** Ships: which growth rates are kept *)

(** C5, as the code has it.  A parsed ship keeps a growth rate for ten of
    the twelve stat positions: positions 0 to 8 and 11 (hit points,
    firepower, torpedo, anti-air, aviation, reload, armor, hit rate, evasion
    and anti-submarine), the growth field of a stat reading the position of
    [attrs_growth] that its base field reads of [attrs].  Positions 9 (speed)
    and 10 (luck) have a base stat and no growth field. *)
Theorem growth_rates_kept_for_ten_stats
    (key : string) (d : list (string * pyval)) (ship : Ship.t) :
  new_ship key (VDict d) = Ok ship →
  ∀ st,
    stat_at (attrs_of d) (stat_index st) = Ok (base_stat st ship) ∧
    match growth_rate st with
    | Some get => stat_at (attrs_growth_of d) (stat_index st) = Ok (get ship)
    | None => st = Speed ∨ st = Luck
    end.
Proof.
  intros H st. destruct (new_ship_stats key d ship H st) as [Hb Hg].
  split; [exact Hb|].
  destruct (growth_rate st) as [get|] eqn:Hget.
  - apply Hg. reflexivity.
  - destruct st; simpl in Hget; try discriminate; [left | right]; reflexivity.
Qed.

Lemma growth_rates_kept_for_ten_stats_witness :
  ∃ ship,
    new_ship "1" (VDict [("attrs_growth", growth_a)]) = Ok ship ∧
    Ship.hp_growth ship = VInt 10 ∧ Ship.antisub_growth ship = VInt 120.
Proof.
  destruct (new_ship "1" (VDict [("attrs_growth", growth_a)])) as [ship|e] eqn:H;
    [|discriminate H].
  exists ship. split; [reflexivity|].
  pose proof (growth_rates_kept_for_ten_stats "1" _ ship H Hp) as [_ H0].
  pose proof (growth_rates_kept_for_ten_stats "1" _ ship H Antisub) as [_ H11].
  change (Ok (VInt 10) = Ok (Ship.hp_growth ship)) in H0.
  change (Ok (VInt 120) = Ok (Ship.antisub_growth ship)) in H11.
  split; congruence.
Defined.

(** C5, as stated, fails: two records whose growth vectors differ at position
    9 (speed) give the same ship, so the growth rate of that position is not
    in the model. *)
Lemma speed_growth_is_dropped :
  stat_at growth_a 9 = Ok (VInt 100) ∧
  stat_at growth_b 9 = Ok (VInt 7) ∧
  is_ok (new_ship "1" (VDict [("attrs_growth", growth_a)])) = true ∧
  new_ship "1" (VDict [("attrs_growth", growth_a)]) =
  new_ship "1" (VDict [("attrs_growth", growth_b)]).
Proof. repeat split; reflexivity. Qed.

(** ** Defaults of absent fields *)

Lemma new_equipment_dict (key : string) (id : Z) (d : list (string * pyval)) :
  py_int key = Ok id →
  py_hashable (type_code_of d) = true →
  ∃ equip,
    new_equipment key (VDict d) = Ok equip ∧
    Equipment.id equip = id ∧
    Forall (λ f, f.1.2 equip = default f.2 (lookup_key f.1.1 d)) equipment_fields ∧
    int_key_get EQUIP_TYPES (type_code_of d) "Unknown" = Ok (Equipment.type_name equip) ∧
    Equipment.damage equip = VList [] ∧
    Equipment.reload equip = VList [] ∧
    Equipment.armor_modifiers equip = VList [].
Proof.
  unfold type_code_of. intros Hk Hh. unfold new_equipment. rewrite Hk. simpl.
  unfold int_key_get. rewrite Hh. simpl.
  eexists. split; [reflexivity|]. simpl.
  repeat (split; [reflexivity|]). split; [|repeat split].
  repeat constructor.
Qed.

Lemma new_ship_fields (key : string) (d : list (string * pyval)) (ship : Ship.t) :
  new_ship key (VDict d) = Ok ship →
  py_int key = Ok (Ship.id ship) ∧
  Forall (λ f, f.1.2 ship = default f.2 (lookup_key f.1.1 d)) ship_fields ∧
  int_key_get SHIP_TYPES (type_code_of d) "Unknown" = Ok (Ship.type_name ship).
Proof.
  intros H. unfold new_ship in H. simpl in H. bind_inv H.
  injection H as <-. simpl. split; [assumption|]. split; [|assumption].
  repeat constructor.
Qed.

(** C3, as the code has it.  A record that is a JSON object, under a numeric
    key, constructs whenever its type code is absent or hashable (and, for a
    ship, its two stat vectors are absent or lists); no other field is
    needed.  Every field of the entity read from the record holds the value
    of the record, or, when the record lacks it, its default: 0 for the
    numeric codes except [rarity] (equipment and ships), [star] and
    [armor_type] (ships), whose default is 1; the empty list for the sequence
    fields; twelve zeros for an absent stat vector.  The three equipment
    fields the record never supplies are empty lists. *)
Theorem absent_fields_take_defaults
    (key : string) (id : Z) (d : list (string * pyval)) :
  py_int key = Ok id →
  py_hashable (type_code_of d) = true →
  (lookup_key "type" d = None → type_code_of d = VInt 0) ∧
  (∃ equip,
     new_equipment key (VDict d) = Ok equip ∧
     Equipment.id equip = id ∧
     Forall (λ f, f.1.2 equip = default f.2 (lookup_key f.1.1 d)) equipment_fields ∧
     Equipment.damage equip = VList [] ∧
     Equipment.reload equip = VList [] ∧
     Equipment.armor_modifiers equip = VList []) ∧
  (∀ attrs growth,
     attrs_of d = VList attrs → attrs_growth_of d = VList growth →
     ∃ ship,
       new_ship key (VDict d) = Ok ship ∧
       Ship.id ship = id ∧
       Forall (λ f, f.1.2 ship = default f.2 (lookup_key f.1.1 d)) ship_fields ∧
       (lookup_key "attrs" d = None → ∀ st, base_stat st ship = VInt 0) ∧
       (lookup_key "attrs_growth" d = None →
        ∀ st get, growth_rate st = Some get → get ship = VInt 0)).
Proof.
  intros Hk Hh. split.
  { unfold type_code_of. intros ->. reflexivity. }
  split.
  { destruct (new_equipment_dict key id d Hk Hh)
      as (equip & H & Hid & Hf & _ & Hd & Hr & Ha).
    exists equip. auto 10. }
  intros attrs growth Ha Hg.
  destruct (new_ship_dict key id d attrs growth Hk Hh Ha Hg) as (ship & Hship & Hid).
  exists ship. split; [exact Hship|]. split; [exact Hid|].
  destruct (new_ship_fields key d ship Hship) as (_ & Hf & _).
  split; [exact Hf|].
  pose proof (new_ship_stats key d ship Hship) as Hstats.
  split.
  - intros Hnone st. destruct (Hstats st) as [Hb _].
    unfold attrs_of in Hb. rewrite Hnone in Hb. simpl in Hb.
    unfold twelve_zeros in Hb. rewrite stat_at_list in Hb.
    destruct st; simpl in *; congruence.
  - intros Hnone st get Hget. destruct (Hstats st) as [_ Hr].
    specialize (Hr get Hget).
    unfold attrs_growth_of in Hr. rewrite Hnone in Hr. simpl in Hr.
    unfold twelve_zeros in Hr. rewrite stat_at_list in Hr.
    destruct st; simpl in *; try discriminate; injection Hget as <-; congruence.
Qed.

Lemma absent_fields_take_defaults_witness :
  ∃ equip,
    new_equipment "12345601" (VDict example_record) = Ok equip ∧
    Equipment.id equip = 12345601 ∧
    Equipment.rarity equip = VInt 3 ∧
    Equipment.nationality equip = VInt 0 ∧
    Equipment.weapon_ids equip = VList [] ∧
    Equipment.damage equip = VList [].
Proof.
  destruct (absent_fields_take_defaults "12345601" 12345601 example_record
              eq_refl eq_refl)
    as (_ & (equip & H & Hid & Hf & Hd & _) & _).
  exists equip. split; [exact H|]. split; [exact Hid|].
  unfold equipment_fields in Hf.
  repeat match goal with
         | H : Forall _ (_ :: _) |- _ => apply Forall_cons_1 in H as [? H]
         end.
  simpl in *. repeat split; assumption.
Defined.

(** C3, as stated, fails: a record without [rarity] gets rarity 1, and a
    ship record without [star] and [armor_type] gets 1 for each. *)
Lemma absent_rarity_reads_one :
  Equipment.rarity <$> new_equipment "1" (VDict []) = Ok (VInt 1) ∧
  Ship.rarity <$> new_ship "1" (VDict []) = Ok (VInt 1) ∧
  Ship.star <$> new_ship "1" (VDict []) = Ok (VInt 1) ∧
  Ship.armor_type <$> new_ship "1" (VDict []) = Ok (VInt 1) ∧
  lookup_key "rarity" ([] : list (string * pyval)) = None ∧
  Equipment.rarity <$> new_equipment "1" (VDict []) ≠ Ok (VInt 0).
Proof. repeat split; try reflexivity. discriminate. Qed.

(** ** Equipment: what the template table supplies *)

Lemma new_equipment_key (key : string) (data : pyval) (equip : Equipment.t) :
  new_equipment key data = Ok equip → py_int key = Ok (Equipment.id equip).
Proof.
  intros H. unfold new_equipment in H. bind_inv H. injection H as <-.
  simpl. assumption.
Qed.




(** ** [sorted] returns a permutation *)

Section SortedFacts.
Context {A K : Type} (key : A → K) (lt : K → K → result bool).

Lemma insert_by_perm (x : A) (l l' : list A) :
  insert_by key lt x l = Ok l' → l' ≡ₚ x :: l.
Proof.
  revert l'. induction l as [|y l IH]; intros l' H; simpl in H.
  - injection H as <-. reflexivity.
  - apply bind_ok in H as (b & _ & H). destruct b.
    + apply bind_ok in H as (r & Hr & H). injection H as <-.
      rewrite (IH r Hr). apply Permutation_swap.
    + injection H as <-. reflexivity.
Qed.

Lemma sorted_by_perm (l l' : list A) :
  sorted_by key lt l = Ok l' → l' ≡ₚ l.
Proof.
  revert l'. induction l as [|x l IH]; intros l' H; simpl in H.
  - injection H as <-. reflexivity.
  - apply bind_ok in H as (r & Hr & H).
    rewrite (insert_by_perm x r l' H), (IH r Hr). reflexivity.
Qed.

(** Where any two keys compare, sorting returns. *)
Lemma sorted_by_total (l : list A) :
  (∀ a b, ∃ c, lt a b = Ok c) → ∃ l', sorted_by key lt l = Ok l'.
Proof.
  intros Hlt.
  assert (Hins : ∀ x l, ∃ l', insert_by key lt x l = Ok l').
  { intros x. induction l0 as [|y l0 [r Hr]]; simpl; [eauto|].
    destruct (Hlt (key y) (key x)) as [[] ->]; simpl; [|eauto].
    rewrite Hr. simpl. eauto. }
  induction l as [|x l [r Hr]]; simpl; [eauto|].
  rewrite Hr. simpl. apply Hins.
Qed.
End SortedFacts.

(** ** What the export loops write *)

Lemma write_run (path text : string) (s : state) :
  write path text s =
  ({| equipment := equipment s; ships := ships s; weapons := weapons s;
      weapon_names := weapon_names s;
      files := <[path := default EmptyString (files s !! path) +:+ text]> (files s);
      stdout := stdout s |}, Ok ()).
Proof. reflexivity. Qed.

Lemma string_app_cons (x : ascii) (a b : string) :
  String x a +:+ b = String x (a +:+ b).
Proof. reflexivity. Qed.

Lemma string_app_assoc (a b c : string) : (a +:+ b) +:+ c = a +:+ (b +:+ c).
Proof.
  induction a as [|x a IH]; [reflexivity|].
  rewrite !string_app_cons, IH. reflexivity.
Qed.

Lemma string_app_empty (a : string) : a +:+ EmptyString = a.
Proof.
  induction a as [|x a IH]; [reflexivity|].
  rewrite string_app_cons, IH. reflexivity.
Qed.

(** The loop over the sorted entities: whatever its outcome, the file holds
    its former content followed by the records of the rows written, each the
    row of an entity of the list; on a normal return there is one row per
    entity, in order.  Nothing else of the state changes. *)
Lemma write_rows {A} (path : string) (fieldnames : list string)
    (row_of : A → result (list (string * pyval))) (l : list A)
    (s : state) (content : string) :
  files s !! path = Some content →
  let r := for_each l (λ x,
             row ← lift (row_of x);
             write path (row_record fieldnames row)) s in
  ∃ rows,
    files (fst r) !! path = Some (content +:+ records fieldnames rows) ∧
    Forall (λ row, ∃ x, x ∈ l ∧ row_of x = Ok row) rows ∧
    (snd r = Ok () → Forall2 (λ x row, row_of x = Ok row) l rows) ∧
    (∀ e, snd r = Raise e → ∃ x, x ∈ l ∧ row_of x = Raise e) ∧
    (∀ p, p ≠ path → files (fst r) !! p = files s !! p) ∧
    equipment (fst r) = equipment s ∧ ships (fst r) = ships s ∧
    weapons (fst r) = weapons s ∧ weapon_names (fst r) = weapon_names s ∧
    stdout (fst r) = stdout s.
Proof.
  revert s content. induction l as [|x l IH]; intros s content Hc; simpl.
  - exists []. simpl. rewrite string_app_empty.
    repeat split; auto. discriminate.
  - rewrite bind_run, bind_run. unfold lift at 1.
    destruct (row_of x) as [row|e] eqn:Hrow.
    + rewrite write_run.
      match goal with |- context [for_each l ?body ?s'] =>
        destruct (IH s' (content +:+ row_record fieldnames row))
          as (rows & Hfile & Hall & Hok & Hraise & Hframe & He & Hs & Hw & Hn & Ho) end.
      { simpl. rewrite Hc. simpl. apply lookup_insert_eq. }
      exists (row :: rows). simpl in *.
      split. { rewrite Hfile, string_app_assoc. reflexivity. }
      split. { constructor; [exists x; split; [left|assumption] |].
               eapply Forall_impl; [exact Hall|].
               intros row' (y & Hy & Hrow'). exists y. split; [right; exact Hy | exact Hrow']. }
      split. { intros Hr. constructor; [assumption | auto]. }
      split. { intros e He'. destruct (Hraise e He') as (y & Hy & Hrow').
               exists y. split; [right; exact Hy | exact Hrow']. }
      split. { intros p Hp. rewrite (Hframe p Hp). apply lookup_insert_ne. congruence. }
      auto.
    + exists []. simpl. rewrite string_app_empty.
      split; [assumption|]. split; [constructor|]. split; [discriminate|].
      split. { intros e' [= <-]. exists x. split; [left | exact Hrow]. }
      auto 10.
Qed.

Lemma open_for_writing_run (E : env) (path : string) (s : state) :
  open_w E path = None →
  open_for_writing E path s =
  ({| equipment := equipment s; ships := ships s; weapons := weapons s;
      weapon_names := weapon_names s;
      files := <[path := EmptyString]> (files s);
      stdout := stdout s |}, Ok ()).
Proof. intros H. unfold open_for_writing. rewrite H. reflexivity. Qed.

Lemma csv_block_spec {A K} (E : env) (path : string) (fieldnames : list string)
    (collection : state → list (Z * A))
    (key : A → K) (lt : K → K → result bool)
    (row_of : A → result (list (string * pyval)))
    (message : nat → string) (s : state) :
  (∀ s1 s2, equipment s1 = equipment s2 → ships s1 = ships s2 →
            weapons s1 = weapons s2 → collection s1 = collection s2) →
  open_w E path = None →
  csv_block_result path fieldnames (collection s)
    (sorted_by key lt (values (collection s))) row_of s
    (csv_block E path fieldnames collection key lt row_of message s).
Proof.
  intros Hsel Hopen. unfold csv_block_result.
  destruct (csv_block E path fieldnames collection key lt row_of message s)
    as [s' r] eqn:Hrun.
  unfold csv_block in Hrun.
  rewrite bind_run, (open_for_writing_run _ _ _ Hopen), bind_run in Hrun.
  unfold gets at 1 in Hrun. cbv beta iota in Hrun.
  match type of Hrun with context [collection ?s1] =>
    assert (collection s1 = collection s) as Hc by (apply Hsel; reflexivity);
    rewrite !Hc in Hrun; clear Hc
  end.
  destruct (collection s) as [|entry entities].
  - simpl in Hrun. injection Hrun as <- <-.
    exists []. simpl. rewrite lookup_insert_eq.
    split; [reflexivity|]. split; [constructor|].
    split. { intros _. exists []. split; [constructor|]. split; [congruence | constructor]. }
    split; [discriminate|].
    split; [intros p Hp; apply lookup_insert_ne; congruence|]. auto.
  - cbv beta iota delta [is_empty] in Hrun.
    rewrite bind_run, bind_run, write_run, bind_run in Hrun.
    unfold lift at 1 in Hrun.
    destruct (sorted_by key lt (values (entry :: entities))) as [ordered|e] eqn:Hsort.
    + pose proof (sorted_by_perm _ _ _ _ Hsort) as Hperm.
      match type of Hrun with context [for_each ordered ?body ?s1] =>
        destruct (write_rows path fieldnames row_of ordered s1
                    (EmptyString +:+ header_record fieldnames))
          as (rows & Hfile & Hall & Hok & Hraise & Hframe & He & Hs & Hw & Hn & Ho);
        [ simpl; rewrite !lookup_insert_eq; reflexivity |];
        destruct (for_each ordered body s1) as [s2 [[]|e2]]
      end; simpl in *; injection Hrun as <- <-; exists rows; simpl.
      * split; [rewrite Hfile; reflexivity|].
        split. { eapply Forall_impl; [exact Hall|].
                 intros row (x & Hx & Hrow). exists x. split; [|exact Hrow].
                 rewrite <- Hperm. exact Hx. }
        split. { intros _. exists ordered. split; [exact Hperm | auto]. }
        split; [discriminate|].
        split. { intros p Hp. rewrite (Hframe p Hp).
                 rewrite !lookup_insert_ne by congruence. reflexivity. }
        auto.
      * split; [rewrite Hfile; reflexivity|].
        split. { eapply Forall_impl; [exact Hall|].
                 intros row (x & Hx & Hrow). exists x. split; [|exact Hrow].
                 rewrite <- Hperm. exact Hx. }
        split; [discriminate|].
        split. { intros e He'. split; [discriminate|]. right.
                 destruct (Hraise e He') as (x & Hx & Hrow).
                 exists x. split; [rewrite <- Hperm; exact Hx | exact Hrow]. }
        split. { intros p Hp. rewrite (Hframe p Hp).
                 rewrite !lookup_insert_ne by congruence. reflexivity. }
        auto.
    + simpl in Hrun. injection Hrun as <- <-.
      exists []. simpl. rewrite lookup_insert_eq, lookup_insert_eq.
      unfold csv_document. simpl. rewrite string_app_empty.
      split; [reflexivity|]. split; [constructor|].
      split; [discriminate|].
      split. { intros e' [= <-]. split; [discriminate | left; reflexivity]. }
      split. { intros p Hp. rewrite !lookup_insert_ne by congruence. reflexivity. }
      auto.
Qed.

Lemma export_equipment_csv_result (E : env) (output_dir : string) (s : state) :
  open_w E (path_join output_dir "equipment.csv") = None →
  csv_block_result (path_join output_dir "equipment.csv") equipment_fieldnames
    (equipment s)
    (sorted_by equipment_sort_key tuple_lt (values (equipment s)))
    equipment_row s (export_equipment_csv E output_dir s).
Proof.
  intros Hopen.
  apply (csv_block_spec E (path_join output_dir "equipment.csv")
           equipment_fieldnames equipment equipment_sort_key tuple_lt equipment_row
           (λ n, "  Exported " +:+ pretty n +:+ " equipment items to equipment.csv") s);
    [intros ? ? H _ _; exact H | exact Hopen].
Qed.

Lemma export_ships_csv_result (E : env) (output_dir : string) (s : state) :
  open_w E (path_join output_dir "ships.csv") = None →
  csv_block_result (path_join output_dir "ships.csv") ship_fieldnames
    (ships s) (sorted_by ship_sort_key tuple_lt (values (ships s)))
    ship_row s (export_ships_csv E output_dir s).
Proof.
  intros Hopen.
  apply (csv_block_spec E (path_join output_dir "ships.csv")
           ship_fieldnames ships ship_sort_key tuple_lt ship_row
           (λ n, "  Exported " +:+ pretty n +:+ " ships to ships.csv") s);
    [intros ? ? _ H _; exact H | exact Hopen].
Qed.

Lemma export_weapons_csv_result (E : env) (output_dir : string) (s : state) :
  open_w E (path_join output_dir "weapons.csv") = None →
  csv_block_result (path_join output_dir "weapons.csv") weapon_fieldnames
    (weapons s) (sorted_by Weapon.id int_lt (values (weapons s)))
    (λ w, Ok (weapon_row w)) s (export_weapons_csv E output_dir s).
Proof.
  intros Hopen.
  apply (csv_block_spec E (path_join output_dir "weapons.csv")
           weapon_fieldnames weapons Weapon.id int_lt (λ w, Ok (weapon_row w))
           (λ n, "  Exported " +:+ pretty n +:+ " weapons to weapons.csv") s);
    [intros ? ? _ _ H; exact H | exact Hopen].
Qed.

(** ** Weapons: the name cell *)

Lemma pretty_N_go_length (x : N) (s : string) :
  (String.length s ≤ String.length (pretty_N_go x s))%nat.
Proof.
  revert s. induction (N.lt_wf_0 x) as [x _ IH]; intros s.
  destruct (decide (x = 0)%N) as [->|Hx].
  - rewrite pretty_N_go_0. lia.
  - rewrite pretty_N_go_step by lia.
    etrans; [|apply IH; apply N.div_lt; lia]. simpl. lia.
Qed.

Lemma pretty_Z_nonempty (z : Z) : pretty z ≠ EmptyString.
Proof.
  assert (Hpos : ∀ p : positive, pretty p ≠ EmptyString).
  { intros p H. unfold pretty, pretty_positive, pretty, pretty_N in H.
    destruct (decide (N.pos p = 0)%N) as [|_]; [discriminate|].
    rewrite pretty_N_go_step in H by lia.
    pose proof (pretty_N_go_length (N.pos p `div` 10)
                  (String (pretty_N_char (N.pos p `mod` 10)) EmptyString)) as Hl.
    rewrite H in Hl. simpl in Hl. lia. }
  destruct z as [|p|p]; unfold pretty, pretty_Z.
  - discriminate.
  - apply Hpos.
  - rewrite string_app_cons. discriminate.
Qed.

Lemma py_str_truthy (v : pyval) : py_truthy v = true → py_str v ≠ EmptyString.
Proof.
  destruct v as [|b|z|s|l|d]; simpl; intros H.
  - discriminate H.
  - destruct b; discriminate.
  - apply pretty_Z_nonempty.
  - destruct s; [discriminate H | discriminate].
  - rewrite string_app_cons. discriminate.
  - rewrite string_app_cons. discriminate.
Qed.

Lemma sanitize_truthy (v : pyval) :
  py_truthy v = true → sanitize_csv_field v ≠ EmptyString.
Proof.
  intros H. unfold sanitize_csv_field.
  destruct v as [|b|z|s|l|d]; try (apply py_str_truthy; exact H).
  destruct s as [|c rest]; [discriminate H|].
  destruct (existsb _ _); [discriminate | apply py_str_truthy; exact H].
Qed.

Lemma sanitize_placeholder (id : Z) :
  sanitize_csv_field (VStr ("Weapon_" +:+ pretty id)) = "Weapon_" +:+ pretty id.
Proof. reflexivity. Qed.

Lemma csv_field_nonempty (text : string) :
  text ≠ EmptyString → csv_field (VStr text) ≠ EmptyString.
Proof.
  intros H. unfold csv_field. simpl.
  destruct (needs_quotes text); [discriminate | exact H].
Qed.

Lemma int_lt_total (a b : Z) : ∃ c, int_lt a b = Ok c.
Proof. unfold int_lt. eauto. Qed.

(** C10.  The name cell of a weapon row is never empty, in the row dict and
    in the text written for it; a weapon whose name is the empty string gets
    the cell [Weapon_] followed by its ID, and a weapon whose ID is not in
    the name table has the empty string as its name.  [weapons.csv], once
    opened, is written to the end without an exception and holds the header
    and exactly these rows, one per weapon. *)
Theorem weapon_name_cell_not_empty :
  (∀ weapon, ∃ text,
     lookup_key "name" (weapon_row weapon) = Some (VStr text) ∧
     text ≠ EmptyString ∧ csv_field (VStr text) ≠ EmptyString) ∧
  (∀ weapon, Weapon.name weapon = VStr EmptyString →
     lookup_key "name" (weapon_row weapon) =
     Some (VStr ("Weapon_" +:+ pretty (Weapon.id weapon)))) ∧
  (∀ names key data weapon,
     new_weapon names key data = Ok weapon →
     lookup_int_key (Weapon.id weapon) names = None →
     Weapon.name weapon = VStr EmptyString) ∧
  (∀ E output_dir s,
     open_w E (path_join output_dir "weapons.csv") = None →
     snd (export_weapons_csv E output_dir s) = Ok () ∧
     ∃ ordered,
       ordered ≡ₚ values (weapons s) ∧
       files (fst (export_weapons_csv E output_dir s))
         !! path_join output_dir "weapons.csv"
       = Some (csv_document weapon_fieldnames (weapons s) (map weapon_row ordered))).
Proof.
  split; [|split; [|split]].
  - intros weapon. eexists. split; [reflexivity|].
    assert (H : sanitize_csv_field (weapon_display_name weapon) ≠ EmptyString).
    { unfold weapon_display_name.
      destruct (py_truthy (Weapon.name weapon)) eqn:Ht.
      - apply sanitize_truthy. exact Ht.
      - rewrite sanitize_placeholder, string_app_cons. discriminate. }
    split; [exact H | apply csv_field_nonempty; exact H].
  - intros weapon Hname. unfold weapon_row, weapon_display_name.
    rewrite Hname. reflexivity.
  - intros names key data weapon H Hnone.
    unfold new_weapon in H. bind_inv H. injection H as <-. simpl in *.
    assert (a = a0) as -> by congruence. rewrite Hnone. reflexivity.
  - intros E output_dir s Hopen.
    destruct (export_weapons_csv_result E output_dir s Hopen)
      as (rows & Hfile & _ & Hok & Hraise & _).
    destruct (snd (export_weapons_csv E output_dir s)) as [[]|e] eqn:Hres.
    + split; [reflexivity|].
      destruct (Hok eq_refl) as (ordered & Hperm & _ & Hrows).
      exists ordered. split; [exact Hperm|].
      rewrite Hfile. do 2 f_equal.
      clear -Hrows. induction Hrows as [|x row l rows Hx _ IH]; simpl.
      * reflexivity.
      * injection Hx as <-. rewrite IH. reflexivity.
    + exfalso. destruct (Hraise e eq_refl) as [_ [Hsort | (x & _ & Hx)]].
      * destruct (sorted_by_total Weapon.id int_lt (values (weapons s)) int_lt_total)
          as [l Hl]. congruence.
      * discriminate Hx.
Qed.

Lemma weapon_name_cell_not_empty_witness :
  Weapon.name unnamed_weapon = VStr EmptyString ∧
  lookup_key "name" (weapon_row unnamed_weapon) = Some (VStr "Weapon_7").
Proof.
  split; [reflexivity|].
  exact (proj1 (proj2 weapon_name_cell_not_empty) unnamed_weapon eq_refl).
Defined.

(** ** Failure to create the output directory *)

(** C4, where the code departs from the claim.  When the output directory
    cannot be created, [export_to_csv] prints the error and returns, having
    written nothing; [export_to_json] lets the exception out, and with it
    [run] ends in that exception. *)
Theorem makedirs_failure_escapes_json_export
    (E : env) (output_dir : string) (s : state) (e : exn) :
  makedirs E output_dir = Some e →
  snd (export_to_csv E output_dir s) = Ok () ∧
  files (fst (export_to_csv E output_dir s)) = files s ∧
  stdout (fst (export_to_csv E output_dir s)) =
    (stdout s ++ [ Print (String newline ("Exporting data to " +:+ output_dir +:+ "/..."));
                   PrintExn "Error creating output directory: " e ])%list ∧
  export_to_json E output_dir s = (s, Raise e).
Proof.
  intros H. unfold export_to_csv, export_to_json. rewrite bind_run, H. simpl.
  rewrite <- app_assoc. auto.
Qed.

Lemma makedirs_failure_escapes_json_export_witness :
  snd (export_to_csv no_directory_env "azur_lane_parsed_data" (init ∅)) = Ok () ∧
  snd (export_to_json no_directory_env "azur_lane_parsed_data" (init ∅))
  = Raise (OSError "Permission denied") ∧
  snd (run silent silent no_directory_env (init ∅)) = Raise (OSError "Permission denied").
Proof.
  destruct (makedirs_failure_escapes_json_export no_directory_env
              "azur_lane_parsed_data" (init ∅) (OSError "Permission denied") eq_refl)
    as (Hcsv & _ & _ & Hjson).
  split; [exact Hcsv|]. split; [rewrite Hjson; reflexivity|].
  vm_compute. reflexivity.
Defined.

(** ** The three CSV files *)

Lemma path_join_inj (a b b' : string) : path_join a b = path_join a b' → b = b'.
Proof.
  unfold path_join. destruct (String.rev a) as [|c r]; [auto|].
  destruct (Ascii.eqb c "/"); intros H.
  - exact (String.app_inj a _ _ H).
  - apply (String.app_inj a) in H. exact (String.app_inj "/" _ _ H).
Qed.

(** A block touches its own file only, and no collection. *)
Lemma csv_block_frame {A K} (E : env) (path : string) (fieldnames : list string)
    (collection : state → list (Z * A))
    (key : A → K) (lt : K → K → result bool)
    (row_of : A → result (list (string * pyval)))
    (message : nat → string) (s : state) :
  (∀ s1 s2, equipment s1 = equipment s2 → ships s1 = ships s2 →
            weapons s1 = weapons s2 → collection s1 = collection s2) →
  let r := csv_block E path fieldnames collection key lt row_of message s in
  (∀ p, p ≠ path → files (fst r) !! p = files s !! p) ∧
  equipment (fst r) = equipment s ∧ ships (fst r) = ships s ∧
  weapons (fst r) = weapons s ∧ weapon_names (fst r) = weapon_names s.
Proof.
  intros Hsel. destruct (open_w E path) as [e|] eqn:Hopen.
  - unfold csv_block. rewrite bind_run. unfold open_for_writing. rewrite Hopen.
    simpl. auto.
  - destruct (csv_block_spec E path fieldnames collection key lt row_of message s
                Hsel Hopen) as (rows & _ & _ & _ & _ & Hframe & Hrest).
    simpl. auto.
Qed.

Lemma export_equipment_csv_frame (E : env) (output_dir : string) (s : state) :
  let r := export_equipment_csv E output_dir s in
  (∀ p, p ≠ path_join output_dir "equipment.csv" → files (fst r) !! p = files s !! p) ∧
  equipment (fst r) = equipment s ∧ ships (fst r) = ships s ∧
  weapons (fst r) = weapons s ∧ weapon_names (fst r) = weapon_names s.
Proof.
  apply (csv_block_frame E (path_join output_dir "equipment.csv")
           equipment_fieldnames equipment equipment_sort_key tuple_lt equipment_row
           (λ n, "  Exported " +:+ pretty n +:+ " equipment items to equipment.csv") s).
  intros ? ? H _ _; exact H.
Qed.

Lemma export_ships_csv_frame (E : env) (output_dir : string) (s : state) :
  let r := export_ships_csv E output_dir s in
  (∀ p, p ≠ path_join output_dir "ships.csv" → files (fst r) !! p = files s !! p) ∧
  equipment (fst r) = equipment s ∧ ships (fst r) = ships s ∧
  weapons (fst r) = weapons s ∧ weapon_names (fst r) = weapon_names s.
Proof.
  apply (csv_block_frame E (path_join output_dir "ships.csv")
           ship_fieldnames ships ship_sort_key tuple_lt ship_row
           (λ n, "  Exported " +:+ pretty n +:+ " ships to ships.csv") s).
  intros ? ? _ H _; exact H.
Qed.

Lemma export_weapons_csv_frame (E : env) (output_dir : string) (s : state) :
  let r := export_weapons_csv E output_dir s in
  (∀ p, p ≠ path_join output_dir "weapons.csv" → files (fst r) !! p = files s !! p) ∧
  equipment (fst r) = equipment s ∧ ships (fst r) = ships s ∧
  weapons (fst r) = weapons s ∧ weapon_names (fst r) = weapon_names s.
Proof.
  apply (csv_block_frame E (path_join output_dir "weapons.csv")
           weapon_fieldnames weapons Weapon.id int_lt (λ w, Ok (weapon_row w))
           (λ n, "  Exported " +:+ pretty n +:+ " weapons to weapons.csv") s).
  intros ? ? _ _ H; exact H.
Qed.

(** [export_to_csv] with a directory: the three blocks in sequence, each
    started only when the one before returned. *)
Lemma export_to_csv_blocks (E : env) (output_dir : string) (s : state) :
  makedirs E output_dir = None →
  let s0 := fst (print (String newline ("Exporting data to " +:+ output_dir +:+ "/...")) s) in
  let r1 := export_equipment_csv E output_dir s0 in
  let r2 := export_ships_csv E output_dir (fst r1) in
  let r3 := export_weapons_csv E output_dir (fst r2) in
  export_to_csv E output_dir s =
  match snd r1 with
  | Raise e => (fst r1, Raise e)
  | Ok _ =>
      match snd r2 with
      | Raise e => (fst r2, Raise e)
      | Ok _ => r3
      end
  end.
Proof.
  intros H. unfold export_to_csv. rewrite bind_run, H. simpl.
  rewrite bind_run.
  destruct (export_equipment_csv E output_dir _) as [s1 [[]|e1]]; simpl; [|reflexivity].
  rewrite bind_run.
  destruct (export_ships_csv E output_dir s1) as [s2 [[]|e2]]; simpl; [|reflexivity].
  destruct (export_weapons_csv E output_dir s2) as [s3 r3]. reflexivity.
Qed.

Lemma path_join_ne (a b b' : string) : b ≠ b' → path_join a b ≠ path_join a b'.
Proof. intros Hne H. apply Hne. exact (path_join_inj a b b' H). Qed.

(** C2, as the code has it.  With an empty equipment collection, a
    directory that can be created and a file that can be opened, the
    equipment block of [export_to_csv] returns normally and leaves
    [equipment.csv] empty: no header record and no data record; the blocks
    that follow do not touch the file.  When the two other collections are
    empty as well and their files can be opened, [export_to_csv] returns
    normally. *)
Theorem empty_equipment_leaves_empty_file
    (E : env) (output_dir : string) (s : state) :
  equipment s = [] →
  makedirs E output_dir = None →
  open_w E (path_join output_dir "equipment.csv") = None →
  snd (export_equipment_csv E output_dir s) = Ok () ∧
  files (fst (export_equipment_csv E output_dir s))
    !! path_join output_dir "equipment.csv" = Some EmptyString ∧
  files (fst (export_to_csv E output_dir s))
    !! path_join output_dir "equipment.csv" = Some EmptyString ∧
  (ships s = [] → weapons s = [] →
   open_w E (path_join output_dir "ships.csv") = None →
   open_w E (path_join output_dir "weapons.csv") = None →
   snd (export_to_csv E output_dir s) = Ok ()).
Proof.
  intros Hempty Hdir Hopen.
  assert (Hblock : ∀ s0, equipment s0 = [] →
            snd (export_equipment_csv E output_dir s0) = Ok () ∧
            files (fst (export_equipment_csv E output_dir s0))
              !! path_join output_dir "equipment.csv" = Some EmptyString).
  { intros s0 H0.
    destruct (export_equipment_csv_result E output_dir s0 Hopen)
      as (rows & Hfile & _ & _ & Hraise & _).
    rewrite H0 in Hfile, Hraise. split; [|exact Hfile].
    destruct (snd (export_equipment_csv E output_dir s0)) as [[]|e]; [reflexivity|].
    destruct (Hraise e eq_refl) as [Hne _]. congruence. }
  split; [apply Hblock; exact Hempty|]. split; [apply Hblock; exact Hempty|].
  rewrite (export_to_csv_blocks E output_dir s Hdir). cbv zeta.
  set (s0 := fst (print _ s)).
  assert (H0 : equipment s0 = []) by exact Hempty.
  destruct (Hblock s0 H0) as [Hok1 Hfile1].
  pose proof (export_equipment_csv_frame E output_dir s0) as (_ & _ & Hs1 & Hw1 & _).
  destruct (export_equipment_csv E output_dir s0) as [s1 r1]. simpl in *. subst r1.
  pose proof (export_ships_csv_frame E output_dir s1) as (Hf2 & _ & _ & Hw2 & _).
  pose proof (export_weapons_csv_frame E output_dir
                (fst (export_ships_csv E output_dir s1))) as (Hf3 & _).
  assert (Hne2 : path_join output_dir "equipment.csv" ≠ path_join output_dir "ships.csv")
    by (apply path_join_ne; discriminate).
  assert (Hne3 : path_join output_dir "equipment.csv" ≠ path_join output_dir "weapons.csv")
    by (apply path_join_ne; discriminate).
  split.
  - destruct (export_ships_csv E output_dir s1) as [s2 [[]|e2]] eqn:Hr2; simpl in *.
    + rewrite (Hf3 _ Hne3), (Hf2 _ Hne2). exact Hfile1.
    + rewrite (Hf2 _ Hne2). exact Hfile1.
  - intros Hships Hweapons Hopen2 Hopen3.
    destruct (export_ships_csv_result E output_dir s1 Hopen2)
      as (rows2 & _ & _ & _ & Hraise2 & _).
    destruct (export_ships_csv E output_dir s1) as [s2 [[]|e2]] eqn:Hr2; simpl in *.
    + destruct (export_weapons_csv_result E output_dir s2 Hopen3)
        as (rows3 & _ & _ & _ & Hraise3 & _).
      destruct (snd (export_weapons_csv E output_dir s2)) as [[]|e3]; [reflexivity|].
      destruct (Hraise3 e3 eq_refl) as [Hne _]. exfalso. apply Hne. congruence.
    + destruct (Hraise2 e2 eq_refl) as [Hne _]. exfalso. apply Hne.
      rewrite Hs1. exact Hships.
Qed.

Lemma empty_equipment_leaves_empty_file_witness :
  snd (export_to_csv empty_env "azur_lane_parsed_data" (init ∅)) = Ok () ∧
  files (fst (export_to_csv empty_env "azur_lane_parsed_data" (init ∅)))
    !! "azur_lane_parsed_data/equipment.csv" = Some EmptyString.
Proof.
  destruct (empty_equipment_leaves_empty_file empty_env "azur_lane_parsed_data"
              (init ∅) eq_refl eq_refl eq_refl) as (_ & _ & Hfile & Hok).
  split; [exact (Hok eq_refl eq_refl eq_refl eq_refl) | exact Hfile].
Defined.

(** C2, as stated, fails: with an empty equipment collection the export
    returns normally and [equipment.csv] has no content at all, whereas the
    header record of the equipment columns is a line of text. *)
Lemma empty_equipment_file_has_no_header :
  snd (export_to_csv empty_env "azur_lane_parsed_data" (init ∅)) = Ok () ∧
  files (fst (export_to_csv empty_env "azur_lane_parsed_data" (init ∅)))
    !! "azur_lane_parsed_data/equipment.csv" = Some EmptyString ∧
  header_record equipment_fieldnames =
    "id,name,type_name,rarity,nationality,tech,weapon_ids,description,speciality" +:+ crlf ∧
  files (fst (export_to_csv empty_env "azur_lane_parsed_data" (init ∅)))
    !! "azur_lane_parsed_data/equipment.csv" ≠ Some (header_record equipment_fieldnames).
Proof. vm_compute. repeat split; try reflexivity. discriminate. Qed.

(** ** CSV cells and sanitization *)

Lemma trigger_spec (c : ascii) :
  existsb (Ascii.eqb c) formula_triggers = true ↔ In c formula_triggers.
Proof.
  rewrite existsb_exists. split.
  - intros (x & Hx & Heq). apply Ascii.eqb_eq in Heq. subst x. exact Hx.
  - intros H. exists c. split; [exact H | apply Ascii.eqb_refl].
Qed.

Lemma sanitize_safe_text (text : string) :
  starts_safely text = true → sanitize_csv_field (VStr text) = text.
Proof.
  destruct text as [|c rest]; [reflexivity|]. unfold starts_safely, sanitize_csv_field.
  destruct (existsb (Ascii.eqb c) formula_triggers); [discriminate | reflexivity].
Qed.

Lemma int_key_get_named (table : list (Z * string)) (code : pyval) (name : string) :
  int_key_get table code "Unknown" = Ok name →
  name = "Unknown" ∨ In name (map snd table).
Proof.
  unfold int_key_get. destruct (py_hashable code); [|discriminate].
  intros [= <-]. destruct (py_num code) as [z|]; [|left; reflexivity].
  destruct (find (λ kv, Z.eqb (fst kv) z) table) as [[k n]|] eqn:Hfind; simpl.
  - right. apply find_some in Hfind as [Hin _].
    apply in_map_iff. exists (k, n). split; [reflexivity | exact Hin].
  - left. reflexivity.
Qed.

Lemma display_name_unchanged (table : list (Z * string)) (code : pyval)
    (name : string) :
  Forall (λ n, starts_safely n = true) (map snd table) →
  int_key_get table code "Unknown" = Ok name →
  sanitize_csv_field (VStr name) = name.
Proof.
  intros Hnames Hget. apply sanitize_safe_text.
  destruct (int_key_get_named table code name Hget) as [->|Hin]; [reflexivity|].
  rewrite Forall_forall in Hnames.
  exact (Hnames name (proj2 (list_elem_of_In _ _) Hin)).
Qed.

Lemma rarity_name_unchanged (code : pyval) (name : string) :
  int_key_get RARITIES code "Unknown" = Ok name → sanitize_csv_field (VStr name) = name.
Proof. apply display_name_unchanged. repeat constructor. Qed.

Lemma nation_name_unchanged (code : pyval) (name : string) :
  int_key_get NATIONS code "Unknown" = Ok name → sanitize_csv_field (VStr name) = name.
Proof. apply display_name_unchanged. repeat constructor. Qed.

Lemma equipment_row_cells (equip : Equipment.t) (row : list (string * pyval)) :
  equipment_row equip = Ok row → equipment_cells equip row.
Proof.
  intros H. unfold equipment_row in H. bind_inv H. injection H as <-.
  unfold equipment_cells, display_name_cell, passed_on. simpl.
  repeat (split; [reflexivity|]).
  split. { eexists. split; [eassumption|]. split; [reflexivity|].
           eapply rarity_name_unchanged; eassumption. }
  split. { eexists. split; [eassumption|]. split; [reflexivity|].
           eapply nation_name_unchanged; eassumption. }
  repeat (split; [reflexivity|]).
  eexists. split; [eassumption | reflexivity].
Qed.

Lemma ship_row_cells (ship : Ship.t) (row : list (string * pyval)) :
  ship_row ship = Ok row → ship_cells ship row.
Proof.
  intros H. unfold ship_row in H. bind_inv H. injection H as <-.
  unfold ship_cells, display_name_cell, passed_on. simpl.
  repeat (split; [reflexivity|]).
  split. { eexists. split; [eassumption|]. split; [reflexivity|].
           eapply rarity_name_unchanged; eassumption. }
  split. { eexists. split; [eassumption|]. split; [reflexivity|].
           eapply nation_name_unchanged; eassumption. }
  repeat split.
Qed.

Lemma weapon_row_cells (weapon : Weapon.t) :
  weapon_cells weapon (weapon_row weapon).
Proof. unfold weapon_cells, passed_on. simpl. repeat split. Qed.

Lemma block_rows_written {A} (E : env) (path : string) (fieldnames : list string)
    (collection : list (Z * A)) (ordering : result (list A))
    (row_of : A → result (list (string * pyval)))
    (cells : A → list (string * pyval) → Prop) (s : state) (r : state * result ()) :
  (∀ x row, row_of x = Ok row → cells x row) →
  (open_w E path = None → csv_block_result path fieldnames collection ordering row_of s r) →
  rows_written E path fieldnames collection cells (fst r).
Proof.
  intros Hcells Hres Hopen. destruct (Hres Hopen) as (rows & Hfile & Hall & _).
  exists rows. split; [exact Hfile|].
  eapply Forall_impl; [exact Hall|].
  intros row (x & Hx & Hrow). exists x. split; [exact Hx | apply Hcells; exact Hrow].
Qed.

(** C1, as the code has it.  Sanitization puts a single quote before a
    string that starts with [=], [+], [-], [@], tab or carriage return,
    returns any other string as it is, and returns [str(value)] for a value
    that is not a string.  In every row written to a CSV file the free-text
    cells are sanitized: [name], [description] and [speciality] of equipment,
    [name] and [english_name] of a ship, [name] of a weapon (after the
    placeholder is put in for an empty name).  The [id] cell holds the
    integer ID.  The [rarity] and [nationality] cells hold the display name
    of the entity's code, which sanitization leaves as it is.  Every other
    cell holds the value of the entity ([weapon_ids] joined by commas) when
    that value needs no guard, that is, when it is not a string that
    sanitization would change. *)
Theorem free_text_cells_are_sanitized :
  (∀ c rest, In c formula_triggers →
     sanitize_csv_field (VStr (String c rest)) = String squote (String c rest)) ∧
  (∀ c rest, ¬ In c formula_triggers →
     sanitize_csv_field (VStr (String c rest)) = String c rest) ∧
  sanitize_csv_field (VStr EmptyString) = EmptyString ∧
  (∀ v, (∀ s, v ≠ VStr s) → sanitize_csv_field v = py_str v) ∧
  (∀ text, needs_no_guard (VStr text) = true ↔ sanitize_csv_field (VStr text) = text) ∧
  (∀ equip row, equipment_row equip = Ok row → equipment_cells equip row) ∧
  (∀ ship row, ship_row ship = Ok row → ship_cells ship row) ∧
  (∀ weapon, weapon_cells weapon (weapon_row weapon)) ∧
  (∀ E output_dir s,
     rows_written E (path_join output_dir "equipment.csv") equipment_fieldnames
       (equipment s) equipment_cells (fst (export_equipment_csv E output_dir s)) ∧
     rows_written E (path_join output_dir "ships.csv") ship_fieldnames
       (ships s) ship_cells (fst (export_ships_csv E output_dir s)) ∧
     rows_written E (path_join output_dir "weapons.csv") weapon_fieldnames
       (weapons s) weapon_cells (fst (export_weapons_csv E output_dir s))).
Proof.
  split. { intros c rest Hc. apply trigger_spec in Hc.
           unfold sanitize_csv_field. rewrite Hc. reflexivity. }
  split. { intros c rest Hc. unfold sanitize_csv_field.
           destruct (existsb (Ascii.eqb c) formula_triggers) eqn:Ht; [|reflexivity].
           apply trigger_spec in Ht. contradiction. }
  split; [reflexivity|].
  split. { intros v Hv. destruct v; try reflexivity. destruct (Hv s eq_refl). }
  split. { intros text. split; [exact (sanitize_safe_text text)|].
           destruct text as [|c rest]; [reflexivity|].
           unfold needs_no_guard, starts_safely, sanitize_csv_field.
           destruct (existsb (Ascii.eqb c) formula_triggers) eqn:Ht; [|reflexivity].
           intros [= Hc _]. subst c. vm_compute in Ht. discriminate Ht. }
  split; [exact equipment_row_cells|]. split; [exact ship_row_cells|].
  split; [exact weapon_row_cells|].
  intros E output_dir s. split; [|split].
  - eapply block_rows_written; [exact equipment_row_cells|].
    apply export_equipment_csv_result.
  - eapply block_rows_written; [exact ship_row_cells|].
    apply export_ships_csv_result.
  - eapply (block_rows_written _ _ _ _ _ (λ w, Ok (weapon_row w))).
    + intros w row [= <-]. apply weapon_row_cells.
    + apply export_weapons_csv_result.
Qed.

Lemma free_text_cells_are_sanitized_witness :
  ∃ row,
    equipment_row formula_equipment = Ok row ∧
    lookup_key "name" row = Some (VStr "'=cmd") ∧
    lookup_key "speciality" row = Some (VStr "'@x") ∧
    lookup_key "description" row = Some (VStr "plain") ∧
    lookup_key "rarity" row = Some (VStr "Elite") ∧
    lookup_key "tech" row = Some (VInt 2).
Proof.
  destruct (equipment_row formula_equipment) as [row|e] eqn:H; [|discriminate H].
  exists row. split; [reflexivity|].
  destruct (proj1 (proj2 (proj2 (proj2 (proj2 (proj2 free_text_cells_are_sanitized)))))
              formula_equipment row H)
    as (Hname & Hdescription & Hspeciality & _ & (rarity & Hget & Hrarity & _)
        & _ & _ & Htech & _).
  split; [exact Hname|]. split; [exact Hspeciality|]. split; [exact Hdescription|].
  split; [|exact (Htech eq_refl)].
  injection Hget as <-. exact Hrarity.
Defined.

(** C1, as stated, fails: the [rarity] cell of a row is the display name of
    the rarity code and the [weapon_ids] cell is the comma-joined list, none
    of them the sanitization of the entity's field; and the joined list is
    written with its leading [-]. *)
Lemma rarity_cell_is_not_the_sanitized_field :
  equipment_row formula_equipment =
    Ok [ ("id", VInt 1); ("name", VStr "'=cmd"); ("type_name", VStr "DD Gun");
         ("rarity", VStr "Elite"); ("nationality", VStr "Universal");
         ("tech", VInt 2); ("weapon_ids", VStr "-1,7");
         ("description", VStr "plain"); ("speciality", VStr "'@x") ] ∧
  sanitize_csv_field (Equipment.rarity formula_equipment) = "3" ∧
  sanitize_csv_field (Equipment.nationality formula_equipment) = "0" ∧
  sanitize_csv_field (Equipment.weapon_ids formula_equipment) = "[-1, 7]" ∧
  sanitize_csv_field (VStr "-1,7") = "'-1,7" ∧
  (lookup_key "rarity" <$> equipment_row formula_equipment) ≠
    Ok (Some (VStr (sanitize_csv_field (Equipment.rarity formula_equipment)))).
Proof. repeat split; try reflexivity. discriminate. Qed.

(** ** The progress tracker *)

Section ProgressFacts.
Import Progress.
#[local] Arguments py_eq : simpl never.

Lemma ensure_keys_lookup (d : list (string * pyval)) (k : string) :
  lookup_key k (ensure_keys d) =
  match lookup_key k d with
  | Some v => Some v
  | None => lookup_key k required_keys
  end.
Proof.
  unfold ensure_keys. generalize required_keys as ks. intros ks. revert d.
  induction ks as [|[k0 v0] ks IH]; intros d; simpl.
  - destruct (lookup_key k d); reflexivity.
  - rewrite IH. destruct (lookup_key k0 d) as [w|] eqn:Hk0.
    + destruct (lookup_key k d) eqn:Hk; [reflexivity|].
      destruct (String.eqb_spec k k0) as [->|]; [congruence | reflexivity].
    + rewrite lookup_set_key.
      destruct (String.eqb_spec k k0) as [->|]; [rewrite Hk0|]; reflexivity.
Qed.

Lemma remove_from_buckets_lookup (item_name : string) (d : list (string * pyval))
    (name : string) :
  In name bucket_names →
  lookup_key name (remove_from_buckets item_name d) =
  Some (cleaned item_name (default (VList []) (lookup_key name d))).
Proof.
  intros Hin. unfold remove_from_buckets, bucket_names in *. simpl in *.
  fold (cleaned item_name).
  destruct Hin as [<-|[<-|[<-|[<-|[]]]]];
    repeat (rewrite lookup_set_key; simpl); reflexivity.
Qed.

Lemma remove_from_buckets_other (item_name : string) (d : list (string * pyval))
    (k : string) :
  ¬ In k bucket_names →
  lookup_key k (remove_from_buckets item_name d) = lookup_key k d.
Proof.
  intros Hin. unfold remove_from_buckets, bucket_names in *. simpl in *.
  repeat (rewrite lookup_set_key;
          match goal with
          | |- context [String.eqb k ?n] =>
              destruct (String.eqb_spec k n) as [->|_]; [exfalso; apply Hin; tauto|]
          end).
  reflexivity.
Qed.

Lemma absent_after_removal (x : pyval) (l : list pyval) :
  (length (filter (λ y, py_eq x y = true) l) ≤ 1)%nat →
  existsb (py_eq x) (remove_first x l) = false.
Proof.
  induction l as [|y l IH]; simpl; [reflexivity|].
  rewrite filter_cons. destruct (py_eq x y) eqn:Hxy.
  - rewrite decide_True by reflexivity. simpl. intros Hlen.
    destruct (existsb (py_eq x) l) eqn:Hex; [|reflexivity].
    apply existsb_exists in Hex as (z & Hz & Hxz).
    assert (Hin : z ∈ filter (λ y, py_eq x y = true) l).
    { apply list_elem_of_filter. split; [exact Hxz | apply list_elem_of_In; exact Hz]. }
    destruct (filter _ l); [inversion Hin | simpl in Hlen; lia].
  - rewrite decide_False by congruence. intros Hlen. simpl. rewrite Hxy.
    apply IH. exact Hlen.
Qed.

Lemma cleaned_holds_no_item (item_name : string) (bucket : option pyval) :
  (occurrences item_name bucket ≤ 1)%nat →
  match cleaned item_name (default (VList []) bucket) with
  | VList l => existsb (py_eq (VStr item_name)) l = false
  | _ => True
  end.
Proof.
  destruct bucket as [[| | | |l|]|]; simpl; trivial.
  intros Hlen.
  destruct (existsb (py_eq (VStr item_name)) l) eqn:Hex.
  - apply absent_after_removal. exact Hlen.
  - exact Hex.
Qed.

(** After an update, a bucket lists the item exactly when it is the bucket
    named by the status. *)
Lemma in_bucket_after_update (now item_name status : string) (raw : pyval)
    (name : string) :
  In name bucket_names →
  (occurrences item_name (lookup_key name (as_progress raw)) ≤ 1)%nat →
  in_bucket item_name (updated now item_name status raw) name =
  existsb (String.eqb status) bucket_names && String.eqb name status.
Proof.
  intros Hin Hocc. unfold in_bucket, updated.
  rewrite lookup_set_key.
  assert (String.eqb name "last_updated" = false) as ->.
  { destruct Hin as [<-|[<-|[<-|[<-|[]]]]]; reflexivity. }
  assert (Hreq : lookup_key name required_keys = Some (VList [])).
  { destruct Hin as [<-|[<-|[<-|[<-|[]]]]]; reflexivity. }
  assert (Hclean :
    match lookup_key name
            (remove_from_buckets item_name (ensure_keys (as_progress raw))) with
    | Some (VList l) => existsb (py_eq (VStr item_name)) l
    | _ => false
    end = false).
  { rewrite (remove_from_buckets_lookup _ _ _ Hin), ensure_keys_lookup, Hreq.
    pose proof (cleaned_holds_no_item item_name
                  (lookup_key name (as_progress raw)) Hocc) as Hc.
    destruct (lookup_key name (as_progress raw)) as [v|]; simpl in *.
    - destruct (cleaned item_name v); trivial.
    - reflexivity. }
  unfold add_to_bucket.
  destruct (existsb (String.eqb status) bucket_names) eqn:Hvalid; simpl.
  - rewrite lookup_set_key. destruct (String.eqb_spec name status) as [->|Hne].
    + rewrite existsb_app. simpl.
      rewrite (proj2 (py_eq_str item_name (VStr item_name)) eq_refl).
      rewrite !orb_true_r. reflexivity.
    + exact Hclean.
  - exact Hclean.
Qed.

End ProgressFacts.

(** C8, as the code has it.  For a progress state in which no bucket lists
    the item more than once (by [update_keeps_singly_listed], every state the
    update operation writes is one, starting from a missing file), an update
    leaves the item in at most one of the four buckets: in the bucket named
    by the status and in no other, or in none when the status names no
    bucket. *)
Theorem update_leaves_item_in_one_bucket
    (now item_name status : string) (raw : pyval) :
  (∀ name, In name Progress.bucket_names →
     (Progress.occurrences item_name
        (lookup_key name (Progress.as_progress raw)) ≤ 1)%nat) →
  Progress.buckets_of item_name (Progress.updated now item_name status raw) =
    (if existsb (String.eqb status) Progress.bucket_names then [status] else []) ∧
  (length (Progress.buckets_of item_name
             (Progress.updated now item_name status raw)) ≤ 1)%nat.
Proof.
  intros Hocc.
  assert (Hb : ∀ name, In name Progress.bucket_names →
            Progress.in_bucket item_name
              (Progress.updated now item_name status raw) name =
            existsb (String.eqb status) Progress.bucket_names && String.eqb status name).
  { intros name Hin. rewrite (String.eqb_sym status name).
    apply in_bucket_after_update; [exact Hin | exact (Hocc name Hin)]. }
  assert (Heq : Progress.buckets_of item_name
                  (Progress.updated now item_name status raw) =
                (if existsb (String.eqb status) Progress.bucket_names
                 then [status] else [])).
  { unfold Progress.buckets_of, Progress.bucket_names in *.
    rewrite !filter_cons, filter_nil.
    rewrite !Hb by (simpl; tauto). simpl.
    destruct (String.eqb_spec status "basic") as [->|_]; [reflexivity|].
    destruct (String.eqb_spec status "completed") as [->|_]; [reflexivity|].
    destruct (String.eqb_spec status "partial") as [->|_]; [reflexivity|].
    destruct (String.eqb_spec status "failed") as [->|_]; reflexivity. }
  split; [exact Heq|]. rewrite Heq.
  destruct (existsb _ _); simpl; lia.
Qed.

Lemma update_leaves_item_in_one_bucket_witness :
  Progress.buckets_of "x"
    (Progress.updated "2024-01-01T00:00:00" "x" "completed"
       (VDict [ ("basic", VList [VStr "x"; VStr "y"]) ]))
  = ["completed"].
Proof.
  refine (proj1 (update_leaves_item_in_one_bucket "2024-01-01T00:00:00" "x" "completed"
                   (VDict [ ("basic", VList [VStr "x"; VStr "y"]) ]) _)).
  intros name [<-|[<-|[<-|[<-|[]]]]]; vm_compute; lia.
Defined.

(** C8, as stated, fails: [remove] takes out one occurrence, so an item
    listed twice in a bucket stays in it and enters the bucket of the status
    as well. *)
Lemma doubled_item_stays_in_two_buckets :
  Progress.update_progress "2024-01-01T00:00:00" "x" "completed" (Loaded doubled_progress)
  = Ok (VDict [ ("basic", VList [VStr "x"]); ("completed", VList [VStr "x"]);
                ("partial", VList []); ("failed", VList []);
                ("retry_queue", VList []);
                ("last_updated", VStr "2024-01-01T00:00:00") ]) ∧
  Progress.buckets_of "x"
    (Progress.updated "2024-01-01T00:00:00" "x" "completed" doubled_progress)
  = ["basic"; "completed"].
Proof. split; reflexivity. Qed.

(** ** Running twice *)

Section Reproducible.
Context {A : Type}.
Implicit Types (opened : list string) (m : M A).

Lemma rep_pure opened (f : state → state) (r : result A) :
  (∀ s1 s2, same_data s1 s2 → same_data (f s1) (f s2)) →
  (∀ s, files (f s) = files s) →
  reproducible opened (λ s, (f s, r)).
Proof.
  intros Hdata Hfiles W f1 f2 s1 s2 (Hd & H1 & H2) Hopen.
  exists W. simpl. split; [|auto].
  split; [apply Hdata; exact Hd|]. rewrite !Hfiles. auto.
Qed.

Lemma rep_ret opened (a : A) : reproducible opened (mret a).
Proof. apply (rep_pure opened (λ s, s) (Ok a)); auto. Qed.

Lemma rep_lift opened (r : result A) : reproducible opened (lift r).
Proof. apply (rep_pure opened (λ s, s) r); auto. Qed.

Lemma rep_gets opened (f : state → A) :
  (∀ s1 s2, same_data s1 s2 → f s1 = f s2) → reproducible opened (gets f).
Proof.
  intros Hf W f1 f2 s1 s2 Hc Hopen. exists W. simpl.
  split; [exact Hc|]. split; [|auto]. f_equal. apply Hf. apply Hc.
Qed.

Lemma rep_weaken opened opened' m :
  (∀ p, In p opened → In p opened') →
  reproducible opened m → reproducible opened' m.
Proof. intros Hincl Hm W f1 f2 s1 s2 Hc Hopen. apply Hm; auto. Qed.

Lemma rep_bind {B} opened (m : M B) (k : B → M A) :
  reproducible opened m → (∀ b, reproducible opened (k b)) →
  reproducible opened (m ≫= k).
Proof.
  intros Hm Hk W f1 f2 s1 s2 Hc Hopen.
  destruct (Hm W f1 f2 s1 s2 Hc Hopen) as (W1 & Hc1 & Hr & Hmono).
  rewrite !bind_run.
  destruct (m s1) as [s1' r1], (m s2) as [s2' r2]. simpl in *. subst r2.
  destruct r1 as [b|e].
  - destruct (Hk b W1 f1 f2 s1' s2' Hc1) as (W2 & Hc2 & Hr2 & Hmono2); [auto|].
    exists W2. auto.
  - exists W1. auto.
Qed.

Lemma rep_try_except opened m (handler : exn → M A) :
  reproducible opened m → (∀ e, reproducible opened (handler e)) →
  reproducible opened (try_except m handler).
Proof.
  intros Hm Hh W f1 f2 s1 s2 Hc Hopen.
  destruct (Hm W f1 f2 s1 s2 Hc Hopen) as (W1 & Hc1 & Hr & Hmono).
  unfold try_except.
  destruct (m s1) as [s1' r1], (m s2) as [s2' r2]. simpl in *. subst r2.
  destruct r1 as [a|e].
  - exists W1. auto.
  - destruct (Hh e W1 f1 f2 s1' s2' Hc1) as (W2 & Hc2 & Hr2 & Hmono2); [auto|].
    exists W2. auto.
Qed.
End Reproducible.

Lemma rep_for_each {X} opened (l : list X) (body : X → M ()) :
  (∀ x, reproducible opened (body x)) → reproducible opened (for_each l body).
Proof.
  intros Hbody. induction l as [|x l IH]; simpl.
  - apply rep_ret.
  - apply rep_bind; [apply Hbody | intros _; exact IH].
Qed.

Lemma rep_modify opened (f : state → state) :
  (∀ s1 s2, same_data s1 s2 → same_data (f s1) (f s2)) →
  (∀ s, files (f s) = files s) →
  reproducible opened (modify f).
Proof. intros Hd Hf. apply (rep_pure opened f (Ok ())); assumption. Qed.

Lemma rep_emit opened (l : line) : reproducible opened (emit l).
Proof.
  apply rep_modify; [|reflexivity].
  intros s1 s2 (He & Hs & Hw & Hn & Ho). repeat split; simpl; congruence.
Qed.

Lemma rep_print opened (text : string) : reproducible opened (print text).
Proof. apply rep_emit. Qed.

Lemma rep_print_exn opened (text : string) (e : exn) :
  reproducible opened (print_exn text e).
Proof. apply rep_emit. Qed.

Lemma rep_set_equipment opened (k : Z) (x : Equipment.t) :
  reproducible opened (set_equipment k x).
Proof.
  apply rep_modify; [|reflexivity].
  intros s1 s2 (He & Hs & Hw & Hn & Ho). repeat split; simpl; congruence.
Qed.

Lemma rep_set_ship opened (k : Z) (x : Ship.t) : reproducible opened (set_ship k x).
Proof.
  apply rep_modify; [|reflexivity].
  intros s1 s2 (He & Hs & Hw & Hn & Ho). repeat split; simpl; congruence.
Qed.

Lemma rep_set_weapon opened (k : Z) (x : Weapon.t) :
  reproducible opened (set_weapon k x).
Proof.
  apply rep_modify; [|reflexivity].
  intros s1 s2 (He & Hs & Hw & Hn & Ho). repeat split; simpl; congruence.
Qed.

Lemma rep_set_weapon_names opened (d : list (Z * pyval)) :
  reproducible opened (set_weapon_names d).
Proof.
  apply rep_modify; [|reflexivity].
  intros s1 s2 (He & Hs & Hw & Hn & Ho). repeat split; simpl; congruence.
Qed.

Lemma rep_reporting opened (r : report) : reproducible opened (reporting r).
Proof.
  intros W f1 f2 s1 s2 ((He & Hs & Hw & Hn & Ho) & H1 & H2) Hopen.
  unfold reporting. rewrite He, Hs, Hw.
  destruct (r (equipment s2) (ships s2) (weapons s2)) as [out res]. simpl.
  exists W. split; [|auto].
  split; [|auto]. repeat split; simpl; congruence.
Qed.

Lemma rep_load_json opened (E : env) (filename : string) :
  reproducible opened (load_json E filename).
Proof.
  unfold load_json. destruct (tables E filename).
  - apply rep_bind; [apply rep_print | intros; apply rep_ret].
  - apply rep_ret.
  - apply rep_bind; [apply rep_print_exn | intros; apply rep_ret].
  - apply rep_bind; [apply rep_print_exn | intros; apply rep_ret].
Qed.

(** Writing to a file that this run has opened. *)
Lemma rep_write opened (path text : string) :
  In path opened → reproducible opened (write path text).
Proof.
  intros Hin W f1 f2 s1 s2 (Hd & H1 & H2) Hopen.
  destruct (Hopen path Hin) as [content Hcontent].
  exists (<[path := content +:+ text]> W). rewrite !write_run. simpl.
  assert (Hl : ∀ f, (W ∪ f) !! path = Some content)
    by (intros f; apply lookup_union_Some_l; exact Hcontent).
  split; [split; [exact Hd|] |].
  - rewrite H1, H2, !Hl. simpl. rewrite !insert_union_l. auto.
  - split; [reflexivity|]. intros p Hp.
    destruct (decide (path = p)) as [->|Hne].
    + rewrite lookup_insert_eq. eauto.
    + rewrite lookup_insert_ne by exact Hne. exact Hp.
Qed.

(** Opening a file, then working with it among the opened ones. *)
Lemma rep_open {A} opened (E : env) (path : string) (body : M A) :
  reproducible (path :: opened) body →
  reproducible opened (open_for_writing E path ;; body).
Proof.
  intros Hbody W f1 f2 s1 s2 (Hd & H1 & H2) Hopen.
  rewrite !bind_run. destruct (open_w E path) as [e|] eqn:Hopen'.
  - unfold open_for_writing. rewrite Hopen'.
    exists W. simpl. split; [split; auto|]. auto.
  - rewrite !(open_for_writing_run E path _ Hopen').
    set (s1' := {| equipment := equipment s1; ships := ships s1;
                   weapons := weapons s1; weapon_names := weapon_names s1;
                   files := <[path := EmptyString]> (files s1);
                   stdout := stdout s1 |}).
    set (s2' := {| equipment := equipment s2; ships := ships s2;
                   weapons := weapons s2; weapon_names := weapon_names s2;
                   files := <[path := EmptyString]> (files s2);
                   stdout := stdout s2 |}).
    destruct (Hbody (<[path := EmptyString]> W) f1 f2 s1' s2')
      as (W' & Hc' & Hr' & Hmono').
    + split; [exact Hd|]. simpl. rewrite H1, H2, !insert_union_l. auto.
    + intros p [<-|Hp].
      * rewrite lookup_insert_eq. eauto.
      * destruct (decide (path = p)) as [->|Hne];
          [rewrite lookup_insert_eq; eauto | rewrite lookup_insert_ne by exact Hne; auto].
    + exists W'. split; [exact Hc'|]. split; [exact Hr'|].
      intros p Hp. apply Hmono'.
      destruct (decide (path = p)) as [->|Hne];
        [rewrite lookup_insert_eq; eauto | rewrite lookup_insert_ne by exact Hne; auto].
Qed.

Ltac rep_gets_side :=
  let s1 := fresh "s1" in let s2 := fresh "s2" in
  let He := fresh "He" in let Hs := fresh "Hs" in let Hw := fresh "Hw" in
  let Hn := fresh "Hn" in let Ho := fresh "Ho" in
  intros s1 s2 (He & Hs & Hw & Hn & Ho);
  unfold summary_document; rewrite ?He, ?Hs, ?Hw, ?Hn; reflexivity.

Ltac rep_step :=
  lazymatch goal with
  | |- reproducible _ (open_for_writing _ _ ≫= _) => apply rep_open
  | |- reproducible _ (_ ≫= _) => apply rep_bind; [|intros ?]
  | |- reproducible _ (mret _) => apply rep_ret
  | |- reproducible _ (lift _) => apply rep_lift
  | |- reproducible _ (print _) => apply rep_print
  | |- reproducible _ (print_exn _ _) => apply rep_print_exn
  | |- reproducible _ (load_json _ _) => apply rep_load_json
  | |- reproducible _ (for_each _ _) => apply rep_for_each; intros ?
  | |- reproducible _ (try_except _ _) => apply rep_try_except; [|intros ?]
  | |- reproducible _ (set_equipment _ _) => apply rep_set_equipment
  | |- reproducible _ (set_ship _ _) => apply rep_set_ship
  | |- reproducible _ (set_weapon _ _) => apply rep_set_weapon
  | |- reproducible _ (set_weapon_names _) => apply rep_set_weapon_names
  | |- reproducible _ (write _ _) => apply rep_write; simpl; auto
  | |- reproducible _ (gets _) => apply rep_gets; rep_gets_side
  | |- reproducible _ (reporting _) => apply rep_reporting
  | |- reproducible _ (if ?b then _ else _) => destruct b
  | |- reproducible _ (match ?x with _ => _ end) => destruct x
  end.

Lemma rep_parse_weapons opened (E : env) : reproducible opened (parse_weapons E).
Proof. unfold parse_weapons. repeat rep_step. Qed.

Lemma rep_parse_equipment opened (E : env) : reproducible opened (parse_equipment E).
Proof. unfold parse_equipment. repeat rep_step. Qed.

Lemma rep_parse_ships opened (E : env) : reproducible opened (parse_ships E).
Proof. unfold parse_ships. repeat rep_step. Qed.

Lemma rep_export_to_csv opened (E : env) (output_dir : string) :
  reproducible opened (export_to_csv E output_dir).
Proof.
  unfold export_to_csv, export_equipment_csv, export_ships_csv, export_weapons_csv.
  repeat rep_step.
Qed.

Lemma rep_export_to_json opened (E : env) (output_dir : string) :
  reproducible opened (export_to_json E output_dir).
Proof. unfold export_to_json, dump. repeat rep_step. Qed.

Lemma rep_run opened (analyze_equipment_stats analyze_ship_stats : report) (E : env) :
  reproducible opened (run analyze_equipment_stats analyze_ship_stats E).
Proof.
  unfold run.
  repeat first
    [ apply rep_parse_weapons | apply rep_parse_equipment | apply rep_parse_ships
    | apply rep_export_to_csv | apply rep_export_to_json | rep_step ].
Qed.

(** C9.  The pipeline is a function of the tables of the data directory (and
    of which directory and files can be created): a second run, started on
    the files the first run left, ends with the same outcome, prints the
    same lines and leaves every file exactly as the first run left it.  So
    the CSV and JSON outputs of two runs over unchanged input are
    identical, byte for byte. *)
Theorem second_run_leaves_the_same_files
    (analyze_equipment_stats analyze_ship_stats : report) (E : env)
    (fs : gmap string string) :
  let first := run analyze_equipment_stats analyze_ship_stats E (init fs) in
  let second :=
    run analyze_equipment_stats analyze_ship_stats E (init (files (fst first))) in
  files (fst second) = files (fst first) ∧
  snd second = snd first ∧
  stdout (fst second) = stdout (fst first).
Proof.
  intros first second.
  destruct (rep_run [] analyze_equipment_stats analyze_ship_stats E
              ∅ fs (files (fst first)) (init fs) (init (files (fst first))))
    as (W & ((_ & _ & _ & _ & Hout) & H1 & H2) & Hres & _).
  - split; [repeat split|]. simpl. rewrite !(left_id_L ∅ (∪)). auto.
  - intros p [].
  - fold first in H1, Hres, Hout. fold second in H2, Hres, Hout.
    split; [|auto].
    rewrite H2, H1. rewrite (assoc_L (∪)), (idemp_L (∪)). reflexivity.
Qed.

(** *** Updates keep buckets free of repetitions *)

Section ProgressInvariant.
Import Progress.
#[local] Arguments py_eq : simpl never.

Lemma count_of_cons (j : string) (y : pyval) (l : list pyval) :
  count_of j (y :: l) = ((if py_eq (VStr j) y then 1 else 0) + count_of j l)%nat.
Proof.
  unfold count_of. rewrite filter_cons.
  destruct (py_eq (VStr j) y) eqn:H.
  - rewrite decide_True by reflexivity. reflexivity.
  - rewrite decide_False by congruence. reflexivity.
Qed.

Lemma count_of_app (j : string) (l l' : list pyval) :
  count_of j (l ++ l') = (count_of j l + count_of j l')%nat.
Proof. unfold count_of. rewrite filter_app, length_app. reflexivity. Qed.

Lemma count_of_remove_first_le (i j : string) (l : list pyval) :
  (count_of j (remove_first (VStr i) l) ≤ count_of j l)%nat.
Proof.
  induction l as [|y l IH]; simpl; [lia|].
  destruct (py_eq (VStr i) y); rewrite ?count_of_cons; lia.
Qed.

Lemma count_of_none (j : string) (l : list pyval) :
  existsb (py_eq (VStr j)) l = false → count_of j l = 0%nat.
Proof.
  induction l as [|y l IH]; simpl; [reflexivity|].
  intros [Hy Hl]%orb_false_elim. rewrite count_of_cons, Hy, (IH Hl). reflexivity.
Qed.

(** The number of listings of [j] in what an update leaves of a bucket. *)
Lemma occurrences_cleaned (i j : string) (v : pyval) :
  (occurrences j (Some (cleaned i v)) ≤ occurrences j (Some v))%nat ∧
  ((occurrences i (Some v) ≤ 1)%nat → occurrences i (Some (cleaned i v)) = 0%nat).
Proof.
  destruct v as [| | | |l|]; simpl; try (split; [lia | reflexivity]).
  destruct (existsb (py_eq (VStr i)) l) eqn:Hex; simpl.
  - split; [apply count_of_remove_first_le|].
    intros Hle. apply count_of_none. apply absent_after_removal. exact Hle.
  - split; [lia|]. intros _. apply count_of_none. exact Hex.
Qed.

Lemma updated_lookup (now item_name status : string) (raw : pyval) (name : string) :
  In name bucket_names →
  let kept := cleaned item_name
                (default (VList []) (lookup_key name (as_progress raw))) in
  lookup_key name (updated now item_name status raw) =
  if existsb (String.eqb status) bucket_names && String.eqb name status
  then Some (VList (items_of kept ++ [VStr item_name]))
  else Some kept.
Proof.
  intros Hin kept. unfold updated. rewrite lookup_set_key.
  assert (String.eqb name "last_updated" = false) as ->.
  { destruct Hin as [<-|[<-|[<-|[<-|[]]]]]; reflexivity. }
  assert (Hreq : lookup_key name required_keys = Some (VList [])).
  { destruct Hin as [<-|[<-|[<-|[<-|[]]]]]; reflexivity. }
  assert (Hkept : lookup_key name
                    (remove_from_buckets item_name (ensure_keys (as_progress raw)))
                  = Some kept).
  { rewrite (remove_from_buckets_lookup _ _ _ Hin), ensure_keys_lookup, Hreq.
    unfold kept. destruct (lookup_key name (as_progress raw)); reflexivity. }
  unfold add_to_bucket.
  destruct (existsb (String.eqb status) bucket_names); simpl; [|exact Hkept].
  rewrite lookup_set_key. destruct (String.eqb_spec name status) as [<-|Hne].
  - rewrite Hkept. reflexivity.
  - exact Hkept.
Qed.

Lemma updated_truthy (now item_name status : string) (raw : pyval) :
  as_progress (VDict (updated now item_name status raw)) =
  updated now item_name status raw.
Proof.
  unfold as_progress, updated. simpl.
  destruct (set_key "last_updated" _ _) as [|kv d] eqn:H; reflexivity.
Qed.

Lemma count_of_items (j : string) (w : pyval) :
  count_of j (items_of w) = occurrences j (Some w).
Proof. destruct w; reflexivity. Qed.

(** A state without repetitions stays one under any update; the state read
    from a missing file is one. *)
Lemma update_keeps_singly_listed (now item_name status : string) (raw : pyval) :
  singly_listed raw →
  singly_listed (VDict (updated now item_name status raw)).
Proof.
  intros Hraw j name Hin. rewrite updated_truthy, (updated_lookup _ _ _ _ _ Hin).
  cbv zeta.
  set (v := default (VList []) (lookup_key name (as_progress raw))).
  assert (Hv : ∀ k, (occurrences k (Some v) ≤ 1)%nat).
  { intros k. specialize (Hraw k name Hin). unfold v.
    destruct (lookup_key name (as_progress raw)); simpl in *; [exact Hraw | lia]. }
  destruct (occurrences_cleaned item_name j v) as [Hle _].
  destruct (occurrences_cleaned item_name item_name v) as [_ Hzero].
  specialize (Hzero (Hv item_name)). specialize (Hv j).
  destruct (existsb (String.eqb status) bucket_names && String.eqb name status);
    [|lia].
  change (count_of j (items_of (cleaned item_name v) ++ [VStr item_name]) ≤ 1)%nat.
  rewrite count_of_app, count_of_cons, count_of_items.
  change (count_of j []) with 0%nat.
  destruct (py_eq (VStr j) (VStr item_name)) eqn:Hj.
  - apply py_eq_str in Hj. injection Hj as <-. lia.
  - lia.
Qed.

Lemma missing_file_singly_listed : singly_listed (VList []).
Proof. intros j name _. simpl. lia. Qed.

End ProgressInvariant.

(** * Further properties of the parser *)

(** ** The parsing methods in full *)

Lemma load_json_run (E : env) (filename : string) (s : state) :
  load_json E filename s =
  ({| equipment := equipment s; ships := ships s; weapons := weapons s;
      weapon_names := weapon_names s; files := files s;
      stdout := (stdout s ++ load_diagnostic E filename)%list |},
   Ok (loaded E filename)).
Proof.
  unfold load_json, loaded, load_diagnostic.
  destruct (tables E filename); simpl; rewrite ?app_nil_r;
    destruct s; reflexivity.
Qed.

Lemma equipment_loop (templates : pyval) (items : list (string * pyval)) (s : state) :
  for_each items (λ '(equip_id, data),
    try_except
      ('(key, equip) ← lift (equipment_record templates equip_id data);
       set_equipment key equip)
      (λ e, print_exn ("Error parsing equipment " +:+ equip_id +:+ ": ") e)) s =
  ({| equipment := fold_left (collect_equipment templates) items (equipment s);
      ships := ships s; weapons := weapons s; weapon_names := weapon_names s;
      files := files s;
      stdout := (stdout s ++ record_errors "Error parsing equipment "
                               (equipment_record templates) items)%list |},
   Ok ()).
Proof.
  revert s. induction items as [|[equip_id data] items IH]; intros s; simpl.
  - rewrite app_nil_r. destruct s; reflexivity.
  - rewrite bind_run. unfold try_except. rewrite bind_run. unfold lift at 1.
    unfold collect_equipment at 2. simpl.
    destruct (equipment_record templates equip_id data) as [[key equip]|e]; simpl;
      rewrite IH; simpl; rewrite <- ?app_assoc; reflexivity.
Qed.

Lemma ship_loop_run (items : list (string * pyval)) (s : state) :
  for_each items (λ '(ship_id, data),
    try_except
      ('(key, ship) ← lift (ship_record ship_id data);
       set_ship key ship)
      (λ e, print_exn ("Error parsing ship " +:+ ship_id +:+ ": ") e)) s =
  ({| equipment := equipment s;
      ships := fold_left collect_ship items (ships s);
      weapons := weapons s; weapon_names := weapon_names s; files := files s;
      stdout := (stdout s ++ record_errors "Error parsing ship "
                               ship_record items)%list |},
   Ok ()).
Proof.
  revert s. induction items as [|[ship_id data] items IH]; intros s; simpl.
  - rewrite app_nil_r. destruct s; reflexivity.
  - rewrite bind_run. unfold try_except. rewrite bind_run. unfold lift at 1.
    unfold collect_ship at 2. simpl.
    destruct (ship_record ship_id data) as [[key ship]|e]; simpl;
      rewrite IH; simpl; rewrite <- ?app_assoc; reflexivity.
Qed.

Lemma weapon_loop (items : list (string * pyval)) (s : state) :
  for_each items (λ '(weapon_id, data),
    try_except
      (names ← gets weapon_names;
       '(key, weapon) ← lift (weapon_record names weapon_id data);
       set_weapon key weapon)
      (λ e, print_exn ("Error parsing weapon " +:+ weapon_id +:+ ": ") e)) s =
  ({| equipment := equipment s; ships := ships s;
      weapons := fold_left (collect_weapon (weapon_names s)) items (weapons s);
      weapon_names := weapon_names s; files := files s;
      stdout := (stdout s ++ record_errors "Error parsing weapon "
                               (weapon_record (weapon_names s)) items)%list |},
   Ok ()).
Proof.
  revert s. induction items as [|[weapon_id data] items IH]; intros s; simpl.
  - rewrite app_nil_r. destruct s; reflexivity.
  - rewrite bind_run. unfold try_except. rewrite bind_run. unfold gets at 1.
    rewrite bind_run. unfold lift at 1.
    unfold collect_weapon at 2. simpl.
    destruct (weapon_record (weapon_names s) weapon_id data) as [[key weapon]|e];
      simpl; rewrite IH; simpl; rewrite <- ?app_assoc; reflexivity.
Qed.

(** Projections of a state written out as a record. *)
Ltac state_simpl :=
  cbn [equipment ships weapons weapon_names files stdout fst snd].

Lemma print_run (text : string) (s : state) :
  print text s =
  ({| equipment := equipment s; ships := ships s; weapons := weapons s;
      weapon_names := weapon_names s; files := files s;
      stdout := (stdout s ++ [Print text])%list |}, Ok ()).
Proof. reflexivity. Qed.

Lemma parse_equipment_run (E : env) (s : state) :
  parse_equipment E s =
  let templates := loaded E "equip_data_template.json" in
  let before :=
    (stdout s ++
     Print "Parsing equipment data..." ::
     load_diagnostic E "equip_data_statistics.json" ++
     load_diagnostic E "equip_data_template.json")%list in
  match py_items (loaded E "equip_data_statistics.json") with
  | Ok table =>
      let parsed := fold_left (collect_equipment templates) table (equipment s) in
      ({| equipment := parsed; ships := ships s; weapons := weapons s;
          weapon_names := weapon_names s; files := files s;
          stdout :=
            (before ++
             record_errors "Error parsing equipment "
               (equipment_record templates) table ++
             [Print ("Parsed " +:+ pretty (length parsed) +:+ " equipment items")])%list |},
       Ok ())
  | Raise e =>
      ({| equipment := equipment s; ships := ships s; weapons := weapons s;
          weapon_names := weapon_names s; files := files s; stdout := before |},
       Raise e)
  end.
Proof.
  unfold parse_equipment.
  rewrite bind_run, print_run, bind_run, load_json_run. state_simpl.
  rewrite bind_run, load_json_run. state_simpl.
  rewrite bind_run. unfold lift at 1.
  destruct (py_items (loaded E "equip_data_statistics.json")) as [table|e].
  - rewrite bind_run, equipment_loop. state_simpl.
    rewrite bind_run. unfold gets at 1. state_simpl. rewrite print_run.
    state_simpl. cbv zeta. f_equal. f_equal.
    rewrite <- !app_assoc. simpl. rewrite <- !app_assoc. reflexivity.
  - cbv zeta. f_equal. f_equal. rewrite <- !app_assoc. reflexivity.
Qed.

(** X1.  [parse_equipment] on a statistics table that is a JSON object (a
    missing or unreadable file counts as the empty object): the method
    returns normally; the collection is the former one with the records of
    the table laid over it in order, a record that raises being skipped;
    the output gains the opening line, the diagnostics of the two loads, one
    line per skipped record, and the count of the whole collection; nothing
    else of the parser changes. *)
Theorem parse_equipment_outcome (E : env) (s : state)
    (table : list (string * pyval)) :
  py_items (loaded E "equip_data_statistics.json") = Ok table →
  let templates := loaded E "equip_data_template.json" in
  let parsed := fold_left (collect_equipment templates) table (equipment s) in
  parse_equipment E s =
  ({| equipment := parsed;
      ships := ships s; weapons := weapons s; weapon_names := weapon_names s;
      files := files s;
      stdout :=
        (stdout s ++
         Print "Parsing equipment data..." ::
         load_diagnostic E "equip_data_statistics.json" ++
         load_diagnostic E "equip_data_template.json" ++
         record_errors "Error parsing equipment "
           (equipment_record templates) table ++
         [Print ("Parsed " +:+ pretty (length parsed) +:+ " equipment items")])%list |},
   Ok ()).
Proof.
  intros Ht templates parsed. rewrite parse_equipment_run, Ht. cbv zeta.
  f_equal. f_equal. rewrite <- !app_assoc. simpl. rewrite <- !app_assoc.
  reflexivity.
Qed.

Lemma parse_equipment_outcome_witness :
  parse_equipment sample_env (init ∅) =
  ({| equipment :=
        fold_left (collect_equipment named_templates)
          [ ("1", named_stats); ("x", VDict []); ("01", VDict example_record) ] [];
      ships := []; weapons := []; weapon_names := []; files := ∅;
      stdout :=
        [ Print "Parsing equipment data...";
          PrintExn "Error parsing equipment x: " ValueError;
          Print "Parsed 1 equipment items" ] |},
   Ok ()).
Proof.
  exact (parse_equipment_outcome sample_env (init ∅)
           [ ("1", named_stats); ("x", VDict []); ("01", VDict example_record) ]
           eq_refl).
Defined.

Lemma set_weapon_names_run (d : list (Z * pyval)) (s : state) :
  set_weapon_names d s =
  ({| equipment := equipment s; ships := ships s; weapons := weapons s;
      weapon_names := d; files := files s; stdout := stdout s |}, Ok ()).
Proof. reflexivity. Qed.

Lemma parse_weapons_run (E : env) (s : state) :
  parse_weapons E s =
  match py_items (loaded E "weapon_name.json") ≫= (λ items, int_keyed items []) with
  | Raise e =>
      ({| equipment := equipment s; ships := ships s; weapons := weapons s;
          weapon_names := weapon_names s; files := files s;
          stdout :=
            (stdout s ++
             Print "Parsing weapon data..." ::
             load_diagnostic E "weapon_name.json")%list |},
       Raise e)
  | Ok names =>
      let before :=
        (stdout s ++ Print "Parsing weapon data..." :: weapon_load_diagnostics E)%list in
      match py_items (weapon_source E) with
      | Raise e =>
          ({| equipment := equipment s; ships := ships s; weapons := weapons s;
              weapon_names := names; files := files s; stdout := before |},
           Raise e)
      | Ok table =>
          let parsed := fold_left (collect_weapon names) table (weapons s) in
          ({| equipment := equipment s; ships := ships s; weapons := parsed;
              weapon_names := names; files := files s;
              stdout :=
                (before ++
                 record_errors "Error parsing weapon " (weapon_record names) table ++
                 [Print ("Parsed " +:+ pretty (length parsed) +:+ " weapons")])%list |},
           Ok ())
      end
  end.
Proof.
  unfold parse_weapons.
  rewrite bind_run, print_run, bind_run, load_json_run. state_simpl.
  rewrite bind_run. unfold lift at 1.
  destruct (py_items (loaded E "weapon_name.json")) as [name_items|e]; simpl mbind at 1;
    [|f_equal; f_equal; rewrite <- !app_assoc; reflexivity].
  rewrite bind_run. unfold lift at 1.
  change (Ok name_items ≫= λ items, int_keyed items []) with (int_keyed name_items []).
  destruct (int_keyed name_items []) as [names|e];
    [|f_equal; f_equal; rewrite <- !app_assoc; reflexivity].
  rewrite bind_run, set_weapon_names_run, bind_run, load_json_run. state_simpl.
  unfold weapon_source, weapon_load_diagnostics.
  rewrite bind_run.
  destruct (py_truthy (loaded E "weapon_property.json")).
  - unfold mret at 1, M_ret at 1.
    rewrite bind_run. unfold lift at 1.
    destruct (py_items (loaded E "weapon_property.json")) as [table|e].
    + rewrite bind_run, weapon_loop. state_simpl.
      rewrite bind_run. unfold gets at 1. state_simpl. rewrite print_run.
      state_simpl. cbv zeta. f_equal. f_equal.
      rewrite <- ?app_assoc. simpl. rewrite <- ?app_assoc. simpl.
      rewrite ?app_nil_r. reflexivity.
    + cbv zeta. f_equal. f_equal.
      rewrite <- ?app_assoc. simpl. rewrite <- ?app_assoc. simpl.
      rewrite ?app_nil_r. reflexivity.
  - rewrite bind_run, print_run, load_json_run. state_simpl.
    rewrite bind_run. unfold lift at 1.
    destruct (py_items (loaded E "bullet_template.json")) as [table|e].
    + rewrite bind_run, weapon_loop. state_simpl.
      rewrite bind_run. unfold gets at 1. state_simpl. rewrite print_run.
      state_simpl. cbv zeta. f_equal. f_equal.
      rewrite <- ?app_assoc. simpl. rewrite <- ?app_assoc. simpl. reflexivity.
    + cbv zeta. f_equal. f_equal.
      rewrite <- ?app_assoc. simpl. rewrite <- ?app_assoc. simpl. reflexivity.
Qed.

(** X2.  [parse_weapons] when the name table and the weapon table are JSON
    objects and every all-digit key of the name table is a number for
    [int]: the method returns normally; [weapon_names] is replaced by the
    name table under integer keys (keys that are not all digits dropped);
    the weapon table is [weapon_property.json] when that holds a non-empty
    value and [bullet_template.json] otherwise, also when the preferred file
    exists and holds an empty object; its records are laid over the former
    collection in order, one that raises being skipped with a line of
    output. *)
Theorem parse_weapons_outcome (E : env) (s : state)
    (name_items : list (string * pyval)) (names : list (Z * pyval))
    (table : list (string * pyval)) :
  py_items (loaded E "weapon_name.json") = Ok name_items →
  int_keyed name_items [] = Ok names →
  py_items (weapon_source E) = Ok table →
  let parsed := fold_left (collect_weapon names) table (weapons s) in
  parse_weapons E s =
  ({| equipment := equipment s; ships := ships s;
      weapons := parsed;
      weapon_names := names;
      files := files s;
      stdout :=
        (stdout s ++
         Print "Parsing weapon data..." ::
         weapon_load_diagnostics E ++
         record_errors "Error parsing weapon " (weapon_record names) table ++
         [Print ("Parsed " +:+ pretty (length parsed) +:+ " weapons")])%list |},
   Ok ()).
Proof.
  intros Hn Hk Ht parsed. rewrite parse_weapons_run, Hn. simpl mbind.
  rewrite Hk. cbv zeta. rewrite Ht. f_equal. f_equal.
  rewrite <- !app_assoc. reflexivity.
Qed.

Lemma parse_weapons_outcome_witness :
  parse_weapons sample_env (init ∅) =
  ({| equipment := []; ships := [];
      weapons :=
        fold_left (collect_weapon [ (7, VStr "Main gun") ])
          [ ("7", VDict [ ("damage", VInt 3) ]); ("8", VList []) ] [];
      weapon_names := [ (7, VStr "Main gun") ];
      files := ∅;
      stdout :=
        [ Print "Parsing weapon data...";
          PrintExn "Error parsing weapon 8: " AttributeError;
          Print "Parsed 1 weapons" ] |},
   Ok ()).
Proof.
  exact (parse_weapons_outcome sample_env (init ∅)
           [ ("7", VStr "Main gun"); ("note", VStr "n") ]
           [ (7, VStr "Main gun") ]
           [ ("7", VDict [ ("damage", VInt 3) ]); ("8", VList []) ]
           eq_refl eq_refl eq_refl).
Defined.

(** ** Tables that are read and not used *)

Lemma parse_ships_run (E : env) (s : state) :
  parse_ships E s =
  let before :=
    (stdout s ++
     Print "Parsing ship data..." ::
     load_diagnostic E "ship_data_statistics.json" ++
     load_diagnostic E "ship_data_template.json")%list in
  match py_items (loaded E "ship_data_statistics.json") with
  | Ok table =>
      let parsed := fold_left collect_ship table (ships s) in
      ({| equipment := equipment s; ships := parsed; weapons := weapons s;
          weapon_names := weapon_names s; files := files s;
          stdout :=
            (before ++ record_errors "Error parsing ship " ship_record table ++
             [Print ("Parsed " +:+ pretty (length parsed) +:+ " ships")])%list |},
       Ok ())
  | Raise e =>
      ({| equipment := equipment s; ships := ships s; weapons := weapons s;
          weapon_names := weapon_names s; files := files s; stdout := before |},
       Raise e)
  end.
Proof.
  unfold parse_ships.
  rewrite bind_run, print_run, bind_run, load_json_run. state_simpl.
  rewrite bind_run, load_json_run. state_simpl.
  rewrite bind_run. unfold lift at 1.
  destruct (py_items (loaded E "ship_data_statistics.json")) as [table|e].
  - rewrite bind_run, ship_loop_run. state_simpl.
    rewrite bind_run. unfold gets at 1. state_simpl. rewrite print_run.
    state_simpl. cbv zeta. f_equal. f_equal.
    rewrite <- !app_assoc. simpl. rewrite <- !app_assoc. reflexivity.
  - cbv zeta. f_equal. f_equal. rewrite <- !app_assoc. reflexivity.
Qed.

(** X3.  [parse_ships] loads [ship_data_template.json] and never uses it:
    two data directories with the same [ship_data_statistics.json] give the
    same ships and the same outcome, whatever their template files hold. *)
Theorem parse_ships_ignores_templates (E1 E2 : env) (s : state) :
  tables E1 "ship_data_statistics.json" = tables E2 "ship_data_statistics.json" →
  ships (fst (parse_ships E1 s)) = ships (fst (parse_ships E2 s)) ∧
  snd (parse_ships E1 s) = snd (parse_ships E2 s).
Proof.
  intros Ht. rewrite !parse_ships_run. cbv zeta.
  assert (loaded E1 "ship_data_statistics.json" =
          loaded E2 "ship_data_statistics.json") as ->.
  { unfold loaded. rewrite Ht. reflexivity. }
  destruct (py_items (loaded E2 "ship_data_statistics.json")); split; reflexivity.
Qed.

Lemma parse_ships_ignores_templates_witness :
  ships (fst (parse_ships sample_env (init ∅))) =
  ships (fst (parse_ships sample_env_other_ship_templates (init ∅))) ∧
  snd (parse_ships sample_env (init ∅)) =
  snd (parse_ships sample_env_other_ship_templates (init ∅)).
Proof.
  exact (parse_ships_ignores_templates sample_env sample_env_other_ship_templates
           (init ∅) eq_refl).
Defined.

Lemma load_json_same_table (E1 E2 : env) (filename : string) :
  tables E1 filename = tables E2 filename →
  load_json E1 filename = load_json E2 filename.
Proof. intros H. unfold load_json. rewrite H. reflexivity. Qed.

(** X4.  [parse_weapons] reads the fallback [bullet_template.json] only when
    [weapon_property.json] gave nothing truthy: with a non-empty preferred
    table, two data directories that differ in the fallback file alone are
    parsed alike, output included. *)
Theorem parse_weapons_skips_fallback (E1 E2 : env) (s : state) :
  (∀ filename, filename ≠ "bullet_template.json" →
               tables E1 filename = tables E2 filename) →
  py_truthy (loaded E1 "weapon_property.json") = true →
  parse_weapons E1 s = parse_weapons E2 s.
Proof.
  intros Hsame Htruthy. rewrite !parse_weapons_run.
  assert (Hloaded : ∀ filename, filename ≠ "bullet_template.json" →
            loaded E1 filename = loaded E2 filename ∧
            load_diagnostic E1 filename = load_diagnostic E2 filename).
  { intros filename Hne. unfold loaded, load_diagnostic.
    rewrite (Hsame filename Hne). split; reflexivity. }
  destruct (Hloaded "weapon_name.json") as [Hn Hdn]; [discriminate|].
  destruct (Hloaded "weapon_property.json") as [Hp Hdp]; [discriminate|].
  unfold weapon_source, weapon_load_diagnostics.
  rewrite <- Hn, <- Hdn, <- Hp, <- Hdp, Htruthy. reflexivity.
Qed.

Lemma parse_weapons_skips_fallback_witness :
  parse_weapons sample_env (init ∅) =
  parse_weapons sample_env_other_bullets (init ∅).
Proof.
  apply (parse_weapons_skips_fallback sample_env sample_env_other_bullets (init ∅)).
  - intros filename Hne. simpl.
    destruct (String.eqb_spec filename "bullet_template.json") as [->|_];
      [congruence | reflexivity].
  - reflexivity.
Defined.

(** ** What a method leaves alone *)

Section Stable.
Context (R : state → state → Prop).
Hypothesis R_refl : ∀ s, R s s.
Hypothesis R_trans : ∀ a b c, R a b → R b c → R a c.

Lemma stable_ret {A} (a : A) : stable R (mret a).
Proof. intros s. apply R_refl. Qed.

Lemma stable_lift {A} (r : result A) : stable R (lift r).
Proof. intros s. apply R_refl. Qed.

Lemma stable_gets {A} (f : state → A) : stable R (gets f).
Proof. intros s. apply R_refl. Qed.

Lemma stable_bind {A B} (m : M A) (k : A → M B) :
  stable R m → (∀ a, stable R (k a)) → stable R (m ≫= k).
Proof.
  intros Hm Hk s. rewrite bind_run. specialize (Hm s).
  destruct (m s) as [s' [a|e]]; simpl in *; [|exact Hm].
  exact (R_trans _ _ _ Hm (Hk a s')).
Qed.

(** After a pure step only the value it returned matters. *)
Lemma stable_lift_bind {A B} (r : result A) (k : A → M B) :
  (∀ a, r = Ok a → stable R (k a)) → stable R (lift r ≫= k).
Proof.
  intros Hk s. rewrite bind_run. unfold lift. destruct r as [a|e]; simpl.
  - exact (Hk a eq_refl s).
  - apply R_refl.
Qed.

Lemma stable_try_except {A} (body : M A) (handler : exn → M A) :
  stable R body → (∀ e, stable R (handler e)) → stable R (try_except body handler).
Proof.
  intros Hb Hh s. unfold try_except. specialize (Hb s).
  destruct (body s) as [s' [a|e]]; simpl in *; [exact Hb|].
  exact (R_trans _ _ _ Hb (Hh e s')).
Qed.

Lemma stable_for_each {X} (l : list X) (body : X → M ()) :
  (∀ x, stable R (body x)) → stable R (for_each l body).
Proof.
  intros Hb. induction l as [|x l IH]; simpl.
  - apply stable_ret.
  - apply stable_bind; [apply Hb | intros _; exact IH].
Qed.

Lemma stable_modify (f : state → state) : (∀ s, R s (f s)) → stable R (modify f).
Proof. intros H s. apply H. Qed.

End Stable.

(** The relations in use are preorders. *)
Lemma same_collections_refl (s : state) : same_collections s s.
Proof. repeat split. Qed.

Lemma same_collections_trans (a b c : state) :
  same_collections a b → same_collections b c → same_collections a c.
Proof.
  intros (H1 & H2 & H3 & H4) (H5 & H6 & H7 & H8).
  repeat split; congruence.
Qed.

Lemma same_files_outside_refl (paths : list string) (s : state) :
  same_files_outside paths s s.
Proof. intros p _. reflexivity. Qed.

Lemma same_files_outside_trans (paths : list string) (a b c : state) :
  same_files_outside paths a b → same_files_outside paths b c →
  same_files_outside paths a c.
Proof. intros H1 H2 p Hp. rewrite (H2 p Hp). exact (H1 p Hp). Qed.

Lemma keeps_well_keyed_refl (s : state) : keeps_well_keyed s s.
Proof. intros H. exact H. Qed.

Lemma keeps_well_keyed_trans (a b c : state) :
  keeps_well_keyed a b → keeps_well_keyed b c → keeps_well_keyed a c.
Proof. intros H1 H2 H. exact (H2 (H1 H)). Qed.


(** The rules above, applied as far as the shape of a method goes; what is
    left are its elementary steps. *)
Ltac stable_rules refl trans :=
  repeat match goal with
    | |- stable _ (mret _) => apply (stable_ret _ refl)
    | |- stable _ (lift _) => apply (stable_lift _ refl)
    | |- stable _ (gets _) => apply (stable_gets _ refl)
    | |- stable _ (for_each _ _) => apply (stable_for_each _ refl trans); intros ?
    | |- stable _ (try_except _ _) => apply (stable_try_except _ trans); [| intros ?]
    | |- stable _ (lift _ ≫= _) => apply (stable_lift_bind _ refl); intros ? ?
    | |- stable _ (_ ≫= _) => apply (stable_bind _ trans); [| intros ?]
    | |- stable _ (match ?x with _ => _ end) => destruct x
    end.

Ltac stable_unfold :=
  unfold parse_equipment, parse_ships, parse_weapons,
    export_to_csv, export_equipment_csv, export_ships_csv, export_weapons_csv,
    export_to_json, dump, open_for_writing, write, load_json,
    print, print_exn, emit,
    set_files, set_equipment, set_ship, set_weapon, set_weapon_names.

Lemma stable_reporting (R : state → state → Prop) (r : report) :
  (∀ s out,
     R s {| equipment := equipment s; ships := ships s; weapons := weapons s;
            weapon_names := weapon_names s; files := files s;
            stdout := (stdout s ++ out)%list |}) →
  stable R (reporting r).
Proof.
  intros H s. unfold reporting.
  destruct (r (equipment s) (ships s) (weapons s)) as [out res]. apply H.
Qed.

(** *** The exports read the collections and do not change them *)

Lemma export_to_csv_same_collections (E : env) (output_dir : string) :
  stable same_collections (export_to_csv E output_dir).
Proof.
  stable_unfold.
  stable_rules same_collections_refl same_collections_trans;
    apply stable_modify; intros ?; repeat split.
Qed.

Lemma export_to_json_same_collections (E : env) (output_dir : string) :
  stable same_collections (export_to_json E output_dir).
Proof.
  stable_unfold.
  stable_rules same_collections_refl same_collections_trans;
    apply stable_modify; intros ?; repeat split.
Qed.

(** X5.  The two exports only read the parsed data: whatever they write
    and however they end, the three collections and the name table of the
    parser are the ones they found. *)
Theorem exports_leave_collections (E : env) (output_dir : string) (s : state) :
  same_collections s (fst (export_to_csv E output_dir s)) ∧
  same_collections s (fst (export_to_json E output_dir s)).
Proof.
  split.
  - apply export_to_csv_same_collections.
  - apply export_to_json_same_collections.
Qed.

(** *** Which files a run writes *)

Ltac files_untouched :=
  apply stable_modify;
  let s := fresh "s" in let p := fresh "p" in let Hp := fresh "Hp" in
  intros s p Hp; reflexivity.

Ltac outside_output_files :=
  first
    [ files_untouched
    | apply stable_modify;
      let s := fresh "s" in let p := fresh "p" in let Hp := fresh "Hp" in
      intros s p Hp; simpl;
      apply lookup_insert_ne; intros <-; apply Hp;
      apply list_elem_of_In; simpl; tauto ].

Lemma export_to_csv_files (E : env) (output_dir : string) :
  stable (same_files_outside (output_files output_dir)) (export_to_csv E output_dir).
Proof.
  stable_unfold.
  stable_rules (same_files_outside_refl (output_files output_dir))
               (same_files_outside_trans (output_files output_dir));
    outside_output_files.
Qed.

Lemma export_to_json_files (E : env) (output_dir : string) :
  stable (same_files_outside (output_files output_dir)) (export_to_json E output_dir).
Proof.
  stable_unfold.
  stable_rules (same_files_outside_refl (output_files output_dir))
               (same_files_outside_trans (output_files output_dir));
    outside_output_files.
Qed.

Lemma parse_weapons_files (paths : list string) (E : env) :
  stable (same_files_outside paths) (parse_weapons E).
Proof.
  stable_unfold.
  stable_rules (same_files_outside_refl paths) (same_files_outside_trans paths);
    files_untouched.
Qed.

Lemma parse_equipment_files (paths : list string) (E : env) :
  stable (same_files_outside paths) (parse_equipment E).
Proof.
  stable_unfold.
  stable_rules (same_files_outside_refl paths) (same_files_outside_trans paths);
    files_untouched.
Qed.

Lemma parse_ships_files (paths : list string) (E : env) :
  stable (same_files_outside paths) (parse_ships E).
Proof.
  stable_unfold.
  stable_rules (same_files_outside_refl paths) (same_files_outside_trans paths);
    files_untouched.
Qed.

(** X6.  A run writes to the six files of its output directory and to no
    other: every other path of the file store holds after the run what it
    held before, whatever the tables hold, whatever the two reports do and
    however the run ends. *)
Theorem run_writes_only_its_output_files
    (analyze_equipment_stats analyze_ship_stats : report) (E : env) (s : state)
    (p : string) :
  p ∉ output_files "azur_lane_parsed_data" →
  files (fst (run analyze_equipment_stats analyze_ship_stats E s)) !! p =
  files s !! p.
Proof.
  intros Hp.
  enough (H : stable (same_files_outside (output_files "azur_lane_parsed_data"))
                (run analyze_equipment_stats analyze_ship_stats E))
    by exact (H s p Hp).
  clear s p Hp. unfold run.
  repeat match goal with
    | |- stable _ (parse_weapons _) => apply parse_weapons_files
    | |- stable _ (parse_equipment _) => apply parse_equipment_files
    | |- stable _ (parse_ships _) => apply parse_ships_files
    | |- stable _ (export_to_csv _ _) => apply export_to_csv_files
    | |- stable _ (export_to_json _ _) => apply export_to_json_files
    | |- stable _ (reporting _) =>
        apply stable_reporting; intros ? ? ? ?; reflexivity
    | |- stable _ (gets _) => apply (stable_gets _ (same_files_outside_refl _))
    | |- stable _ (print _) => unfold print, emit; files_untouched
    | |- stable _ (_ ≫= _) =>
        apply (stable_bind _ (same_files_outside_trans _)); [| intros ?]
    end.
Qed.

Lemma run_writes_only_its_output_files_witness :
  files (fst (run silent silent sample_env
                (init {[ "azur_lane_parsed_data/notes.txt" := "kept" ]})))
    !! "azur_lane_parsed_data/notes.txt" = Some "kept".
Proof.
  rewrite (run_writes_only_its_output_files silent silent sample_env
             (init {[ "azur_lane_parsed_data/notes.txt" := "kept" ]})
             "azur_lane_parsed_data/notes.txt").
  - reflexivity.
  - intros H. apply list_elem_of_In in H. simpl in H.
    repeat destruct H as [H|H]; try discriminate H. exact H.
Defined.

(** *** Entities are stored under their ID *)

Lemma set_int_key_keys {V} (k k' : Z) (v : V) (d : list (Z * V)) :
  k' ∈ map fst (set_int_key k v d) → k' = k ∨ k' ∈ map fst d.
Proof.
  induction d as [|[k0 v0] d IH]; simpl.
  - intros H. apply list_elem_of_In in H. simpl in H.
    destruct H as [<-|[]]. left. reflexivity.
  - destruct (Z.eqb_spec k k0) as [->|Hne]; simpl; intros H.
    + right. exact H.
    + apply elem_of_cons in H as [->|H].
      * right. left.
      * destruct (IH H) as [->|Hin]; [left; reflexivity | right; right; exact Hin].
Qed.

Lemma set_int_key_keyed {X} (id : X → Z) (k : Z) (x : X) (d : list (Z * X)) :
  id x = k → keyed_by_id id d → keyed_by_id id (set_int_key k x d).
Proof.
  intros Hid [Hall Hnd]. split.
  - clear Hnd. induction Hall as [|[k0 x0] d H0 Hall IH]; simpl.
    + repeat constructor. exact Hid.
    + destruct (Z.eqb_spec k k0) as [->|Hne]; constructor; auto.
  - clear Hall. induction d as [|[k0 x0] d IH]; simpl.
    + repeat constructor. intros H. inversion H.
    + simpl in Hnd. apply NoDup_cons in Hnd as [Hk0 Hnd].
      destruct (Z.eqb_spec k k0) as [->|Hne]; simpl.
      * apply NoDup_cons. split; assumption.
      * apply NoDup_cons. split; [|exact (IH Hnd)].
        intros H. apply set_int_key_keys in H as [->|H]; [congruence | exact (Hk0 H)].
Qed.

Lemma equipment_record_id (templates : pyval) (key : string) (data : pyval)
    (k : Z) (equip : Equipment.t) :
  equipment_record templates key data = Ok (k, equip) → Equipment.id equip = k.
Proof.
  intros H. unfold equipment_record in H.
  apply bind_ok in H as (e0 & He0 & H).
  apply bind_ok in H as (e1 & He1 & H).
  apply bind_ok in H as (k0 & Hk0 & H). injection H as <- <-.
  apply new_equipment_key in He0. rewrite Hk0 in He0. injection He0 as ->.
  unfold overlay_template in He1.
  apply bind_ok in He1 as ([] & _ & He1).
  - bind_inv He1. injection He1 as <-. reflexivity.
  - injection He1 as <-. reflexivity.
Qed.

Lemma ship_record_id (key : string) (data : pyval) (k : Z) (ship : Ship.t) :
  ship_record key data = Ok (k, ship) → Ship.id ship = k.
Proof.
  intros H. unfold ship_record in H.
  apply bind_ok in H as (x & Hx & H).
  apply bind_ok in H as (k0 & Hk0 & H). injection H as <- <-.
  unfold new_ship in Hx. bind_inv Hx. injection Hx as <-. simpl. congruence.
Qed.

Lemma weapon_record_id (names : list (Z * pyval)) (key : string) (data : pyval)
    (k : Z) (weapon : Weapon.t) :
  weapon_record names key data = Ok (k, weapon) → Weapon.id weapon = k.
Proof.
  intros H. unfold weapon_record in H.
  apply bind_ok in H as (x & Hx & H).
  apply bind_ok in H as (k0 & Hk0 & H). injection H as <- <-.
  unfold new_weapon in Hx. bind_inv Hx. injection Hx as <-. simpl. congruence.
Qed.

Lemma same_collections_keeps_well_keyed {A} (m : M A) :
  stable same_collections m → stable keeps_well_keyed m.
Proof.
  intros H s (K1 & K2 & K3). destruct (H s) as (H1 & H2 & H3 & _).
  unfold well_keyed. rewrite H1, H2, H3. auto.
Qed.

Lemma parse_equipment_keeps_well_keyed (E : env) :
  stable keeps_well_keyed (parse_equipment E).
Proof.
  stable_unfold.
  stable_rules keeps_well_keyed_refl keeps_well_keyed_trans;
    try (apply stable_modify; intros ? K; exact K).
  apply stable_modify. intros st (K1 & K2 & K3). split; [|split; assumption].
  simpl. apply set_int_key_keyed; [|exact K1].
  eapply equipment_record_id. eassumption.
Qed.

Lemma parse_ships_keeps_well_keyed (E : env) :
  stable keeps_well_keyed (parse_ships E).
Proof.
  stable_unfold.
  stable_rules keeps_well_keyed_refl keeps_well_keyed_trans;
    try (apply stable_modify; intros ? K; exact K).
  apply stable_modify. intros st (K1 & K2 & K3).
  split; [assumption|]. split; [|assumption].
  simpl. apply set_int_key_keyed; [|exact K2].
  eapply ship_record_id. eassumption.
Qed.

Lemma parse_weapons_keeps_well_keyed (E : env) :
  stable keeps_well_keyed (parse_weapons E).
Proof.
  stable_unfold.
  stable_rules keeps_well_keyed_refl keeps_well_keyed_trans;
    try (apply stable_modify; intros ? K; exact K).
  apply stable_modify. intros st (K1 & K2 & K3).
  split; [assumption|]. split; [assumption|].
  simpl. apply set_int_key_keyed; [|exact K3].
  eapply weapon_record_id. eassumption.
Qed.

(** X7.  Every entity is stored under its own ID and no ID is stored twice,
    and a run keeps it so: if this holds of the three collections before a
    run (it does of a fresh parser), it holds after it, whatever the tables
    hold, also of records whose keys spell one number in two ways. *)
Theorem run_keeps_entities_under_their_id
    (analyze_equipment_stats analyze_ship_stats : report) (E : env) (s : state) :
  well_keyed s →
  well_keyed (fst (run analyze_equipment_stats analyze_ship_stats E s)).
Proof.
  enough (H : stable keeps_well_keyed
                (run analyze_equipment_stats analyze_ship_stats E))
    by exact (H s).
  clear s. unfold run.
  repeat match goal with
    | |- stable _ (parse_weapons _) => apply parse_weapons_keeps_well_keyed
    | |- stable _ (parse_equipment _) => apply parse_equipment_keeps_well_keyed
    | |- stable _ (parse_ships _) => apply parse_ships_keeps_well_keyed
    | |- stable _ (export_to_csv _ _) =>
        apply same_collections_keeps_well_keyed, export_to_csv_same_collections
    | |- stable _ (export_to_json _ _) =>
        apply same_collections_keeps_well_keyed, export_to_json_same_collections
    | |- stable _ (reporting _) =>
        apply stable_reporting; intros ? ? K; exact K
    | |- stable _ (gets _) => apply (stable_gets _ keeps_well_keyed_refl)
    | |- stable _ (print _) =>
        unfold print, emit; apply stable_modify; intros ? K; exact K
    | |- stable _ (_ ≫= _) =>
        apply (stable_bind _ keeps_well_keyed_trans); [| intros ?]
    end.
Qed.

Lemma run_keeps_entities_under_their_id_witness :
  well_keyed (fst (run silent silent sample_env (init ∅))).
Proof.
  apply (run_keeps_entities_under_their_id silent silent sample_env (init ∅)).
  repeat split; constructor.
Defined.

(** ** Tables of the wrong shape *)

Lemma py_items_no_object (v : pyval) :
  no_object v → py_items v = Raise AttributeError.
Proof. intros H. destruct v; try reflexivity. exfalso. exact (H d eq_refl). Qed.

Lemma py_items_raises (v : pyval) (e : exn) :
  py_items v = Raise e → e = AttributeError.
Proof. destruct v; simpl; congruence. Qed.

Lemma py_int_raises (text : string) (e : exn) :
  py_int text = Raise e → e = ValueError.
Proof.
  unfold py_int. destruct (strip text) as [|c r].
  - destruct (digits 0 false EmptyString); congruence.
  - match goal with
    | |- context [let '(_, _) := ?p in _] => destruct p as [negative body]
    end.
    destruct (digits 0 false body); congruence.
Qed.

Lemma int_keyed_raises (items : list (string * pyval)) (acc : list (Z * pyval))
    (e : exn) :
  int_keyed items acc = Raise e → e = ValueError.
Proof.
  revert acc. induction items as [|[k v] items IH]; intros acc; simpl.
  - discriminate.
  - destruct (isdigit k); [|apply IH].
    destruct (py_int k) as [key|e'] eqn:Hk; simpl.
    + apply IH.
    + intros [= <-]. exact (py_int_raises k e' Hk).
Qed.

(** A parsing method that raises does so on [.items()] of a table that is no
    object or, for the weapon names, on [int] of a key. *)
Lemma parse_weapons_raises (E : env) (s : state) (e : exn) :
  snd (parse_weapons E s) = Raise e → e = AttributeError ∨ e = ValueError.
Proof.
  rewrite parse_weapons_run.
  destruct (py_items (loaded E "weapon_name.json")) as [name_items|e0] eqn:Hn;
    simpl mbind.
  - destruct (int_keyed name_items []) as [names|e1] eqn:Hk.
    + cbv zeta. destruct (py_items (weapon_source E)) as [table|e2] eqn:Ht; simpl.
      * discriminate.
      * intros [= <-]. left. exact (py_items_raises _ _ Ht).
    + simpl. intros [= <-]. right. exact (int_keyed_raises _ _ _ Hk).
  - simpl. intros [= <-]. left. exact (py_items_raises _ _ Hn).
Qed.

Lemma parse_weapons_needs_objects (E : env) (s : state) :
  no_object (loaded E "weapon_name.json") ∨ no_object (weapon_source E) →
  ∃ e, snd (parse_weapons E s) = Raise e.
Proof.
  intros H. rewrite parse_weapons_run.
  destruct (py_items (loaded E "weapon_name.json")) as [name_items|e0] eqn:Hn;
    simpl mbind; [|simpl; eauto].
  destruct (int_keyed name_items []) as [names|e1]; [|simpl; eauto].
  cbv zeta. destruct H as [H|H].
  - rewrite (py_items_no_object _ H) in Hn. discriminate.
  - rewrite (py_items_no_object _ H). simpl. eauto.
Qed.

Lemma files_unchanged {A} (m : M A) (s : state) :
  stable (same_files_outside []) m → files (fst (m s)) = files s.
Proof.
  intros H. apply map_eq. intros p. apply (H s p). intros Hp. inversion Hp.
Qed.

(** X8.  No [try] of a run covers the call of [.items()] on a table: when
    one of the four tables a run iterates over (the weapon names, the weapon
    table in use, the equipment statistics, the ship statistics) is a JSON
    value other than an object, the run ends with an exception, an
    [AttributeError] or a [ValueError], before any export: the file store is
    left as it was. *)
Theorem run_stops_on_a_table_that_is_no_object
    (analyze_equipment_stats analyze_ship_stats : report) (E : env) (s : state) :
  Exists no_object (parsed_tables E) →
  ∃ e, snd (run analyze_equipment_stats analyze_ship_stats E s) = Raise e ∧
       (e = AttributeError ∨ e = ValueError) ∧
       files (fst (run analyze_equipment_stats analyze_ship_stats E s)) = files s.
Proof.
  intros Hbad. unfold run.
  rewrite bind_run, print_run, bind_run, print_run, bind_run.
  match goal with |- context [parse_weapons E ?s1] => set (s0 := s1) end.
  assert (Hf0 : files s0 = files s) by reflexivity.
  pose proof (files_unchanged (parse_weapons E) s0 (parse_weapons_files [] E)) as Hf1.
  pose proof (parse_weapons_raises E s0) as Hr1.
  pose proof (parse_weapons_needs_objects E s0) as Hn1.
  destruct (parse_weapons E s0) as [s1 [[]|e1]]; simpl in Hf1, Hr1, Hn1;
    [|exists e1; simpl; split; [reflexivity | split; [auto | congruence]]].
  rewrite bind_run.
  pose proof (files_unchanged (parse_equipment E) s1 (parse_equipment_files [] E)) as Hf2.
  pose proof (parse_equipment_run E s1) as Hr2. cbv zeta in Hr2.
  destruct (parse_equipment E s1) as [s2 [[]|e2]]; simpl in Hf2;
    [|exists e2; simpl; split; [reflexivity|]; split; [|congruence];
      left; destruct (py_items (loaded E "equip_data_statistics.json")) eqn:Ht;
      [discriminate | injection Hr2 as _ ->; exact (py_items_raises _ _ Ht)]].
  rewrite bind_run.
  pose proof (files_unchanged (parse_ships E) s2 (parse_ships_files [] E)) as Hf3.
  pose proof (parse_ships_run E s2) as Hr3. cbv zeta in Hr3.
  destruct (parse_ships E s2) as [s3 [[]|e3]]; simpl in Hf3;
    [|exists e3; simpl; split; [reflexivity|]; split; [|congruence];
      left; destruct (py_items (loaded E "ship_data_statistics.json")) eqn:Ht;
      [discriminate | injection Hr3 as _ ->; exact (py_items_raises _ _ Ht)]].
  exfalso. unfold parsed_tables in Hbad.
  apply Exists_cons in Hbad as [Hbad|Hbad];
    [destruct Hn1 as [e He]; [left; exact Hbad | discriminate]|].
  apply Exists_cons in Hbad as [Hbad|Hbad];
    [destruct Hn1 as [e He]; [right; exact Hbad | discriminate]|].
  apply Exists_cons in Hbad as [Hbad|Hbad].
  { rewrite (py_items_no_object _ Hbad) in Hr2. discriminate. }
  apply Exists_cons in Hbad as [Hbad|Hbad].
  { rewrite (py_items_no_object _ Hbad) in Hr3. discriminate. }
  inversion Hbad.
Qed.

Lemma run_stops_on_a_table_that_is_no_object_witness :
  ∃ e, snd (run silent silent array_env (init ∅)) = Raise e ∧
       (e = AttributeError ∨ e = ValueError) ∧
       files (fst (run silent silent array_env (init ∅))) = files (init ∅).
Proof.
  apply (run_stops_on_a_table_that_is_no_object silent silent array_env (init ∅)).
  unfold parsed_tables. do 3 apply Exists_cons_tl. apply Exists_cons_hd.
  intros d. discriminate.
Defined.

Lemma int_keyed_bad_key (items : list (string * pyval)) (acc : list (Z * pyval))
    (k : string) (v : pyval) :
  In (k, v) items → isdigit k = true → is_ok (py_int k) = false →
  int_keyed items acc = Raise ValueError.
Proof.
  revert acc. induction items as [|[k0 v0] items IH]; intros acc Hin Hd Hk; simpl.
  - destruct Hin.
  - destruct Hin as [[= -> ->]|Hin].
    + rewrite Hd. destruct (py_int k) as [n|e] eqn:Hn; [discriminate|].
      simpl. f_equal. exact (py_int_raises k e Hn).
    + destruct (isdigit k0); [|exact (IH acc Hin Hd Hk)].
      destruct (py_int k0) as [n|e] eqn:Hn; simpl.
      * exact (IH _ Hin Hd Hk).
      * f_equal. exact (py_int_raises k0 e Hn).
Qed.

(** X9.  The name table is filtered with [isdigit] and converted with
    [int], which do not agree on what a digit is: a key made of characters
    that [isdigit] accepts and [int] rejects (a superscript two, say) makes
    the dict comprehension of [parse_weapons] raise [ValueError], outside
    any [try]; the method ends there, with no weapon parsed and the former
    name table in place. *)
Theorem parse_weapons_rejects_a_digit_key (E : env) (s : state)
    (name_items : list (string * pyval)) (k : string) (v : pyval) :
  py_items (loaded E "weapon_name.json") = Ok name_items →
  In (k, v) name_items →
  isdigit k = true →
  is_ok (py_int k) = false →
  snd (parse_weapons E s) = Raise ValueError ∧
  weapons (fst (parse_weapons E s)) = weapons s ∧
  weapon_names (fst (parse_weapons E s)) = weapon_names s.
Proof.
  intros Hn Hin Hd Hk. rewrite parse_weapons_run, Hn. simpl mbind.
  rewrite (int_keyed_bad_key name_items [] k v Hin Hd Hk).
  repeat split.
Qed.

Lemma parse_weapons_rejects_a_digit_key_witness :
  snd (parse_weapons superscript_env (init ∅)) = Raise ValueError ∧
  weapons (fst (parse_weapons superscript_env (init ∅))) = [] ∧
  weapon_names (fst (parse_weapons superscript_env (init ∅))) = [].
Proof.
  apply (parse_weapons_rejects_a_digit_key superscript_env (init ∅)
           [ (superscript_two, VStr "Squared") ] superscript_two (VStr "Squared")).
  - reflexivity.
  - left. reflexivity.
  - reflexivity.
  - reflexivity.
Defined.

(** ** Records of the same ID *)

Lemma lookup_set_int_key {V} (k k' : Z) (v : V) (d : list (Z * V)) :
  lookup_int_key k' (set_int_key k v d) =
  if Z.eqb k' k then Some v else lookup_int_key k' d.
Proof.
  unfold lookup_int_key. induction d as [|[k0 v0] d IH]; simpl.
  - rewrite (Z.eqb_sym k k'). destruct (Z.eqb k' k); reflexivity.
  - destruct (Z.eqb_spec k k0) as [->|Hne]; simpl.
    + rewrite (Z.eqb_sym k0 k'). destruct (Z.eqb k' k0); reflexivity.
    + destruct (Z.eqb_spec k0 k') as [->|Hne'].
      * destruct (Z.eqb_spec k' k); [congruence | reflexivity].
      * exact IH.
Qed.

Section LastRecord.
Context {X : Type} (record : string → pyval → result (Z * X)).

Lemma collect_other_keys (k : Z) (table : list (string * pyval)) (acc : list (Z * X)) :
  Forall (λ item, ∀ x, record (fst item) (snd item) ≠ Ok (k, x)) table →
  lookup_int_key k (fold_left (collect_record record) table acc) = lookup_int_key k acc.
Proof.
  revert acc. induction table as [|item table IH]; intros acc Hall; simpl.
  - reflexivity.
  - apply Forall_cons in Hall as [Hitem Hall]. rewrite (IH _ Hall).
    unfold collect_record. destruct (record (fst item) (snd item)) as [[k0 x0]|e] eqn:Hr;
      [|reflexivity].
    rewrite lookup_set_int_key. destruct (Z.eqb_spec k k0) as [->|_]; [|reflexivity].
    exfalso. exact (Hitem x0 eq_refl).
Qed.

Lemma collect_last_wins (k : Z) (x : X) (before after : list (string * pyval))
    (key : string) (data : pyval) (acc : list (Z * X)) :
  record key data = Ok (k, x) →
  Forall (λ item, ∀ y, record (fst item) (snd item) ≠ Ok (k, y)) after →
  lookup_int_key k (fold_left (collect_record record) (before ++ (key, data) :: after) acc) = Some x.
Proof.
  intros Hr Hafter. rewrite fold_left_app. simpl.
  rewrite (collect_other_keys k after _ Hafter).
  unfold collect_record at 1. simpl. rewrite Hr, lookup_set_int_key, Z.eqb_refl.
  reflexivity.
Qed.

End LastRecord.

(** X10.  Records whose keys spell the same number ([1] and [01], say)
    are one entity: after [parse_equipment]'s loop the collection holds,
    under an ID, the entity of the last record of the table that was parsed
    with that ID, whatever stood there before. *)
Theorem last_record_of_an_id_wins (templates : pyval) (k : Z) (equip : Equipment.t)
    (before after : list (string * pyval)) (key : string) (data : pyval)
    (acc : list (Z * Equipment.t)) :
  equipment_record templates key data = Ok (k, equip) →
  Forall (λ item, ∀ y, equipment_record templates (fst item) (snd item) ≠ Ok (k, y))
    after →
  lookup_int_key k
    (fold_left (collect_equipment templates) (before ++ (key, data) :: after) acc)
  = Some equip.
Proof.
  exact (collect_last_wins (equipment_record templates) k equip before after
           key data acc).
Qed.

Lemma last_record_of_an_id_wins_witness :
  Equipment.name <$>
    lookup_int_key 1 (fold_left (collect_equipment named_templates) respelled_table [])
  = Some (VStr "Example").
Proof.
  assert (H : ∃ equip,
            equipment_record named_templates "01" (VDict example_record) = Ok (1, equip) ∧
            Equipment.name equip = VStr "Example").
  { eexists. split; reflexivity. }
  destruct H as (equip & Hr & Hname).
  pose proof (last_record_of_an_id_wins named_templates 1 equip
                [ ("1", named_stats) ] [ ("2", VDict []) ] "01" (VDict example_record)
                [] Hr) as H.
  unfold respelled_table. simpl app in H. rewrite H.
  - simpl. rewrite Hname. reflexivity.
  - repeat constructor. intros y. discriminate.
Defined.

(** ** Texts that need no guard *)

(** X11.  What [sanitize_csv_field] returns for a string starts with none of
    the six guarded characters, and sanitizing it again changes nothing. *)
Theorem sanitized_text_starts_safely (text : string) :
  starts_safely (sanitize_csv_field (VStr text)) = true ∧
  sanitize_csv_field (VStr (sanitize_csv_field (VStr text))) =
  sanitize_csv_field (VStr text).
Proof.
  assert (H : starts_safely (sanitize_csv_field (VStr text)) = true).
  { destruct text as [|c rest]; [reflexivity|].
    unfold sanitize_csv_field.
    destruct (existsb (Ascii.eqb c) formula_triggers) eqn:Hc.
    - reflexivity.
    - change (py_str (VStr (String c rest))) with (String c rest).
      unfold starts_safely. rewrite Hc. reflexivity. }
  split; [exact H | exact (sanitize_safe_text _ H)].
Qed.

(** X12.  The guard is for strings only: a value that is no string is
    written through [str] as it stands, so a negative number in a free-text
    field (a JSON record may hold [-5] as its name) gives a cell that starts
    with [-]. *)
Theorem negative_number_is_not_guarded (z : Z) :
  z < 0 →
  ∃ rest, sanitize_csv_field (VInt z) = String "-" rest ∧
          starts_safely (sanitize_csv_field (VInt z)) = false.
Proof.
  intros Hz. destruct z as [|p|p]; try lia.
  exists (pretty p). split; reflexivity.
Qed.

Lemma negative_number_is_not_guarded_witness :
  ∃ rest, sanitize_csv_field (VInt (-5)) = String "-" rest ∧
          starts_safely (sanitize_csv_field (VInt (-5))) = false.
Proof. apply (negative_number_is_not_guarded (-5)). lia. Defined.

(** X13.  The cells that [export_to_csv] does not sanitize and takes from
    the lookup tables (the type name stored at parsing, the rarity and the
    nationality looked up at export) cannot need the guard: whatever code a
    record holds, the name looked up in any of the four tables, or
    [Unknown] in its place, is not empty and starts with none of the guarded
    characters, so sanitizing it would return it unchanged. *)
Theorem looked_up_names_need_no_guard :
  Forall (λ table,
    ∀ code name, int_key_get table code "Unknown" = Ok name →
      name ≠ EmptyString ∧ starts_safely name = true ∧
      sanitize_csv_field (VStr name) = name)
    [ EQUIP_TYPES; SHIP_TYPES; NATIONS; RARITIES ].
Proof.
  assert (Hall : ∀ table,
    Forall (λ name, name ≠ EmptyString ∧ starts_safely name = true)
      ("Unknown" :: map snd table) →
    ∀ code name, int_key_get table code "Unknown" = Ok name →
      name ≠ EmptyString ∧ starts_safely name = true ∧
      sanitize_csv_field (VStr name) = name).
  { intros table Hnames code name Hget.
    assert (Hin : In name ("Unknown" :: map snd table)).
    { destruct (int_key_get_named table code name Hget) as [->|Hin];
        [left; reflexivity | right; exact Hin]. }
    rewrite Forall_forall in Hnames.
    destruct (Hnames name (proj2 (list_elem_of_In _ _) Hin)) as [Hne Hsafe].
    repeat split; [exact Hne | exact Hsafe | exact (sanitize_safe_text name Hsafe)]. }
  repeat (apply Forall_cons; split; [apply Hall; repeat constructor; discriminate|]).
  apply Forall_nil_2.
Qed.

(** ** The order of [weapons.csv] *)

Section SortedById.
Context {A : Type} (key : A → Z).

Lemma insert_by_ascending (x : A) (l r : list A) :
  ascending (map key l) → insert_by key int_lt x l = Ok r → ascending (map key r).
Proof.
  revert r. induction l as [|y l IH]; intros r Hasc H; simpl in H.
  - injection H as <-. simpl. auto.
  - unfold int_lt in H at 1. simpl in H. destruct Hasc as [Hy Hasc].
    destruct (Z.ltb_spec (key y) (key x)) as [Hlt|Hge].
    + apply bind_ok in H as (r' & Hr' & H). injection H as <-. simpl. split.
      * apply List.Forall_map.
        rewrite (insert_by_perm key int_lt x l r' Hr'). constructor; [lia|].
        apply List.Forall_map. exact Hy.
      * exact (IH r' Hasc Hr').
    + injection H as <-. simpl. split; [|split; assumption].
      constructor; [exact Hge|].
      eapply Forall_impl; [exact Hy|]. simpl. intros z Hz. lia.
Qed.

Lemma sorted_by_ascending (l r : list A) :
  sorted_by key int_lt l = Ok r → ascending (map key r).
Proof.
  revert r. induction l as [|x l IH]; intros r H; simpl in H.
  - injection H as <-. exact I.
  - apply bind_ok in H as (r' & Hr' & H).
    exact (insert_by_ascending x r' r (IH r' Hr') H).
Qed.

End SortedById.

Lemma rows_of_total {A} (row_of : A → list (string * pyval)) (l : list A)
    (rows : list (list (string * pyval))) :
  Forall2 (λ x row, Ok (row_of x) = Ok row) l rows → rows = map row_of l.
Proof.
  induction 1 as [|x row l rows Hrow _ IH]; simpl; [reflexivity|].
  injection Hrow as <-. rewrite IH. reflexivity.
Qed.

(** X14.  [weapons.csv], once it could be opened, is always written in
    full: the block returns normally and the file holds the header and one
    record for each weapon of the collection, in ascending order of the
    weapon IDs, whatever the order in which the weapons were parsed (and
    nothing at all for an empty collection). *)
Theorem weapons_csv_is_sorted_by_id (E : env) (output_dir : string) (s : state) :
  open_w E (path_join output_dir "weapons.csv") = None →
  ∃ ordered,
    ordered ≡ₚ values (weapons s) ∧
    ascending (map Weapon.id ordered) ∧
    snd (export_weapons_csv E output_dir s) = Ok () ∧
    files (fst (export_weapons_csv E output_dir s))
      !! path_join output_dir "weapons.csv" =
    Some (csv_document weapon_fieldnames (weapons s) (map weapon_row ordered)).
Proof.
  intros Hopen.
  destruct (export_weapons_csv_result E output_dir s Hopen)
    as (rows & Hfile & _ & Hok & Hraise & _).
  destruct (snd (export_weapons_csv E output_dir s)) as [[]|e] eqn:Hres.
  - destruct (Hok eq_refl) as (ordered & Hperm & Hsort & Hrows).
    exists ordered. split; [exact Hperm|]. split.
    + destruct (weapons s) as [|entry entries] eqn:Hw.
      * apply Permutation_nil_r in Hperm. subst ordered. exact I.
      * apply (sorted_by_ascending Weapon.id (values (entry :: entries))).
        apply Hsort. discriminate.
    + split; [reflexivity|].
      rewrite Hfile, (rows_of_total weapon_row ordered rows Hrows). reflexivity.
  - exfalso. destruct (Hraise e eq_refl) as [_ [Hsort|(x & _ & Hx)]].
    + destruct (sorted_by_total Weapon.id int_lt (values (weapons s)) int_lt_total)
        as [l' Hl']. congruence.
    + discriminate.
Qed.

Lemma weapons_csv_is_sorted_by_id_witness :
  ∃ ordered,
    ordered ≡ₚ values (weapons three_weapons) ∧
    ascending (map Weapon.id ordered) ∧
    snd (export_weapons_csv empty_env "out" three_weapons) = Ok () ∧
    files (fst (export_weapons_csv empty_env "out" three_weapons))
      !! path_join "out" "weapons.csv" =
    Some (csv_document weapon_fieldnames (weapons three_weapons)
            (map weapon_row ordered)).
Proof.
  exact (weapons_csv_is_sorted_by_id empty_env "out" three_weapons eq_refl).
Defined.

(** ** The groups of the JSON export *)

Lemma lookup_group_append (k k' : string) (x : pyval)
    (groups : list (string * list pyval)) :
  lookup_key k' (group_append k x groups) =
  if String.eqb k' k then Some (group_of k groups ++ [x])%list
  else lookup_key k' groups.
Proof.
  unfold group_of. induction groups as [|[k0 xs] groups IH]; simpl.
  - destruct (String.eqb k' k); reflexivity.
  - destruct (String.eqb_spec k k0) as [->|Hne]; simpl.
    + destruct (String.eqb_spec k' k0); reflexivity.
    + rewrite IH. destruct (String.eqb_spec k' k0) as [->|_]; [|reflexivity].
      destruct (String.eqb_spec k0 k); [congruence | reflexivity].
Qed.

Lemma group_append_keys (k k' : string) (x : pyval)
    (groups : list (string * list pyval)) :
  k' ∈ map fst (group_append k x groups) → k' = k ∨ k' ∈ map fst groups.
Proof.
  induction groups as [|[k0 xs] groups IH]; simpl.
  - intros H. apply list_elem_of_In in H. simpl in H.
    destruct H as [<-|[]]. left. reflexivity.
  - destruct (String.eqb_spec k k0) as [->|Hne]; simpl; intros H.
    + right. exact H.
    + apply elem_of_cons in H as [->|H].
      * right. left.
      * destruct (IH H) as [->|Hin]; [left; reflexivity | right; right; exact Hin].
Qed.

Lemma group_append_NoDup (k : string) (x : pyval)
    (groups : list (string * list pyval)) :
  NoDup (map fst groups) → NoDup (map fst (group_append k x groups)).
Proof.
  induction groups as [|[k0 xs] groups IH]; simpl; intros Hnd.
  - repeat constructor. intros H. inversion H.
  - apply NoDup_cons in Hnd as [Hk0 Hnd].
    destruct (String.eqb_spec k k0) as [->|Hne]; simpl.
    + apply NoDup_cons. split; assumption.
    + apply NoDup_cons. split; [|exact (IH Hnd)].
      intros H. apply group_append_keys in H as [->|H]; [congruence | exact (Hk0 H)].
Qed.

Lemma group_by_type_groups {A} (type_name : A → string) (record : A → result pyval)
    (l : list A) (start groups : list (string * list pyval)) :
  group_by_type type_name record l start = Ok groups →
  NoDup (map fst start) →
  NoDup (map fst groups) ∧
  ∀ k, ∃ rs,
    Forall2 (λ x r, record x = Ok r) (of_type type_name k l) rs ∧
    group_of k groups = (group_of k start ++ rs)%list ∧
    (lookup_key k groups = None ↔
     lookup_key k start = None ∧ of_type type_name k l = []).
Proof.
  revert start. induction l as [|x l IH]; intros start H Hnd; simpl in H.
  - injection H as <-. split; [exact Hnd|]. intros k. exists [].
    split; [constructor|]. split; [rewrite app_nil_r; reflexivity|]. tauto.
  - apply bind_ok in H as (r & Hr & H).
    destruct (IH _ H (group_append_NoDup (type_name x) r start Hnd)) as [Hnd' Hgroups].
    split; [exact Hnd'|]. intros k.
    destruct (Hgroups k) as (rs & Hrs & Hgroup & Hnone).
    unfold of_type in *. rewrite filter_cons.
    unfold group_of in Hgroup at 2. rewrite lookup_group_append in Hgroup, Hnone.
    destruct (decide (type_name x = k)) as [<-|Hne].
    + rewrite String.eqb_refl in Hgroup, Hnone. simpl in Hgroup.
      exists (r :: rs). split; [constructor; assumption|].
      split; [rewrite Hgroup, <- app_assoc; reflexivity|].
      split; [intros Hk; apply Hnone in Hk as [Hk _]; discriminate|].
      intros [_ Hk]. discriminate.
    + destruct (String.eqb_spec k (type_name x)) as [->|_]; [congruence|].
      exists rs. split; [exact Hrs|]. split; [exact Hgroup | exact Hnone].
Qed.

(** X15.  The grouping of [export_to_json], when it returns: no type name
    heads two groups; the group of a type name holds the records of exactly
    the entities of that type name, one for each, in the order of the
    collection; and there is a group for a type name exactly when some
    entity has it, so no group is empty. *)
Theorem groups_partition_the_collection {A} (type_name : A → string)
    (record : A → result pyval) (l : list A) (groups : list (string * list pyval)) :
  group_by_type type_name record l [] = Ok groups →
  NoDup (map fst groups) ∧
  ∀ k,
    Forall2 (λ x r, record x = Ok r) (of_type type_name k l) (group_of k groups) ∧
    (lookup_key k groups = None ↔ of_type type_name k l = []).
Proof.
  intros H.
  destruct (group_by_type_groups type_name record l [] groups H (NoDup_nil_2 (A:=string)))
    as [Hnd Hgroups].
  split; [exact Hnd|]. intros k.
  destruct (Hgroups k) as (rs & Hrs & Hgroup & Hnone).
  simpl in Hgroup. rewrite Hgroup. split; [exact Hrs|].
  rewrite Hnone. simpl. tauto.
Qed.

Lemma groups_partition_the_collection_witness :
  ∃ groups,
    group_by_type Equipment.type_name equipment_json
      [formula_equipment; formula_equipment] [] = Ok groups ∧
    NoDup (map fst groups) ∧
    ∀ k,
      Forall2 (λ x r, equipment_json x = Ok r)
        (of_type Equipment.type_name k [formula_equipment; formula_equipment])
        (group_of k groups) ∧
      (lookup_key k groups = None ↔
       of_type Equipment.type_name k [formula_equipment; formula_equipment] = []).
Proof.
  eexists. split; [reflexivity|].
  apply (groups_partition_the_collection Equipment.type_name equipment_json
           [formula_equipment; formula_equipment]).
  reflexivity.
Defined.

(** ** [export_to_json] in full *)

Lemma dump_run (E : env) (path : string) (document : pyval) (s : state) :
  open_w E path = None →
  dump E path document s =
  ({| equipment := equipment s; ships := ships s; weapons := weapons s;
      weapon_names := weapon_names s;
      files := <[path := json_dumps 0 document]> (files s);
      stdout := stdout s |}, Ok ()).
Proof.
  intros Hopen. unfold dump.
  rewrite bind_run, (open_for_writing_run E path s Hopen), write_run. state_simpl.
  rewrite lookup_insert_eq, insert_insert_eq. reflexivity.
Qed.

Lemma dump_locked (E : env) (path : string) (document : pyval) (s : state)
    (e : exn) :
  open_w E path = Some e → dump E path document s = (s, Raise e).
Proof.
  intros Hopen. unfold dump, open_for_writing. rewrite bind_run, Hopen. reflexivity.
Qed.

(** X16.  [export_to_json] when the directory can be made, the three files
    opened and every record built: the method returns normally; the three
    files hold the serialized groups of the equipment, the groups of the
    ships and the summary (whose counts are those of the collections and
    whose type lists are the group names in order); three lines are
    printed; the collections are untouched. *)
Theorem export_to_json_outcome (E : env) (output_dir : string) (s : state)
    (equip_by_type ships_by_type : list (string * list pyval)) :
  makedirs E output_dir = None →
  Forall (λ name, open_w E (path_join output_dir name) = None) json_files →
  group_by_type Equipment.type_name equipment_json (values (equipment s)) []
    = Ok equip_by_type →
  group_by_type Ship.type_name ship_json (values (ships s)) [] = Ok ships_by_type →
  export_to_json E output_dir s =
  ({| equipment := equipment s; ships := ships s; weapons := weapons s;
      weapon_names := weapon_names s;
      files :=
        <[path_join output_dir "summary.json" :=
            json_dumps 0 (summary_document s equip_by_type ships_by_type)]>
          (<[path_join output_dir "ships_by_type.json" :=
               json_dumps 0 (groups_document ships_by_type)]>
             (<[path_join output_dir "equipment_by_type.json" :=
                  json_dumps 0 (groups_document equip_by_type)]> (files s)));
      stdout :=
        (stdout s ++
         [ Print "  Exported equipment to equipment_by_type.json";
           Print "  Exported ships to ships_by_type.json";
           Print "  Exported summary to summary.json" ])%list |},
   Ok ()).
Proof.
  intros Hdir Hopen He Hs.
  apply Forall_cons in Hopen as [Ho1 Hopen].
  apply Forall_cons in Hopen as [Ho2 Hopen].
  apply Forall_cons in Hopen as [Ho3 _].
  unfold export_to_json. rewrite Hdir.
  rewrite bind_run. unfold gets at 1. state_simpl.
  rewrite bind_run. unfold lift at 1. rewrite He.
  rewrite bind_run, (dump_run E _ _ _ Ho1). state_simpl.
  rewrite bind_run, print_run. state_simpl.
  rewrite bind_run. unfold gets at 1. state_simpl.
  rewrite bind_run. unfold lift at 1. rewrite Hs.
  rewrite bind_run, (dump_run E _ _ _ Ho2). state_simpl.
  rewrite bind_run, print_run. state_simpl.
  rewrite bind_run. unfold gets at 1. state_simpl.
  rewrite bind_run, (dump_run E _ _ _ Ho3). state_simpl.
  rewrite print_run. state_simpl.
  unfold summary_document. state_simpl.
  rewrite <- !app_assoc. reflexivity.
Qed.

Lemma export_to_json_outcome_witness :
  export_to_json empty_env "out" three_weapons =
  ({| equipment := []; ships := []; weapons := weapons three_weapons;
      weapon_names := [];
      files :=
        <[path_join "out" "summary.json" :=
            json_dumps 0 (summary_document three_weapons [] [])]>
          (<[path_join "out" "ships_by_type.json" := "{}"]>
             (<[path_join "out" "equipment_by_type.json" := "{}"]> ∅));
      stdout :=
        [ Print "  Exported equipment to equipment_by_type.json";
          Print "  Exported ships to ships_by_type.json";
          Print "  Exported summary to summary.json" ] |},
   Ok ()).
Proof.
  apply (export_to_json_outcome empty_env "out" three_weapons [] []).
  - reflexivity.
  - repeat constructor.
  - reflexivity.
  - reflexivity.
Defined.

(** X17.  [export_to_json] has no [try] and undoes nothing: when the
    second file cannot be opened, the export raises the error of [open]
    after [equipment_by_type.json] has been written in full and its line
    printed; [ships_by_type.json] and [summary.json] are left as they
    were. *)
Theorem json_export_stops_at_a_locked_file (E : env) (output_dir : string)
    (s : state) (equip_by_type : list (string * list pyval)) (e : exn) :
  makedirs E output_dir = None →
  open_w E (path_join output_dir "equipment_by_type.json") = None →
  open_w E (path_join output_dir "ships_by_type.json") = Some e →
  group_by_type Equipment.type_name equipment_json (values (equipment s)) []
    = Ok equip_by_type →
  is_ok (group_by_type Ship.type_name ship_json (values (ships s)) []) = true →
  export_to_json E output_dir s =
  ({| equipment := equipment s; ships := ships s; weapons := weapons s;
      weapon_names := weapon_names s;
      files :=
        <[path_join output_dir "equipment_by_type.json" :=
            json_dumps 0 (groups_document equip_by_type)]> (files s);
      stdout :=
        (stdout s ++ [Print "  Exported equipment to equipment_by_type.json"])%list |},
   Raise e).
Proof.
  intros Hdir Ho1 Ho2 He Hs.
  unfold export_to_json. rewrite Hdir.
  rewrite bind_run. unfold gets at 1. state_simpl.
  rewrite bind_run. unfold lift at 1. rewrite He.
  rewrite bind_run, (dump_run E _ _ _ Ho1). state_simpl.
  rewrite bind_run, print_run. state_simpl.
  rewrite bind_run. unfold gets at 1. state_simpl.
  rewrite bind_run. unfold lift at 1.
  destruct (group_by_type Ship.type_name ship_json (values (ships s)) [])
    as [ships_by_type|e']; [|discriminate].
  rewrite bind_run, (dump_locked E _ _ _ e Ho2). reflexivity.
Qed.

Lemma json_export_stops_at_a_locked_file_witness :
  export_to_json second_file_locked_env "out" three_weapons =
  ({| equipment := []; ships := []; weapons := weapons three_weapons;
      weapon_names := [];
      files := <[path_join "out" "equipment_by_type.json" := "{}"]> ∅;
      stdout := [Print "  Exported equipment to equipment_by_type.json"] |},
   Raise (OSError "Permission denied")).
Proof.
  apply (json_export_stops_at_a_locked_file second_file_locked_env "out"
           three_weapons [] (OSError "Permission denied")); reflexivity.
Defined.

(** ** Codes that cannot be looked up *)

Lemma py_lt_raises : ∀ (a b : pyval) (e : exn), py_lt a b = Raise e → e = TypeError.
Proof.
  fix IH 1. intros a b e.
  destruct a as [|x|x|x|l|d]; destruct b as [|y|y|y|m|d']; simpl; try congruence.
  revert l m. fix go 1. intros l m.
  destruct l as [|x l']; destruct m as [|y m']; try congruence.
  destruct (py_eq x y).
  - apply go.
  - apply IH.
Qed.

Lemma tuple_lt_raises (l m : list pyval) (e : exn) :
  tuple_lt l m = Raise e → e = TypeError.
Proof.
  revert m. induction l as [|x l IH]; intros m; destruct m as [|y m]; simpl;
    try congruence.
  destruct (py_eq x y); [apply IH | apply py_lt_raises].
Qed.

Section SortRaises.
Context {A K : Type} (key : A → K) (lt : K → K → result bool).
Hypothesis lt_raises : ∀ a b e, lt a b = Raise e → e = TypeError.

Lemma insert_by_raises (x : A) (l : list A) (e : exn) :
  insert_by key lt x l = Raise e → e = TypeError.
Proof.
  induction l as [|y l IH]; simpl; [discriminate|].
  destruct (lt (key y) (key x)) as [[]|e'] eqn:Hlt; simpl.
  - destruct (insert_by key lt x l) as [r|e'']; simpl; [discriminate|].
    intros [= <-]. apply IH. reflexivity.
  - discriminate.
  - intros [= <-]. exact (lt_raises _ _ _ Hlt).
Qed.

Lemma sorted_by_raises (l : list A) (e : exn) :
  sorted_by key lt l = Raise e → e = TypeError.
Proof.
  induction l as [|x l IH]; simpl; [discriminate|].
  destruct (sorted_by key lt l) as [r|e'] eqn:Hr; simpl.
  - apply insert_by_raises.
  - intros [= <-]. apply IH. reflexivity.
Qed.

End SortRaises.

Lemma equipment_row_raises (equip : Equipment.t) (e : exn) :
  equipment_row equip = Raise e → e = TypeError.
Proof.
  unfold equipment_row, int_key_get.
  destruct (py_hashable (Equipment.rarity equip)); simpl; [|congruence].
  destruct (py_hashable (Equipment.nationality equip)); simpl; [|congruence].
  destruct (Equipment.weapon_ids equip); simpl; congruence.
Qed.

Lemma equipment_row_unhashable (equip : Equipment.t) :
  py_hashable (Equipment.rarity equip) = false ∨
  py_hashable (Equipment.nationality equip) = false →
  equipment_row equip = Raise TypeError.
Proof.
  unfold equipment_row, int_key_get. intros [H|H].
  - rewrite H. reflexivity.
  - rewrite H. destruct (py_hashable (Equipment.rarity equip)); reflexivity.
Qed.

(** X18.  Parsing takes any JSON value as a rarity or a nationality, and
    the export looks the code up in a dict: an equipment item whose rarity
    or nationality is a list or an object makes [export_to_csv] raise
    [TypeError], from the sort or from the row of the item, outside any
    [try]; the export ends in the equipment block, and [ships.csv] and
    [weapons.csv] are not touched. *)
Theorem unhashable_code_stops_the_csv_export (E : env) (output_dir : string)
    (s : state) (equip : Equipment.t) :
  makedirs E output_dir = None →
  open_w E (path_join output_dir "equipment.csv") = None →
  equip ∈ values (equipment s) →
  py_hashable (Equipment.rarity equip) = false ∨
  py_hashable (Equipment.nationality equip) = false →
  snd (export_to_csv E output_dir s) = Raise TypeError ∧
  files (fst (export_to_csv E output_dir s)) !! path_join output_dir "ships.csv" =
  files s !! path_join output_dir "ships.csv" ∧
  files (fst (export_to_csv E output_dir s)) !! path_join output_dir "weapons.csv" =
  files s !! path_join output_dir "weapons.csv".
Proof.
  intros Hdir Hopen Hin Hbad.
  rewrite (export_to_csv_blocks E output_dir s Hdir). cbv zeta.
  set (s0 := fst (print _ s)).
  assert (Hs0 : equipment s0 = equipment s ∧ files s0 = files s) by (split; reflexivity).
  destruct Hs0 as [He0 Hf0].
  destruct (export_equipment_csv_result E output_dir s0 Hopen)
    as (rows & _ & _ & Hok & Hraise & Hframe & _).
  destruct (snd (export_equipment_csv E output_dir s0)) as [[]|e] eqn:Hres.
  - exfalso. destruct (Hok eq_refl) as (ordered & Hperm & _ & Hrows).
    rewrite He0 in Hperm. rewrite <- Hperm in Hin.
    apply list_elem_of_In in Hin.
    clear - Hrows Hin Hbad.
    induction Hrows as [|x row ordered rows Hrow _ IH]; [destruct Hin|].
    destruct Hin as [->|Hin]; [|exact (IH Hin)].
    rewrite (equipment_row_unhashable equip Hbad) in Hrow. discriminate.
  - assert (e = TypeError) as ->.
    { destruct (Hraise e eq_refl) as [_ [Hsort | (x & _ & Hx)]].
      - exact (sorted_by_raises equipment_sort_key tuple_lt tuple_lt_raises _ _ Hsort).
      - exact (equipment_row_raises x e Hx). }
    simpl. split; [reflexivity|].
    rewrite <- Hf0. split; apply Hframe; apply path_join_ne; discriminate.
Qed.

Lemma unhashable_code_stops_the_csv_export_witness :
  snd (export_to_csv empty_env "out" odd_rarity_state) = Raise TypeError ∧
  files (fst (export_to_csv empty_env "out" odd_rarity_state))
    !! path_join "out" "ships.csv" = None ∧
  files (fst (export_to_csv empty_env "out" odd_rarity_state))
    !! path_join "out" "weapons.csv" = None.
Proof.
  assert (H : ∃ equip,
            values (equipment odd_rarity_state) = [equip] ∧
            Equipment.rarity equip = VList []).
  { eexists. split; reflexivity. }
  destruct H as (equip & Hvalues & Hrarity).
  apply (unhashable_code_stops_the_csv_export empty_env "out" odd_rarity_state equip).
  - reflexivity.
  - reflexivity.
  - rewrite Hvalues. left.
  - left. rewrite Hrarity. reflexivity.
Defined.

(** * Further properties of the progress tracker *)

Section ProgressUpdates.
Import Progress.
#[local] Arguments py_eq : simpl never.

Lemma others_remove_first (i : string) (l : list pyval) :
  filter (λ y, py_eq (VStr i) y = false) (remove_first (VStr i) l) =
  filter (λ y, py_eq (VStr i) y = false) l.
Proof.
  induction l as [|y l IH]; simpl; [reflexivity|].
  rewrite filter_cons. destruct (py_eq (VStr i) y) eqn:Hy.
  - rewrite decide_False by congruence. reflexivity.
  - rewrite decide_True by reflexivity. rewrite filter_cons, decide_True by exact Hy.
    rewrite IH. reflexivity.
Qed.

Lemma others_cleaned (i : string) (v : pyval) :
  filter (λ y, py_eq (VStr i) y = false) (items_of (cleaned i v)) =
  filter (λ y, py_eq (VStr i) y = false) (items_of v).
Proof.
  destruct v as [| | | |l|]; try reflexivity. simpl.
  destruct (existsb (py_eq (VStr i)) l); [|reflexivity].
  apply others_remove_first.
Qed.

Lemma others_appended (i : string) (l : list pyval) :
  filter (λ y, py_eq (VStr i) y = false) (l ++ [VStr i])%list =
  filter (λ y, py_eq (VStr i) y = false) l.
Proof.
  rewrite filter_app, filter_cons, decide_False, filter_nil, app_nil_r; [reflexivity|].
  rewrite (proj2 (py_eq_str i (VStr i)) eq_refl). discriminate.
Qed.

(** X19.  An update concerns its item alone: in each of the four buckets,
    the entries other than the item are after the update the entries they
    were before, in the same order, whatever the status and whatever the
    file held (a bucket that was missing or no list counts as empty). *)
Theorem update_leaves_other_items (now item_name status : string) (raw : pyval) :
  Forall (λ name,
    others item_name (lookup_key name (updated now item_name status raw)) =
    others item_name (lookup_key name (as_progress raw)))
    bucket_names.
Proof.
  apply Forall_forall. intros name Hin. apply list_elem_of_In in Hin.
  rewrite (updated_lookup now item_name status raw name Hin). cbv zeta.
  unfold others.
  set (v := default (VList []) (lookup_key name (as_progress raw))).
  destruct (existsb (String.eqb status) bucket_names && String.eqb name status);
    simpl.
  - rewrite others_appended. apply others_cleaned.
  - apply others_cleaned.
Qed.

Lemma updated_other_keys (now item_name status : string) (raw : pyval) (k : string) :
  ¬ In k bucket_names → k ≠ "last_updated" →
  lookup_key k (updated now item_name status raw) =
  match lookup_key k (as_progress raw) with
  | Some v => Some v
  | None => lookup_key k required_keys
  end.
Proof.
  intros Hk Hlast. unfold updated. rewrite lookup_set_key.
  destruct (String.eqb_spec k "last_updated") as [->|_]; [congruence|].
  assert (Hadd : ∀ d, lookup_key k (add_to_bucket item_name status d) = lookup_key k d).
  { intros d. unfold add_to_bucket.
    destruct (existsb (String.eqb status) bucket_names) eqn:Hvalid; [|reflexivity].
    rewrite lookup_set_key. destruct (String.eqb_spec k status) as [->|_]; [|reflexivity].
    exfalso. apply Hk. apply existsb_exists in Hvalid as (b & Hb & Heq).
    apply String.eqb_eq in Heq. subst b. exact Hb. }
  rewrite Hadd, (remove_from_buckets_other _ _ _ Hk). apply ensure_keys_lookup.
Qed.

(** X20.  What an update does to the rest of the document: [last_updated]
    is the time of the update; every key that is neither a bucket nor
    [last_updated] keeps the value the file gave it (so the retry queue and
    any key the tracker does not know survive), and [retry_queue] is the
    empty list when the file had none; all six keys of the tracker are
    present afterwards. *)
Theorem update_keeps_the_rest (now item_name status : string) (raw : pyval) :
  lookup_key "last_updated" (updated now item_name status raw) = Some (VStr now) ∧
  (∀ k v, ¬ In k bucket_names → k ≠ "last_updated" →
          lookup_key k (as_progress raw) = Some v →
          lookup_key k (updated now item_name status raw) = Some v) ∧
  (lookup_key "retry_queue" (as_progress raw) = None →
   lookup_key "retry_queue" (updated now item_name status raw) = Some (VList [])) ∧
  Forall (λ kd, is_Some (lookup_key (fst kd) (updated now item_name status raw)))
    required_keys.
Proof.
  assert (Hnot : ¬ In "retry_queue" bucket_names).
  { simpl. intros [H|[H|[H|[H|[]]]]]; discriminate. }
  split; [|split; [|split]].
  - unfold updated. rewrite lookup_set_key. reflexivity.
  - intros k v Hk Hlast Hv. rewrite (updated_other_keys _ _ _ _ _ Hk Hlast), Hv.
    reflexivity.
  - intros Hnone. rewrite (updated_other_keys _ _ _ _ _ Hnot) by discriminate.
    rewrite Hnone. reflexivity.
  - assert (Hbucket : ∀ name, In name bucket_names →
              is_Some (lookup_key name (updated now item_name status raw))).
    { intros name Hin. rewrite (updated_lookup _ _ _ _ _ Hin). cbv zeta.
      destruct (_ && _); eauto. }
    repeat constructor; simpl fst;
      try (apply Hbucket; simpl; tauto).
    + rewrite (updated_other_keys _ _ _ _ _ Hnot) by discriminate.
      destruct (lookup_key "retry_queue" (as_progress raw)); simpl; eauto.
    + unfold updated. rewrite lookup_set_key. simpl. eauto.
Qed.

(** X21.  What counts as no progress at all: a file that holds a JSON value
    other than an object (a list of names, say), or an empty object, is
    treated like a missing file: the update writes the document it would
    write without any file, and what the file held is dropped. *)
Theorem unusable_progress_file_is_reset (now item_name status : string)
    (raw : pyval) :
  no_object raw ∨ raw = VDict [] →
  update_progress now item_name status (Loaded raw) =
  update_progress now item_name status NotFound.
Proof.
  intros Hraw.
  unfold update_progress. simpl. f_equal. f_equal. unfold updated.
  assert (as_progress raw = []) as ->; [|reflexivity].
  destruct Hraw as [Hno | ->]; [|reflexivity].
  destruct raw; try reflexivity. exfalso. exact (Hno d eq_refl).
Qed.

End ProgressUpdates.

Lemma unusable_progress_file_is_reset_witness :
  Progress.update_progress "t" "x" "basic" (Loaded (VList [VStr "a"; VStr "b"])) =
  Progress.update_progress "t" "x" "basic" NotFound.
Proof.
  apply (unusable_progress_file_is_reset "t" "x" "basic" (VList [VStr "a"; VStr "b"])).
  left. intros d. discriminate.
Defined.

Section ProgressRepeats.
Import Progress.
#[local] Arguments py_eq : simpl never.

Lemma cleaned_without_item (i : string) (v : pyval) :
  occurrences i (Some v) = 0%nat → cleaned i v = v.
Proof.
  destruct v as [| | | |l|]; try reflexivity. simpl. intros Hzero.
  destruct (existsb (py_eq (VStr i)) l) eqn:Hex; [|reflexivity].
  exfalso. apply existsb_exists in Hex as (y & Hy & Hiy).
  assert (Hin : y ∈ filter (λ y, py_eq (VStr i) y = true) l).
  { apply list_elem_of_filter. split; [exact Hiy | apply list_elem_of_In; exact Hy]. }
  destruct (filter _ l); [inversion Hin | discriminate].
Qed.

Lemma remove_first_appended (i : string) (l : list pyval) :
  existsb (py_eq (VStr i)) l = false →
  remove_first (VStr i) (l ++ [VStr i])%list = l.
Proof.
  induction l as [|y l IH]; simpl.
  - intros _. rewrite (proj2 (py_eq_str i (VStr i)) eq_refl). reflexivity.
  - intros [Hy Hl]%orb_false_elim. rewrite Hy, (IH Hl). reflexivity.
Qed.

Lemma existsb_none (i : string) (l : list pyval) :
  count_of i l = 0%nat → existsb (py_eq (VStr i)) l = false.
Proof.
  induction l as [|y l IH]; simpl; [reflexivity|].
  rewrite count_of_cons. destruct (py_eq (VStr i) y); simpl; [discriminate|].
  exact IH.
Qed.

(** X22.  Repeating an update changes nothing but the time: for a file in
    which no bucket lists the item twice, the document after two updates
    of the item with the same status holds, under every key, what the
    document after the second update alone would hold. *)
Theorem repeated_update_changes_nothing (now earlier item_name status : string)
    (raw : pyval) (k : string) :
  (∀ name, In name bucket_names →
     (occurrences item_name (lookup_key name (as_progress raw)) ≤ 1)%nat) →
  lookup_key k
    (updated now item_name status (VDict (updated earlier item_name status raw))) =
  lookup_key k (updated now item_name status raw).
Proof.
  intros Hocc.
  destruct (in_dec String.string_dec k bucket_names) as [Hin|Hout].
  - rewrite !(updated_lookup _ _ _ _ _ Hin), updated_truthy. cbv zeta.
    rewrite (updated_lookup _ _ _ _ _ Hin). cbv zeta.
    set (v := default (VList []) (lookup_key k (as_progress raw))).
    assert (Hzero : occurrences item_name (Some (cleaned item_name v)) = 0%nat).
    { apply (proj2 (occurrences_cleaned item_name item_name v)).
      unfold v. specialize (Hocc k Hin).
      destruct (lookup_key k (as_progress raw)); simpl in *; [exact Hocc | lia]. }
    destruct (existsb (String.eqb status) bucket_names && String.eqb k status); simpl.
    + unfold cleaned at 1. rewrite existsb_app. simpl.
      rewrite (proj2 (py_eq_str item_name (VStr item_name)) eq_refl).
      rewrite !orb_true_r. rewrite remove_first_appended; [reflexivity|].
      apply existsb_none. rewrite count_of_items. exact Hzero.
    + rewrite (cleaned_without_item _ _ Hzero). reflexivity.
  - destruct (String.eqb_spec k "last_updated") as [->|Hlast].
    + unfold updated. rewrite !lookup_set_key. reflexivity.
    + rewrite !(updated_other_keys _ _ _ _ _ Hout Hlast), updated_truthy.
      rewrite (updated_other_keys _ _ _ _ _ Hout Hlast).
      destruct (lookup_key k (as_progress raw)); [reflexivity|].
      destruct (lookup_key k required_keys); reflexivity.
Qed.

End ProgressRepeats.

Lemma repeated_update_changes_nothing_witness :
  lookup_key "basic"
    (Progress.updated "t2" "x" "basic"
       (VDict (Progress.updated "t1" "x" "basic" mixed_progress))) =
  lookup_key "basic" (Progress.updated "t2" "x" "basic" mixed_progress).
Proof.
  apply (repeated_update_changes_nothing "t2" "t1" "x" "basic" mixed_progress "basic").
  intros name [<-|[<-|[<-|[<-|[]]]]]; simpl; lia.
Defined.

(** * The collection scripts *)

Section ScriptFacts.
Import Scripts.
#[local] Arguments py_eq : simpl never.

(** ** The update of the progress file, for strings *)

Lemma bucket_named_text (status : string) :
  bucket_named (VStr status) =
  if existsb (String.eqb status) Progress.bucket_names then Some status else None.
Proof.
  unfold bucket_named, Progress.bucket_names. simpl.
  change (py_eq (VStr status) (VStr "basic")) with (String.eqb status "basic").
  change (py_eq (VStr status) (VStr "completed")) with (String.eqb status "completed").
  change (py_eq (VStr status) (VStr "partial")) with (String.eqb status "partial").
  change (py_eq (VStr status) (VStr "failed")) with (String.eqb status "failed").
  destruct (String.eqb_spec status "basic") as [->|_]; [reflexivity|].
  destruct (String.eqb_spec status "completed") as [->|_]; [reflexivity|].
  destruct (String.eqb_spec status "partial") as [->|_]; [reflexivity|].
  destruct (String.eqb_spec status "failed") as [->|_]; reflexivity.
Qed.

Lemma add_to_bucket_of_strings (item_name status : string)
    (progress : list (string * pyval)) :
  add_to_bucket (VStr item_name) (VStr status) progress =
  Progress.add_to_bucket item_name status progress.
Proof.
  unfold add_to_bucket, Progress.add_to_bucket. rewrite bucket_named_text.
  destruct (existsb (String.eqb status) Progress.bucket_names); reflexivity.
Qed.

Lemma remove_from_buckets_of_strings (item_name : string)
    (progress : list (string * pyval)) :
  remove_from_buckets (VStr item_name) progress =
  Progress.remove_from_buckets item_name progress.
Proof. reflexivity. Qed.

Lemma updated_of_strings (now item_name status : string) (raw : pyval) :
  updated now (VStr item_name) (VStr status) raw =
  Progress.updated now item_name status raw.
Proof.
  unfold updated, Progress.updated.
  rewrite add_to_bucket_of_strings, remove_from_buckets_of_strings. reflexivity.
Qed.

(** ** [save_item]: replace or append *)

Lemma replace_first_none (item_data : pyval) (l : list pyval) (name : pyval) :
  item_name_of item_data = Ok name →
  Forall (λ x, ∃ n, item_name_of x = Ok n ∧ py_eq n name = false) l →
  replace_first item_data l = Ok None.
Proof.
  intros Hname. induction 1 as [|x l (n & Hn & Hne) _ IH]; simpl; [reflexivity|].
  rewrite Hn, Hname. simpl. rewrite Hne, IH. reflexivity.
Qed.

Lemma replace_first_some (item_data : pyval) (before after : list pyval)
    (x name n : pyval) :
  item_name_of item_data = Ok name →
  Forall (λ y, ∃ m, item_name_of y = Ok m ∧ py_eq m name = false) before →
  item_name_of x = Ok n → py_eq n name = true →
  replace_first item_data (before ++ x :: after) =
  Ok (Some (before ++ item_data :: after)%list).
Proof.
  intros Hname Hbefore Hn Heq.
  induction Hbefore as [|y before (m & Hm & Hne) _ IH]; simpl.
  - rewrite Hn, Hname. simpl. rewrite Heq. reflexivity.
  - rewrite Hm, Hname. simpl. rewrite Hne, IH. reflexivity.
Qed.

(** A list of named items splits at the first item of a given name, if it
    has one. *)
Lemma first_of_name (name : pyval) (l : list pyval) :
  Forall (λ x, is_ok (item_name_of x) = true) l →
  Forall (λ x, ∃ n, item_name_of x = Ok n ∧ py_eq n name = false) l ∨
  ∃ before x after n,
    l = (before ++ x :: after)%list ∧
    Forall (λ y, ∃ m, item_name_of y = Ok m ∧ py_eq m name = false) before ∧
    item_name_of x = Ok n ∧ py_eq n name = true.
Proof.
  induction 1 as [|x l Hx _ IH].
  - left. constructor.
  - destruct (item_name_of x) as [n|e] eqn:Hn; [|discriminate].
    destruct (py_eq n name) eqn:Heq.
    + right. exists [], x, l, n. repeat split; [constructor | exact Hn | exact Heq].
    + destruct IH as [Hnone | (before & y & after & m & -> & Hbefore & Hm & Hy)].
      * left. constructor; [exists n; split; assumption | exact Hnone].
      * right. exists (x :: before), y, after, m.
        repeat split; [|exact Hm | exact Hy].
        constructor; [exists n; split; assumption | exact Hbefore].
Qed.

(** X23.  What [save_item] makes of the list of a file whose entries all
    have a name: when no entry has the name of the new item, the item is
    appended; otherwise the item takes the place of the first entry of
    that name and nothing else changes, so later entries of the same name
    stay as they are. *)
Theorem upsert_replaces_or_appends (item_data name : pyval) (l : list pyval) :
  item_name_of item_data = Ok name →
  Forall (λ x, is_ok (item_name_of x) = true) l →
  (Forall (λ x, ∃ n, item_name_of x = Ok n ∧ py_eq n name = false) l ∧
   upsert item_data (VList l) = Ok (VList (l ++ [item_data])%list)) ∨
  (∃ before x after n,
     l = (before ++ x :: after)%list ∧
     Forall (λ y, ∃ m, item_name_of y = Ok m ∧ py_eq m name = false) before ∧
     item_name_of x = Ok n ∧ py_eq n name = true ∧
     upsert item_data (VList l) = Ok (VList (before ++ item_data :: after)%list)).
Proof.
  intros Hname Hall.
  destruct (first_of_name name l Hall)
    as [Hnone | (before & x & after & n & -> & Hbefore & Hn & Heq)].
  - left. split; [exact Hnone|]. unfold upsert. simpl.
    rewrite (replace_first_none item_data l name Hname Hnone). reflexivity.
  - right. exists before, x, after, n. repeat split; try assumption.
    unfold upsert. simpl.
    rewrite (replace_first_some item_data before after x name n Hname Hbefore Hn Heq).
    reflexivity.
Qed.

Lemma upsert_replaces_or_appends_witness :
  let item_data := stored_item "b" "new" in
  let l := [stored_item "a" "1"; stored_item "b" "2"; stored_item "b" "3"] in
  (Forall (λ x, ∃ n, item_name_of x = Ok n ∧ py_eq n (VStr "b") = false) l ∧
   upsert item_data (VList l) = Ok (VList (l ++ [item_data])%list)) ∨
  (∃ before x after n,
     l = (before ++ x :: after)%list ∧
     Forall (λ y, ∃ m, item_name_of y = Ok m ∧ py_eq m (VStr "b") = false) before ∧
     item_name_of x = Ok n ∧ py_eq n (VStr "b") = true ∧
     upsert item_data (VList l) = Ok (VList (before ++ item_data :: after)%list)).
Proof.
  apply (upsert_replaces_or_appends (stored_item "b" "new") (VStr "b")
           [stored_item "a" "1"; stored_item "b" "2"; stored_item "b" "3"]).
  - reflexivity.
  - repeat constructor.
Defined.

(** X24.  Saving an item a second time changes nothing: for an item whose
    name is a string and a list whose entries all have a name, the list
    that [save_item] writes is left as it is by a second save of the same
    item. *)
Theorem saved_twice_is_saved_once (item_data : pyval) (name : string)
    (l l' : list pyval) :
  item_name_of item_data = Ok (VStr name) →
  Forall (λ x, is_ok (item_name_of x) = true) l →
  upsert item_data (VList l) = Ok (VList l') →
  upsert item_data (VList l') = Ok (VList l').
Proof.
  intros Hname Hall Hfirst.
  assert (Hself : py_eq (VStr name) (VStr name) = true)
    by exact (proj2 (py_eq_str name (VStr name)) eq_refl).
  destruct (first_of_name (VStr name) l Hall)
    as [Hnone | (before & x & after & n & -> & Hbefore & Hn & Heq)];
    unfold upsert in *; simpl in *.
  - rewrite (replace_first_none item_data l (VStr name) Hname Hnone) in Hfirst.
    injection Hfirst as <-.
    rewrite (replace_first_some item_data l [] item_data (VStr name) (VStr name)
               Hname Hnone Hname Hself). reflexivity.
  - rewrite (replace_first_some item_data before after x (VStr name) n
               Hname Hbefore Hn Heq) in Hfirst.
    injection Hfirst as <-.
    rewrite (replace_first_some item_data before after item_data (VStr name) (VStr name)
               Hname Hbefore Hname Hself). reflexivity.
Qed.

Lemma saved_twice_is_saved_once_witness :
  upsert (stored_item "b" "new")
    (VList [stored_item "a" "1"; stored_item "b" "new"]) =
  Ok (VList [stored_item "a" "1"; stored_item "b" "new"]).
Proof.
  apply (saved_twice_is_saved_once (stored_item "b" "new") "b"
           [stored_item "a" "1"; stored_item "b" "old"]).
  - reflexivity.
  - repeat constructor.
  - reflexivity.
Defined.

End ScriptFacts.

Section ScraperFacts.
Import Scripts.
#[local] Arguments py_eq : simpl never.

(** ** The shape of a scraped item *)

Lemma dict_update_keeps (k : string) (target other : list (string * pyval)) :
  is_Some (lookup_key k target) → is_Some (lookup_key k (dict_update target other)).
Proof.
  unfold dict_update. revert target.
  induction other as [|[k0 v0] other IH]; intros target H; simpl; [exact H|].
  apply IH. rewrite lookup_set_key. destruct (String.eqb k k0); [eauto | exact H].
Qed.

Lemma merge_sections_well_formed (item_data data : list (string * pyval)) :
  well_formed_item item_data → well_formed_item (merge_sections item_data data).
Proof.
  unfold merge_sections. revert item_data.
  induction data as [|[k v] data IH]; intros item_data H; simpl; [exact H|].
  apply IH. cbn [fst snd]. destruct H as (identity & metadata & Hi & Hn & Hm & Hc).
  destruct (lookup_key k item_data) as [[| | | | |section]|] eqn:Hk;
    try solve [exists identity, metadata; repeat split; assumption].
  destruct v; try solve [exists identity, metadata; repeat split; assumption].
  unfold well_formed_item. rewrite !lookup_set_key.
  destruct (String.eqb_spec "identity" k) as [Heq1|Hne1].
  - subst k. simpl. rewrite Hi in Hk. injection Hk as <-.
    eexists _, metadata. repeat split; [|exact Hm | exact Hc].
    apply dict_update_keeps. exact Hn.
  - destruct (String.eqb_spec "metadata" k) as [Heq2|Hne2].
    + subst k. rewrite Hm in Hk. injection Hk as <-.
      eexists identity, _. repeat split; [exact Hi | exact Hn |].
      apply dict_update_keeps. exact Hc.
    + exists identity, metadata. repeat split; assumption.
Qed.

Lemma add_source_well_formed (source_name : string)
    (data item_data item_data' : list (string * pyval)) :
  well_formed_item item_data →
  add_source source_name data item_data = Ok item_data' →
  well_formed_item item_data'.
Proof.
  intros (identity & metadata & Hi & Hn & Hm & Hc) H.
  unfold add_source in H. simpl in H. rewrite Hm in H. simpl in H.
  destruct (lookup_key "sources" metadata) as [[| | | |l|]|]; try discriminate.
  simpl in H. injection H as <-.
  unfold well_formed_item. rewrite !lookup_set_key. simpl.
  eexists identity, _. repeat split; [exact Hi | exact Hn |].
  rewrite lookup_set_key. simpl. exact Hc.
Qed.

Lemma scrape_from_well_formed (source_name : string) (scrape_func : source)
    (item_name : string) (item_data : list (string * pyval)) :
  well_formed_item item_data →
  well_formed_item (scrape_from source_name scrape_func item_name item_data).
Proof.
  intros H. unfold scrape_from.
  destruct (scrape_func item_name) as [data|e]; [|exact H].
  destruct (py_truthy data); [|exact H].
  destruct (py_items data) as [entries|e]; [|exact H]. cbv zeta.
  pose proof (merge_sections_well_formed item_data entries H) as Hmerged.
  destruct (add_source source_name entries (merge_sections item_data entries))
    as [item_data'|e] eqn:Hadd; [|exact Hmerged].
  exact (add_source_well_formed _ _ _ _ Hmerged Hadd).
Qed.

Lemma set_completeness_well_formed (value : string)
    (item_data : list (string * pyval)) :
  well_formed_item item_data → well_formed_item (set_completeness value item_data).
Proof.
  intros (identity & metadata & Hi & Hn & Hm & Hc).
  unfold set_completeness. rewrite Hm.
  unfold well_formed_item. rewrite !lookup_set_key. simpl.
  eexists identity, _. repeat split; [exact Hi | exact Hn |].
  rewrite lookup_set_key. simpl. eauto.
Qed.

Lemma determine_completeness_well_formed (item_data : list (string * pyval)) :
  well_formed_item item_data → well_formed_item (determine_completeness item_data).
Proof.
  intros H. unfold determine_completeness.
  destruct (_ && _); [apply set_completeness_well_formed; exact H|].
  destruct (section_truthy _ _); [apply set_completeness_well_formed; exact H | exact H].
Qed.

Lemma new_item_well_formed (now item_name equipment_type : string) :
  well_formed_item (new_item now item_name equipment_type).
Proof. eexists _, _. repeat split; simpl; eauto. Qed.

Lemma well_formed_reads (item_data : list (string * pyval)) :
  well_formed_item item_data →
  ∃ name status,
    item_name_of (VDict item_data) = Ok name ∧
    completeness_of (VDict item_data) = Ok status.
Proof.
  intros (identity & metadata & Hi & [name Hn] & Hm & [status Hc]).
  exists name, status. unfold item_name_of, completeness_of. simpl.
  rewrite Hi, Hm. simpl. rewrite Hn, Hc. split; reflexivity.
Qed.

(** X25.  Whatever the two sources return or raise, [scrape_item] returns
    an item that [save_item] can read: a dict whose [identity] is a dict
    with an [itemName] and whose [metadata] is a dict with a
    [dataCompleteness]; merging sections can change these values and
    cannot remove them. *)
Theorem scraped_item_can_be_read (wiki community : source)
    (now item_name equipment_type : string) :
  ∃ name status,
    item_name_of (scrape_item wiki community now item_name equipment_type) = Ok name ∧
    completeness_of (scrape_item wiki community now item_name equipment_type)
    = Ok status.
Proof.
  unfold scrape_item. apply well_formed_reads.
  apply determine_completeness_well_formed.
  do 2 apply scrape_from_well_formed.
  apply new_item_well_formed.
Qed.

(** ** Sources that give nothing *)

Lemma scrape_from_nothing (source_name : string) (scrape_func : source)
    (item_name : string) (item_data : list (string * pyval)) :
  gives_nothing scrape_func →
  scrape_from source_name scrape_func item_name item_data = item_data.
Proof.
  intros H. specialize (H item_name). unfold scrape_from.
  destruct (scrape_func item_name) as [data|e]; [|reflexivity].
  destruct H as [-> | Hno]; [reflexivity|].
  destruct (py_truthy data); [|reflexivity].
  rewrite (py_items_no_object data Hno). reflexivity.
Qed.

(** X26.  No failure of a source leaves [scrape_item], and none leaves a
    trace in the item: a source that raises, or returns a falsy value, or a
    value that is no dict, counts for nothing, and the item is the one the
    other source alone would give; with two such sources (the two of the
    class return [{}]) the item is the fresh one, of completeness
    [basic] and without sources. *)
Theorem failing_source_is_an_empty_source (wiki community : source)
    (now item_name equipment_type : string) :
  gives_nothing wiki →
  scrape_item wiki community now item_name equipment_type =
  scrape_item scrape_wiki community now item_name equipment_type ∧
  scrape_item community wiki now item_name equipment_type =
  scrape_item community scrape_community_guides now item_name equipment_type ∧
  scrape_item wiki scrape_community_guides now item_name equipment_type =
  VDict (new_item now item_name equipment_type).
Proof.
  intros H. unfold scrape_item.
  rewrite !(scrape_from_nothing _ wiki _ _ H). repeat split.
Qed.

Lemma failing_source_is_an_empty_source_witness :
  scrape_item failing_source rich_source "t" "x" "guns" =
  scrape_item scrape_wiki rich_source "t" "x" "guns" ∧
  scrape_item rich_source failing_source "t" "x" "guns" =
  scrape_item rich_source scrape_community_guides "t" "x" "guns" ∧
  scrape_item failing_source scrape_community_guides "t" "x" "guns" =
  VDict (new_item "t" "x" "guns").
Proof.
  apply (failing_source_is_an_empty_source failing_source rich_source "t" "x" "guns").
  intros item_name. exact I.
Defined.

End ScraperFacts.

Section SaveItemFacts.
Import Scripts.
#[local] Arguments py_eq : simpl never.

(** ** [save_item] step by step *)

Lemma equipment_path_not_progress (equipment_type : string) :
  equipment_path equipment_type ≠ "progress.json".
Proof. unfold equipment_path. discriminate. Qed.


Lemma read_insert_ne (d : disk) (path path' : string) (file : file_result) :
  path ≠ path' → read (<[path := file]> d) path' = read d path'.
Proof. intros H. unfold read. rewrite lookup_insert_ne by exact H. reflexivity. Qed.

Lemma item_reads (item_data name status : pyval) :
  completeness_of item_data = Ok status →
  item_name_of item_data = Ok name →
  (metadata ← py_getitem_str item_data "metadata";
   status ← py_getitem_str metadata "dataCompleteness";
   name ← item_name_of item_data;
   Ok (name, status)) = Ok (name, status).
Proof.
  intros Hc Hn. unfold completeness_of in Hc.
  apply bind_ok in Hc as (metadata & Hm & Hc).
  rewrite Hm. simpl. rewrite Hc. simpl. rewrite Hn. reflexivity.
Qed.

(** What [save_item] does once the file of the type is read, the item put
    into its list and the list written. *)
Lemma save_item_run (W : surroundings) (now : string) (item_data : pyval)
    (equipment_type : string) (d : disk) (existing_data new_data name status : pyval) :
  Progress.load_json (read d (equipment_path equipment_type)) = Ok existing_data →
  upsert item_data existing_data = Ok new_data →
  write_error W (equipment_path equipment_type) = None →
  completeness_of item_data = Ok status →
  item_name_of item_data = Ok name →
  save_item W now item_data equipment_type d =
  let d1 := <[equipment_path equipment_type := Loaded new_data]> d in
  match Progress.load_json (read d "progress.json") with
  | Raise e => (d1, Raise e)
  | Ok raw =>
      match write_error W "progress.json" with
      | Some e => (d1, Raise e)
      | None =>
          (<["progress.json" := Loaded (VDict (updated now name status raw))]> d1,
           Ok status)
      end
  end.
Proof.
  intros Hload Hupsert Hwrite Hc Hn. unfold save_item.
  rewrite Hload. simpl mbind at 1. rewrite Hupsert.
  unfold save_json at 1. rewrite Hwrite.
  rewrite (item_reads item_data name status Hc Hn).
  unfold update_progress.
  rewrite (read_insert_ne d _ "progress.json" _
             (equipment_path_not_progress equipment_type)).
  cbv zeta.
  destruct (Progress.load_json (read d "progress.json")) as [raw|e]; [|reflexivity].
  simpl mbind. unfold save_json.
  destruct (write_error W "progress.json"); reflexivity.
Qed.

(** What a normal return of [save_item] tells. *)
Lemma save_item_ok (W : surroundings) (now : string) (item_data : pyval)
    (equipment_type : string) (d d' : disk) (status : pyval) :
  save_item W now item_data equipment_type d = (d', Ok status) →
  ∃ existing_data new_data name raw,
    Progress.load_json (read d (equipment_path equipment_type)) = Ok existing_data ∧
    upsert item_data existing_data = Ok new_data ∧
    completeness_of item_data = Ok status ∧
    item_name_of item_data = Ok name ∧
    Progress.load_json (read d "progress.json") = Ok raw ∧
    d' = <["progress.json" := Loaded (VDict (updated now name status raw))]>
           (<[equipment_path equipment_type := Loaded new_data]> d).
Proof.
  unfold save_item. intros H.
  destruct (Progress.load_json (read d (equipment_path equipment_type)))
    as [existing_data|e] eqn:Hload; [|discriminate].
  simpl mbind in H.
  destruct (upsert item_data existing_data) as [new_data|e] eqn:Hupsert;
    [|discriminate].
  unfold save_json in H at 1.
  destruct (write_error W (equipment_path equipment_type)); [discriminate|].
  destruct (py_getitem_str item_data "metadata") as [metadata|e] eqn:Hm;
    [|discriminate].
  simpl mbind in H.
  destruct (py_getitem_str metadata "dataCompleteness") as [status'|e] eqn:Hs;
    [|discriminate].
  simpl mbind in H.
  destruct (item_name_of item_data) as [name|e] eqn:Hn; [|discriminate].
  simpl mbind in H. unfold update_progress in H.
  rewrite (read_insert_ne d _ "progress.json" _
             (equipment_path_not_progress equipment_type)) in H.
  destruct (Progress.load_json (read d "progress.json")) as [raw|e] eqn:Hraw;
    [|discriminate].
  simpl mbind in H. unfold save_json in H.
  destruct (write_error W "progress.json"); [discriminate|].
  injection H as <- <-.
  exists existing_data, new_data, name, raw. repeat split; try assumption.
  unfold completeness_of. rewrite Hm. simpl. exact Hs.
Qed.

(** X27.  [save_item] writes the file of the equipment type before it
    turns to the progress file, and takes nothing back: when reading
    [progress.json] raises (the file cannot be decoded, say), [save_item]
    ends with that exception after the item has been saved in its list; the
    progress file is as it was. *)
Theorem item_is_saved_before_progress (W : surroundings) (now : string)
    (item_data : pyval) (equipment_type : string) (d : disk)
    (existing_data new_data name status : pyval) (e : exn) :
  Progress.load_json (read d (equipment_path equipment_type)) = Ok existing_data →
  upsert item_data existing_data = Ok new_data →
  write_error W (equipment_path equipment_type) = None →
  completeness_of item_data = Ok status →
  item_name_of item_data = Ok name →
  Progress.load_json (read d "progress.json") = Raise e →
  save_item W now item_data equipment_type d =
  (<[equipment_path equipment_type := Loaded new_data]> d, Raise e).
Proof.
  intros Hload Hupsert Hwrite Hc Hn Hraw.
  rewrite (save_item_run W now item_data equipment_type d existing_data new_data
             name status Hload Hupsert Hwrite Hc Hn).
  cbv zeta. rewrite Hraw. reflexivity.
Qed.

Lemma item_is_saved_before_progress_witness :
  save_item obliging "t" (stored_item "x" "new") "guns" corrupt_progress =
  (<[equipment_path "guns" := Loaded (VList [stored_item "x" "new"])]> corrupt_progress,
   Raise JSONDecodeError).
Proof.
  apply (item_is_saved_before_progress obliging "t" (stored_item "x" "new") "guns"
           corrupt_progress (VList []) (VList [stored_item "x" "new"])
           (VStr "x") (VStr "basic") JSONDecodeError); reflexivity.
Defined.

(** ** The status [complete] *)

Lemma set_completeness_reads (value : string) (item_data : list (string * pyval)) :
  well_formed_item item_data →
  completeness_of (VDict (set_completeness value item_data)) = Ok (VStr value) ∧
  item_name_of (VDict (set_completeness value item_data)) =
  item_name_of (VDict item_data).
Proof.
  intros (identity & metadata & Hi & Hn & Hm & Hc).
  unfold set_completeness. rewrite Hm.
  unfold completeness_of, item_name_of. simpl.
  rewrite !lookup_set_key. simpl. rewrite lookup_set_key. simpl.
  split; reflexivity.
Qed.

Lemma no_bucket_lists (now item_name status : string) (raw : pyval) :
  existsb (String.eqb status) Progress.bucket_names = false →
  (∀ bucket, In bucket Progress.bucket_names →
     (Progress.occurrences item_name
        (lookup_key bucket (Progress.as_progress raw)) ≤ 1)%nat) →
  Progress.buckets_of item_name (Progress.updated now item_name status raw) = [].
Proof.
  intros Hstatus Hocc. unfold Progress.buckets_of.
  set (document := Progress.updated now item_name status raw).
  assert (Hnone : ∀ bucket, In bucket Progress.bucket_names →
            Progress.in_bucket item_name document bucket = false).
  { intros bucket Hin. unfold document.
    rewrite (in_bucket_after_update now item_name status raw bucket Hin (Hocc bucket Hin)).
    rewrite Hstatus. reflexivity. }
  revert Hnone. generalize Progress.bucket_names as names.
  induction names as [|bucket names IH]; intros Hnone; [reflexivity|].
  rewrite filter_cons, decide_False.
  - apply IH. intros b Hb. apply Hnone. right. exact Hb.
  - rewrite (Hnone bucket (or_introl eq_refl)). discriminate.
Qed.

(** X28.  The status the scraper gives to an item with numbers and an
    analysis is [complete], and the progress file has no bucket of that
    name (its bucket is [completed]): when [save_item] returns for such an
    item, it returns [complete], and the progress file it leaves lists the
    item in none of the four buckets, although the item was saved (here for
    an item that keeps its name and a progress file that listed it at most
    once per bucket). *)
Theorem complete_items_leave_the_buckets (wiki community : source) (W : surroundings)
    (now now' item_name equipment_type : string) (d d' : disk)
    (status raw : pyval) :
  let merged :=
    scrape_from "community" community item_name
      (scrape_from "wiki" wiki item_name (new_item now item_name equipment_type)) in
  section_truthy "stats_numerical" merged = true →
  section_truthy "derived_analysis" merged = true →
  item_name_of (VDict merged) = Ok (VStr item_name) →
  Progress.load_json (read d "progress.json") = Ok raw →
  (∀ bucket, In bucket Progress.bucket_names →
     (Progress.occurrences item_name
        (lookup_key bucket (Progress.as_progress raw)) ≤ 1)%nat) →
  save_item W now' (scrape_item wiki community now item_name equipment_type)
    equipment_type d = (d', Ok status) →
  status = VStr "complete" ∧
  ∃ document,
    d' !! "progress.json" = Some (Loaded (VDict document)) ∧
    Progress.buckets_of item_name document = [].
Proof.
  intros merged Hnum Hana Hname Hraw Hocc Hsave.
  assert (Hwf : well_formed_item merged).
  { unfold merged. do 2 apply scrape_from_well_formed. apply new_item_well_formed. }
  assert (Hitem : scrape_item wiki community now item_name equipment_type =
                  VDict (set_completeness "complete" merged)).
  { unfold scrape_item, determine_completeness. fold merged.
    rewrite Hnum, Hana. reflexivity. }
  rewrite Hitem in Hsave.
  destruct (set_completeness_reads "complete" merged Hwf) as [Hc Hn].
  rewrite Hname in Hn.
  apply save_item_ok in Hsave
    as (existing_data & new_data & name & raw' & _ & _ & Hc' & Hn' & Hraw' & ->).
  rewrite Hc in Hc'. injection Hc' as <-.
  rewrite Hn in Hn'. injection Hn' as <-.
  rewrite Hraw in Hraw'. injection Hraw' as <-.
  split; [reflexivity|].
  eexists. split; [apply lookup_insert_eq|].
  rewrite updated_of_strings.
  apply no_bucket_lists; [reflexivity | exact Hocc].
Qed.

Lemma complete_items_leave_the_buckets_witness :
  ∃ d' status,
    save_item obliging "t2" (scrape_item rich_source scrape_community_guides "t1" "x" "guns")
      "guns" ∅ = (d', Ok status) ∧
    status = VStr "complete" ∧
    ∃ document,
      d' !! "progress.json" = Some (Loaded (VDict document)) ∧
      Progress.buckets_of "x" document = [].
Proof.
  eexists _, _. split; [reflexivity|].
  apply (complete_items_leave_the_buckets rich_source scrape_community_guides obliging
           "t1" "t2" "x" "guns" ∅ _ _ (VList [])); try reflexivity.
  intros bucket _. simpl. lia.
Defined.

End SaveItemFacts.

Section MainFacts.
Import Scripts.
#[local] Arguments py_eq : simpl never.

(** ** A run of the collection with the sources as they are *)










End MainFacts.


Section BatchFacts.
Import Scripts.

(** ** Batches of five, whatever the sources *)

Lemma git_adds_app (evs evs' : list event) :
  git_adds (evs ++ evs') = (git_adds evs + git_adds evs')%nat.
Proof.
  induction evs as [|[text| |message] evs IH]; simpl; rewrite ?IH; reflexivity.
Qed.

Lemma git_adds_commit (W : surroundings) (calls : nat) (names : list string)
    (status : pyval) :
  git_adds (commit_changes W calls names status) = 1%nat.
Proof. unfold commit_changes. destruct (staged_changes W calls); reflexivity. Qed.

Lemma process_item_batching (wiki community : source) (W : surroundings)
    (clock : nat → string) (n k : nat) (item : string * string)
    (st st' : progress_of_main) :
  batching k st →
  process_item wiki community W clock n item st = (st', Ok ()) →
  batching (S k) st'.
Proof.
  intros (Hlen & Hcount & Hadds) H. destruct item as [item_name equipment_type].
  unfold process_item in H.
  destruct (save_item W _ _ equipment_type (store st)) as [d [status|e]];
    [|discriminate].
  rewrite List.length_app in H. simpl length in H.
  destruct (Nat.leb_spec 5 (length (batch st) + 1)) as [Hfull|Hroom].
  - destruct (commit_status _) as [status'|e]; [|discriminate].
    injection H as <-. unfold batching. simpl.
    rewrite !git_adds_app, git_adds_commit. simpl. repeat split; lia.
  - injection H as <-. unfold batching. simpl.
    rewrite List.length_app, git_adds_app. simpl. repeat split; lia.
Qed.

Lemma process_items_batching (wiki community : source) (W : surroundings)
    (clock : nat → string) (items : list (string * string)) (n k : nat)
    (st st' : progress_of_main) :
  batching k st →
  process_items wiki community W clock n items st = (st', Ok ()) →
  batching (k + length items) st'.
Proof.
  revert n k st. induction items as [|item items IH]; intros n k st Hst H; simpl in H.
  - injection H as <-. rewrite Nat.add_0_r. exact Hst.
  - destruct (process_item wiki community W clock n item st) as [st1 [[]|e]] eqn:Hitem;
      [|discriminate].
    simpl length. rewrite Nat.add_succ_r, <- Nat.add_succ_l.
    apply (IH (S n) (S k) st1); [|exact H].
    exact (process_item_batching wiki community W clock n k item st st1 Hst Hitem).
Qed.

(** X30.  The batches of [main], whatever the sources return, whatever the
    store holds and whether or not git finds changes: when [main] returns
    normally over n items, [commit_changes] has been called once for every
    five items and once more for what was left, that is n divided by five,
    rounded up, times, and each call has staged the files once. *)
Theorem commits_come_in_batches_of_five (wiki community : source) (W : surroundings)
    (clock : nat → string) (items : list (string * string)) (d : disk)
    (st : progress_of_main) :
  main wiki community W clock items d = (st, Ok ()) →
  commits st = ((length items + 4) / 5)%nat ∧
  git_adds (events st) = commits st.
Proof.
  unfold main. intros H.
  destruct (process_items wiki community W clock 0 items _) as [st1 [[]|e]] eqn:Hloop;
    [|discriminate].
  apply (process_items_batching wiki community W clock items 0 0) in Hloop
    as (Hlen & Hcount & Hadds); [|repeat split; simpl; lia].
  simpl in Hcount. unfold commit_remaining in H.
  destruct (batch st1) as [|name names] eqn:Hbatch.
  - injection H as <-. split; [|exact Hadds].
    simpl in Hcount. apply (Nat.div_unique _ 5 (commits st1) 4); lia.
  - destruct (commit_status (batch_status st1)) as [status'|e]; [|discriminate].
    injection H as <-. simpl. simpl length in *. split.
    + apply (Nat.div_unique _ 5 (S (commits st1)) (length names)); lia.
    + rewrite git_adds_app, git_adds_commit. lia.
Qed.

End BatchFacts.

Lemma commits_come_in_batches_of_five_witness :
  Scripts.commits
    (fst (Scripts.main rich_source failing_source obliging (λ n, pretty n)
            (take 7 Scripts.items_to_process) ∅)) = 2%nat ∧
  git_adds
    (Scripts.events
       (fst (Scripts.main rich_source failing_source obliging (λ n, pretty n)
               (take 7 Scripts.items_to_process) ∅))) = 2%nat.
Proof.
  destruct (Scripts.main rich_source failing_source obliging (λ n, pretty n)
              (take 7 Scripts.items_to_process) ∅) as [st r] eqn:Hmain.
  assert (Hr : r = Ok ()).
  { apply (f_equal snd) in Hmain. simpl in Hmain. rewrite <- Hmain.
    vm_compute. reflexivity. }
  subst r.
  destruct (commits_come_in_batches_of_five rich_source failing_source obliging
              (λ n, pretty n) (take 7 Scripts.items_to_process) ∅ st Hmain)
    as [Hc Ha].
  simpl fst. rewrite Ha, Hc. split; reflexivity.
Defined.
